(** * Shallow embedding of OMR's [MM_Configuration] (gc/base/Configuration.cpp)

    The memory-management bootstrap controller is embedded as monadic
    functions over an explicit run-time state: the shared
    [MM_GCExtensionsBase] record, the [OMR_VM] record and the sequence of
    calls made into collaborating objects (heap, collector, dispatcher,
    NUMA manager, language delegate, ...).  [uintptr_t] values are integers
    in [0, 2^64) whose wrap-around is written out. *)

From Stdlib Require Import ZArith List Bool Lia.
Import ListNotations.
Local Open Scope Z_scope.

(** ** Machine integers *)

Definition UDATA_MAX : Z := 2 ^ 64 - 1.

(** Reduction of an integer to the range of [uintptr_t]. *)
Definition wrap (z : Z) : Z := z mod 2 ^ 64.

Definition uadd (a b : Z) : Z := wrap (a + b).
Definition usub (a b : Z) : Z := wrap (a - b).
Definition umul (a b : Z) : Z := wrap (a * b).

(** [a << n] on [uintptr_t].  C leaves the shift undefined for a count
    outside [0, 64), and what the machine then does differs (the x86-64
    instruction uses the count modulo 64).  The embedding gives the shift
    the value of [Z.shiftl] reduced to 64 bits, which is 0 from a count of
    64 on.  The counts that the code derives itself are bounded by
    hypothesis where a statement depends on them; a statement about a shift
    by a count that the user forces speaks for the code only while that
    count is below 64. *)
Definition ushl (a n : Z) : Z := wrap (Z.shiftl a n).

(** The casts [(intptr_t)] and [(uintptr_t)]. *)
Definition to_intptr (z : Z) : Z := if z <? 2 ^ 63 then z else z - 2 ^ 64.
Definition to_uintptr (z : Z) : Z := wrap z.

(** Modelled from the spec: the macros [OMR_MAX] and [OMR_MIN] are declared
    outside this file; the spec uses them as the greater and the smaller of
    two values ("clamp", "maximum of the existing and the new value"). *)
Definition OMR_MAX (a b : Z) : Z := if a >? b then a else b.
Definition OMR_MIN (a b : Z) : Z := if a <? b then a else b.

Module MM_Math.

(** Modelled from the spec: [MM_Math::roundToFloor] and
    [MM_Math::roundToCeiling] are declared outside this file; the spec has
    them round a size down, respectively up, to the nearest multiple of the
    granularity.  They give the rounded value for a granularity other than
    0; with a granularity of 0 the remainder they take stops the process,
    which is modelled where they are called. *)
Definition roundToFloor (granularity number : Z) : Z :=
  usub number (number mod granularity).

Definition roundToCeiling (granularity number : Z) : Z :=
  uadd number
       (if number mod granularity =? 0 then 0
        else granularity - number mod granularity).

End MM_Math.

(** ** Data model *)

Definition address : Type := Z.

Record MM_MemorySpace : Type := { memorySpace_address : address }.

Record MM_Heap : Type := {
  heap_address : address;
  getHeapBase : Z;
  getHeapTop : Z;
  getMaximumMemorySize : Z;
  getDefaultMemorySpace : option MM_MemorySpace
}.

Definition setDefaultMemorySpace (ms : option MM_MemorySpace) (h : MM_Heap) : MM_Heap :=
  {| heap_address := heap_address h; getHeapBase := getHeapBase h;
     getHeapTop := getHeapTop h; getMaximumMemorySize := getMaximumMemorySize h;
     getDefaultMemorySpace := ms |}.

Record MM_MemoryManager : Type := { memoryManager_address : address }.
Record MM_HeapRegionManager : Type := { heapRegionManager_address : address }.
Record MM_ReferenceChainWalkerMarkMap : Type := { markMap_address : address }.
Record MM_Collector : Type := { collector_address : address }.
Record MM_GlobalAllocationManager : Type := { globalAllocationManager_address : address }.
Record J9Pool : Type := { pool_address : address }.

Record MM_ParallelDispatcher : Type := {
  dispatcher_address : address;
  threadCountMaximum : Z
}.

Record MM_UserSpecifiedParameterBool : Type := {
  _wasSpecified : bool;
  _valueSpecified : bool
}.

Inductive ScavengerScanOrdering : Type :=
| OMR_GC_SCAVENGER_SCANORDERING_NONE
| OMR_GC_SCAVENGER_SCANORDERING_BREADTH_FIRST
| OMR_GC_SCAVENGER_SCANORDERING_DYNAMIC_BREADTH_FIRST
| OMR_GC_SCAVENGER_SCANORDERING_HIERARCHICAL.

(** The allocation types; [gc_modron_allocation_type_illegal] stands for
    every value that is neither of the two variants. *)
Inductive MM_GCAllocationType : Type :=
| gc_modron_allocation_type_illegal
| gc_modron_allocation_type_tlh
| gc_modron_allocation_type_segregated.

(** The write barrier type is only handed on to the delegate. *)
Definition MM_GCWriteBarrierType : Type := Z.

Inductive MM_AlignmentType : Type :=
| mm_heapAlignment
| mm_regionAlignment.

Inductive MM_ObjectAllocationInterface : Type :=
| MM_TLHAllocationInterface (a : address)
| MM_SegregatedAllocationInterface (a : address).

Record MM_EnvironmentBase : Type := {
  env_omrVMThread : address;
  _objectAllocationInterface : option MM_ObjectAllocationInterface
}.

Record OMR_VM : Type := {
  compressObjectReferences : bool;
  _compressedPointersShift : Z;
  _arrayletLeafSize : Z;
  _arrayletLeafLogSize : Z
}.

Record MM_InitializationParameters : Type := {
  _minimumSpaceSize : Z;
  _minimumNewSpaceSize : Z;
  _initialNewSpaceSize : Z;
  _maximumNewSpaceSize : Z;
  _minimumOldSpaceSize : Z;
  _initialOldSpaceSize : Z;
  _maximumOldSpaceSize : Z;
  _maximumSpaceSize : Z
}.

Record MM_GCExtensionsBase : Type := {
  heap : option MM_Heap;
  memoryManager : option MM_MemoryManager;
  heapRegionManager : option MM_HeapRegionManager;
  referenceChainWalkerMarkMap : option MM_ReferenceChainWalkerMarkMap;
  _globalCollector : option MM_Collector;
  dispatcher : option MM_ParallelDispatcher;
  globalAllocationManager : option MM_GlobalAllocationManager;
  _lightweightNonReentrantLockPool : option J9Pool;
  _isMetronomeGC : bool;
  excessiveGCEnabled : MM_UserSpecifiedParameterBool;
  gcThreadCountSpecified : bool;
  gcThreadCount : Z;
  packetListSplitForced : bool;
  packetListSplit : Z;
  cacheListSplitForced : bool;
  cacheListSplit : Z;
  splitFreeListAmountForced : bool;
  splitFreeListSplitAmount : Z;
  scavengerEnabled : bool;
  scavengerScanOrdering : ScavengerScanOrdering;
  adaptiveGcCountBetweenHotFieldSort : bool;
  regionSize : Z;
  heapAlignment : Z;
  shouldAllowShiftingCompression : bool;
  shouldForceSpecifiedShiftingCompression : bool;
  forcedShiftingCompressionAmount : Z;
  shouldForceLowMemoryHeapCeilingShiftIfPossible : bool;
  fvtest_verifyHeapAbove : Z;
  fvtest_verifyHeapBelow : Z
}.

Definition set_heap (v : option MM_Heap) (e : MM_GCExtensionsBase) : MM_GCExtensionsBase :=
  {| heap := v; memoryManager := memoryManager e; heapRegionManager := heapRegionManager e;
     referenceChainWalkerMarkMap := referenceChainWalkerMarkMap e;
     _globalCollector := _globalCollector e; dispatcher := dispatcher e;
     globalAllocationManager := globalAllocationManager e;
     _lightweightNonReentrantLockPool := _lightweightNonReentrantLockPool e;
     _isMetronomeGC := _isMetronomeGC e; excessiveGCEnabled := excessiveGCEnabled e;
     gcThreadCountSpecified := gcThreadCountSpecified e; gcThreadCount := gcThreadCount e;
     packetListSplitForced := packetListSplitForced e; packetListSplit := packetListSplit e;
     cacheListSplitForced := cacheListSplitForced e; cacheListSplit := cacheListSplit e;
     splitFreeListAmountForced := splitFreeListAmountForced e;
     splitFreeListSplitAmount := splitFreeListSplitAmount e;
     scavengerEnabled := scavengerEnabled e; scavengerScanOrdering := scavengerScanOrdering e;
     adaptiveGcCountBetweenHotFieldSort := adaptiveGcCountBetweenHotFieldSort e;
     regionSize := regionSize e; heapAlignment := heapAlignment e;
     shouldAllowShiftingCompression := shouldAllowShiftingCompression e;
     shouldForceSpecifiedShiftingCompression := shouldForceSpecifiedShiftingCompression e;
     forcedShiftingCompressionAmount := forcedShiftingCompressionAmount e;
     shouldForceLowMemoryHeapCeilingShiftIfPossible := shouldForceLowMemoryHeapCeilingShiftIfPossible e;
     fvtest_verifyHeapAbove := fvtest_verifyHeapAbove e;
     fvtest_verifyHeapBelow := fvtest_verifyHeapBelow e |}.

Definition set_memoryManager (v : option MM_MemoryManager) (e : MM_GCExtensionsBase) : MM_GCExtensionsBase :=
  {| heap := heap e; memoryManager := v; heapRegionManager := heapRegionManager e;
     referenceChainWalkerMarkMap := referenceChainWalkerMarkMap e;
     _globalCollector := _globalCollector e; dispatcher := dispatcher e;
     globalAllocationManager := globalAllocationManager e;
     _lightweightNonReentrantLockPool := _lightweightNonReentrantLockPool e;
     _isMetronomeGC := _isMetronomeGC e; excessiveGCEnabled := excessiveGCEnabled e;
     gcThreadCountSpecified := gcThreadCountSpecified e; gcThreadCount := gcThreadCount e;
     packetListSplitForced := packetListSplitForced e; packetListSplit := packetListSplit e;
     cacheListSplitForced := cacheListSplitForced e; cacheListSplit := cacheListSplit e;
     splitFreeListAmountForced := splitFreeListAmountForced e;
     splitFreeListSplitAmount := splitFreeListSplitAmount e;
     scavengerEnabled := scavengerEnabled e; scavengerScanOrdering := scavengerScanOrdering e;
     adaptiveGcCountBetweenHotFieldSort := adaptiveGcCountBetweenHotFieldSort e;
     regionSize := regionSize e; heapAlignment := heapAlignment e;
     shouldAllowShiftingCompression := shouldAllowShiftingCompression e;
     shouldForceSpecifiedShiftingCompression := shouldForceSpecifiedShiftingCompression e;
     forcedShiftingCompressionAmount := forcedShiftingCompressionAmount e;
     shouldForceLowMemoryHeapCeilingShiftIfPossible := shouldForceLowMemoryHeapCeilingShiftIfPossible e;
     fvtest_verifyHeapAbove := fvtest_verifyHeapAbove e;
     fvtest_verifyHeapBelow := fvtest_verifyHeapBelow e |}.

Definition set_heapRegionManager (v : option MM_HeapRegionManager) (e : MM_GCExtensionsBase) : MM_GCExtensionsBase :=
  {| heap := heap e; memoryManager := memoryManager e; heapRegionManager := v;
     referenceChainWalkerMarkMap := referenceChainWalkerMarkMap e;
     _globalCollector := _globalCollector e; dispatcher := dispatcher e;
     globalAllocationManager := globalAllocationManager e;
     _lightweightNonReentrantLockPool := _lightweightNonReentrantLockPool e;
     _isMetronomeGC := _isMetronomeGC e; excessiveGCEnabled := excessiveGCEnabled e;
     gcThreadCountSpecified := gcThreadCountSpecified e; gcThreadCount := gcThreadCount e;
     packetListSplitForced := packetListSplitForced e; packetListSplit := packetListSplit e;
     cacheListSplitForced := cacheListSplitForced e; cacheListSplit := cacheListSplit e;
     splitFreeListAmountForced := splitFreeListAmountForced e;
     splitFreeListSplitAmount := splitFreeListSplitAmount e;
     scavengerEnabled := scavengerEnabled e; scavengerScanOrdering := scavengerScanOrdering e;
     adaptiveGcCountBetweenHotFieldSort := adaptiveGcCountBetweenHotFieldSort e;
     regionSize := regionSize e; heapAlignment := heapAlignment e;
     shouldAllowShiftingCompression := shouldAllowShiftingCompression e;
     shouldForceSpecifiedShiftingCompression := shouldForceSpecifiedShiftingCompression e;
     forcedShiftingCompressionAmount := forcedShiftingCompressionAmount e;
     shouldForceLowMemoryHeapCeilingShiftIfPossible := shouldForceLowMemoryHeapCeilingShiftIfPossible e;
     fvtest_verifyHeapAbove := fvtest_verifyHeapAbove e;
     fvtest_verifyHeapBelow := fvtest_verifyHeapBelow e |}.

Definition set_referenceChainWalkerMarkMap (v : option MM_ReferenceChainWalkerMarkMap) (e : MM_GCExtensionsBase) : MM_GCExtensionsBase :=
  {| heap := heap e; memoryManager := memoryManager e; heapRegionManager := heapRegionManager e;
     referenceChainWalkerMarkMap := v; _globalCollector := _globalCollector e;
     dispatcher := dispatcher e; globalAllocationManager := globalAllocationManager e;
     _lightweightNonReentrantLockPool := _lightweightNonReentrantLockPool e;
     _isMetronomeGC := _isMetronomeGC e; excessiveGCEnabled := excessiveGCEnabled e;
     gcThreadCountSpecified := gcThreadCountSpecified e; gcThreadCount := gcThreadCount e;
     packetListSplitForced := packetListSplitForced e; packetListSplit := packetListSplit e;
     cacheListSplitForced := cacheListSplitForced e; cacheListSplit := cacheListSplit e;
     splitFreeListAmountForced := splitFreeListAmountForced e;
     splitFreeListSplitAmount := splitFreeListSplitAmount e;
     scavengerEnabled := scavengerEnabled e; scavengerScanOrdering := scavengerScanOrdering e;
     adaptiveGcCountBetweenHotFieldSort := adaptiveGcCountBetweenHotFieldSort e;
     regionSize := regionSize e; heapAlignment := heapAlignment e;
     shouldAllowShiftingCompression := shouldAllowShiftingCompression e;
     shouldForceSpecifiedShiftingCompression := shouldForceSpecifiedShiftingCompression e;
     forcedShiftingCompressionAmount := forcedShiftingCompressionAmount e;
     shouldForceLowMemoryHeapCeilingShiftIfPossible := shouldForceLowMemoryHeapCeilingShiftIfPossible e;
     fvtest_verifyHeapAbove := fvtest_verifyHeapAbove e;
     fvtest_verifyHeapBelow := fvtest_verifyHeapBelow e |}.

Definition set_globalCollector (v : option MM_Collector) (e : MM_GCExtensionsBase) : MM_GCExtensionsBase :=
  {| heap := heap e; memoryManager := memoryManager e; heapRegionManager := heapRegionManager e;
     referenceChainWalkerMarkMap := referenceChainWalkerMarkMap e; _globalCollector := v;
     dispatcher := dispatcher e; globalAllocationManager := globalAllocationManager e;
     _lightweightNonReentrantLockPool := _lightweightNonReentrantLockPool e;
     _isMetronomeGC := _isMetronomeGC e; excessiveGCEnabled := excessiveGCEnabled e;
     gcThreadCountSpecified := gcThreadCountSpecified e; gcThreadCount := gcThreadCount e;
     packetListSplitForced := packetListSplitForced e; packetListSplit := packetListSplit e;
     cacheListSplitForced := cacheListSplitForced e; cacheListSplit := cacheListSplit e;
     splitFreeListAmountForced := splitFreeListAmountForced e;
     splitFreeListSplitAmount := splitFreeListSplitAmount e;
     scavengerEnabled := scavengerEnabled e; scavengerScanOrdering := scavengerScanOrdering e;
     adaptiveGcCountBetweenHotFieldSort := adaptiveGcCountBetweenHotFieldSort e;
     regionSize := regionSize e; heapAlignment := heapAlignment e;
     shouldAllowShiftingCompression := shouldAllowShiftingCompression e;
     shouldForceSpecifiedShiftingCompression := shouldForceSpecifiedShiftingCompression e;
     forcedShiftingCompressionAmount := forcedShiftingCompressionAmount e;
     shouldForceLowMemoryHeapCeilingShiftIfPossible := shouldForceLowMemoryHeapCeilingShiftIfPossible e;
     fvtest_verifyHeapAbove := fvtest_verifyHeapAbove e;
     fvtest_verifyHeapBelow := fvtest_verifyHeapBelow e |}.

Definition set_dispatcher (v : option MM_ParallelDispatcher) (e : MM_GCExtensionsBase) : MM_GCExtensionsBase :=
  {| heap := heap e; memoryManager := memoryManager e; heapRegionManager := heapRegionManager e;
     referenceChainWalkerMarkMap := referenceChainWalkerMarkMap e;
     _globalCollector := _globalCollector e; dispatcher := v;
     globalAllocationManager := globalAllocationManager e;
     _lightweightNonReentrantLockPool := _lightweightNonReentrantLockPool e;
     _isMetronomeGC := _isMetronomeGC e; excessiveGCEnabled := excessiveGCEnabled e;
     gcThreadCountSpecified := gcThreadCountSpecified e; gcThreadCount := gcThreadCount e;
     packetListSplitForced := packetListSplitForced e; packetListSplit := packetListSplit e;
     cacheListSplitForced := cacheListSplitForced e; cacheListSplit := cacheListSplit e;
     splitFreeListAmountForced := splitFreeListAmountForced e;
     splitFreeListSplitAmount := splitFreeListSplitAmount e;
     scavengerEnabled := scavengerEnabled e; scavengerScanOrdering := scavengerScanOrdering e;
     adaptiveGcCountBetweenHotFieldSort := adaptiveGcCountBetweenHotFieldSort e;
     regionSize := regionSize e; heapAlignment := heapAlignment e;
     shouldAllowShiftingCompression := shouldAllowShiftingCompression e;
     shouldForceSpecifiedShiftingCompression := shouldForceSpecifiedShiftingCompression e;
     forcedShiftingCompressionAmount := forcedShiftingCompressionAmount e;
     shouldForceLowMemoryHeapCeilingShiftIfPossible := shouldForceLowMemoryHeapCeilingShiftIfPossible e;
     fvtest_verifyHeapAbove := fvtest_verifyHeapAbove e;
     fvtest_verifyHeapBelow := fvtest_verifyHeapBelow e |}.

Definition set_globalAllocationManager (v : option MM_GlobalAllocationManager) (e : MM_GCExtensionsBase) : MM_GCExtensionsBase :=
  {| heap := heap e; memoryManager := memoryManager e; heapRegionManager := heapRegionManager e;
     referenceChainWalkerMarkMap := referenceChainWalkerMarkMap e;
     _globalCollector := _globalCollector e; dispatcher := dispatcher e;
     globalAllocationManager := v;
     _lightweightNonReentrantLockPool := _lightweightNonReentrantLockPool e;
     _isMetronomeGC := _isMetronomeGC e; excessiveGCEnabled := excessiveGCEnabled e;
     gcThreadCountSpecified := gcThreadCountSpecified e; gcThreadCount := gcThreadCount e;
     packetListSplitForced := packetListSplitForced e; packetListSplit := packetListSplit e;
     cacheListSplitForced := cacheListSplitForced e; cacheListSplit := cacheListSplit e;
     splitFreeListAmountForced := splitFreeListAmountForced e;
     splitFreeListSplitAmount := splitFreeListSplitAmount e;
     scavengerEnabled := scavengerEnabled e; scavengerScanOrdering := scavengerScanOrdering e;
     adaptiveGcCountBetweenHotFieldSort := adaptiveGcCountBetweenHotFieldSort e;
     regionSize := regionSize e; heapAlignment := heapAlignment e;
     shouldAllowShiftingCompression := shouldAllowShiftingCompression e;
     shouldForceSpecifiedShiftingCompression := shouldForceSpecifiedShiftingCompression e;
     forcedShiftingCompressionAmount := forcedShiftingCompressionAmount e;
     shouldForceLowMemoryHeapCeilingShiftIfPossible := shouldForceLowMemoryHeapCeilingShiftIfPossible e;
     fvtest_verifyHeapAbove := fvtest_verifyHeapAbove e;
     fvtest_verifyHeapBelow := fvtest_verifyHeapBelow e |}.

Definition set_lightweightNonReentrantLockPool (v : option J9Pool) (e : MM_GCExtensionsBase) : MM_GCExtensionsBase :=
  {| heap := heap e; memoryManager := memoryManager e; heapRegionManager := heapRegionManager e;
     referenceChainWalkerMarkMap := referenceChainWalkerMarkMap e;
     _globalCollector := _globalCollector e; dispatcher := dispatcher e;
     globalAllocationManager := globalAllocationManager e;
     _lightweightNonReentrantLockPool := v; _isMetronomeGC := _isMetronomeGC e;
     excessiveGCEnabled := excessiveGCEnabled e;
     gcThreadCountSpecified := gcThreadCountSpecified e; gcThreadCount := gcThreadCount e;
     packetListSplitForced := packetListSplitForced e; packetListSplit := packetListSplit e;
     cacheListSplitForced := cacheListSplitForced e; cacheListSplit := cacheListSplit e;
     splitFreeListAmountForced := splitFreeListAmountForced e;
     splitFreeListSplitAmount := splitFreeListSplitAmount e;
     scavengerEnabled := scavengerEnabled e; scavengerScanOrdering := scavengerScanOrdering e;
     adaptiveGcCountBetweenHotFieldSort := adaptiveGcCountBetweenHotFieldSort e;
     regionSize := regionSize e; heapAlignment := heapAlignment e;
     shouldAllowShiftingCompression := shouldAllowShiftingCompression e;
     shouldForceSpecifiedShiftingCompression := shouldForceSpecifiedShiftingCompression e;
     forcedShiftingCompressionAmount := forcedShiftingCompressionAmount e;
     shouldForceLowMemoryHeapCeilingShiftIfPossible := shouldForceLowMemoryHeapCeilingShiftIfPossible e;
     fvtest_verifyHeapAbove := fvtest_verifyHeapAbove e;
     fvtest_verifyHeapBelow := fvtest_verifyHeapBelow e |}.

Definition set_excessiveGCEnabled (v : MM_UserSpecifiedParameterBool) (e : MM_GCExtensionsBase) : MM_GCExtensionsBase :=
  {| heap := heap e; memoryManager := memoryManager e; heapRegionManager := heapRegionManager e;
     referenceChainWalkerMarkMap := referenceChainWalkerMarkMap e;
     _globalCollector := _globalCollector e; dispatcher := dispatcher e;
     globalAllocationManager := globalAllocationManager e;
     _lightweightNonReentrantLockPool := _lightweightNonReentrantLockPool e;
     _isMetronomeGC := _isMetronomeGC e; excessiveGCEnabled := v;
     gcThreadCountSpecified := gcThreadCountSpecified e; gcThreadCount := gcThreadCount e;
     packetListSplitForced := packetListSplitForced e; packetListSplit := packetListSplit e;
     cacheListSplitForced := cacheListSplitForced e; cacheListSplit := cacheListSplit e;
     splitFreeListAmountForced := splitFreeListAmountForced e;
     splitFreeListSplitAmount := splitFreeListSplitAmount e;
     scavengerEnabled := scavengerEnabled e; scavengerScanOrdering := scavengerScanOrdering e;
     adaptiveGcCountBetweenHotFieldSort := adaptiveGcCountBetweenHotFieldSort e;
     regionSize := regionSize e; heapAlignment := heapAlignment e;
     shouldAllowShiftingCompression := shouldAllowShiftingCompression e;
     shouldForceSpecifiedShiftingCompression := shouldForceSpecifiedShiftingCompression e;
     forcedShiftingCompressionAmount := forcedShiftingCompressionAmount e;
     shouldForceLowMemoryHeapCeilingShiftIfPossible := shouldForceLowMemoryHeapCeilingShiftIfPossible e;
     fvtest_verifyHeapAbove := fvtest_verifyHeapAbove e;
     fvtest_verifyHeapBelow := fvtest_verifyHeapBelow e |}.

Definition set_gcThreadCount (v : Z) (e : MM_GCExtensionsBase) : MM_GCExtensionsBase :=
  {| heap := heap e; memoryManager := memoryManager e; heapRegionManager := heapRegionManager e;
     referenceChainWalkerMarkMap := referenceChainWalkerMarkMap e;
     _globalCollector := _globalCollector e; dispatcher := dispatcher e;
     globalAllocationManager := globalAllocationManager e;
     _lightweightNonReentrantLockPool := _lightweightNonReentrantLockPool e;
     _isMetronomeGC := _isMetronomeGC e; excessiveGCEnabled := excessiveGCEnabled e;
     gcThreadCountSpecified := gcThreadCountSpecified e; gcThreadCount := v;
     packetListSplitForced := packetListSplitForced e; packetListSplit := packetListSplit e;
     cacheListSplitForced := cacheListSplitForced e; cacheListSplit := cacheListSplit e;
     splitFreeListAmountForced := splitFreeListAmountForced e;
     splitFreeListSplitAmount := splitFreeListSplitAmount e;
     scavengerEnabled := scavengerEnabled e; scavengerScanOrdering := scavengerScanOrdering e;
     adaptiveGcCountBetweenHotFieldSort := adaptiveGcCountBetweenHotFieldSort e;
     regionSize := regionSize e; heapAlignment := heapAlignment e;
     shouldAllowShiftingCompression := shouldAllowShiftingCompression e;
     shouldForceSpecifiedShiftingCompression := shouldForceSpecifiedShiftingCompression e;
     forcedShiftingCompressionAmount := forcedShiftingCompressionAmount e;
     shouldForceLowMemoryHeapCeilingShiftIfPossible := shouldForceLowMemoryHeapCeilingShiftIfPossible e;
     fvtest_verifyHeapAbove := fvtest_verifyHeapAbove e;
     fvtest_verifyHeapBelow := fvtest_verifyHeapBelow e |}.

Definition set_packetListSplit (v : Z) (e : MM_GCExtensionsBase) : MM_GCExtensionsBase :=
  {| heap := heap e; memoryManager := memoryManager e; heapRegionManager := heapRegionManager e;
     referenceChainWalkerMarkMap := referenceChainWalkerMarkMap e;
     _globalCollector := _globalCollector e; dispatcher := dispatcher e;
     globalAllocationManager := globalAllocationManager e;
     _lightweightNonReentrantLockPool := _lightweightNonReentrantLockPool e;
     _isMetronomeGC := _isMetronomeGC e; excessiveGCEnabled := excessiveGCEnabled e;
     gcThreadCountSpecified := gcThreadCountSpecified e; gcThreadCount := gcThreadCount e;
     packetListSplitForced := packetListSplitForced e; packetListSplit := v;
     cacheListSplitForced := cacheListSplitForced e; cacheListSplit := cacheListSplit e;
     splitFreeListAmountForced := splitFreeListAmountForced e;
     splitFreeListSplitAmount := splitFreeListSplitAmount e;
     scavengerEnabled := scavengerEnabled e; scavengerScanOrdering := scavengerScanOrdering e;
     adaptiveGcCountBetweenHotFieldSort := adaptiveGcCountBetweenHotFieldSort e;
     regionSize := regionSize e; heapAlignment := heapAlignment e;
     shouldAllowShiftingCompression := shouldAllowShiftingCompression e;
     shouldForceSpecifiedShiftingCompression := shouldForceSpecifiedShiftingCompression e;
     forcedShiftingCompressionAmount := forcedShiftingCompressionAmount e;
     shouldForceLowMemoryHeapCeilingShiftIfPossible := shouldForceLowMemoryHeapCeilingShiftIfPossible e;
     fvtest_verifyHeapAbove := fvtest_verifyHeapAbove e;
     fvtest_verifyHeapBelow := fvtest_verifyHeapBelow e |}.

Definition set_cacheListSplit (v : Z) (e : MM_GCExtensionsBase) : MM_GCExtensionsBase :=
  {| heap := heap e; memoryManager := memoryManager e; heapRegionManager := heapRegionManager e;
     referenceChainWalkerMarkMap := referenceChainWalkerMarkMap e;
     _globalCollector := _globalCollector e; dispatcher := dispatcher e;
     globalAllocationManager := globalAllocationManager e;
     _lightweightNonReentrantLockPool := _lightweightNonReentrantLockPool e;
     _isMetronomeGC := _isMetronomeGC e; excessiveGCEnabled := excessiveGCEnabled e;
     gcThreadCountSpecified := gcThreadCountSpecified e; gcThreadCount := gcThreadCount e;
     packetListSplitForced := packetListSplitForced e; packetListSplit := packetListSplit e;
     cacheListSplitForced := cacheListSplitForced e; cacheListSplit := v;
     splitFreeListAmountForced := splitFreeListAmountForced e;
     splitFreeListSplitAmount := splitFreeListSplitAmount e;
     scavengerEnabled := scavengerEnabled e; scavengerScanOrdering := scavengerScanOrdering e;
     adaptiveGcCountBetweenHotFieldSort := adaptiveGcCountBetweenHotFieldSort e;
     regionSize := regionSize e; heapAlignment := heapAlignment e;
     shouldAllowShiftingCompression := shouldAllowShiftingCompression e;
     shouldForceSpecifiedShiftingCompression := shouldForceSpecifiedShiftingCompression e;
     forcedShiftingCompressionAmount := forcedShiftingCompressionAmount e;
     shouldForceLowMemoryHeapCeilingShiftIfPossible := shouldForceLowMemoryHeapCeilingShiftIfPossible e;
     fvtest_verifyHeapAbove := fvtest_verifyHeapAbove e;
     fvtest_verifyHeapBelow := fvtest_verifyHeapBelow e |}.

Definition set_splitFreeListSplitAmount (v : Z) (e : MM_GCExtensionsBase) : MM_GCExtensionsBase :=
  {| heap := heap e; memoryManager := memoryManager e; heapRegionManager := heapRegionManager e;
     referenceChainWalkerMarkMap := referenceChainWalkerMarkMap e;
     _globalCollector := _globalCollector e; dispatcher := dispatcher e;
     globalAllocationManager := globalAllocationManager e;
     _lightweightNonReentrantLockPool := _lightweightNonReentrantLockPool e;
     _isMetronomeGC := _isMetronomeGC e; excessiveGCEnabled := excessiveGCEnabled e;
     gcThreadCountSpecified := gcThreadCountSpecified e; gcThreadCount := gcThreadCount e;
     packetListSplitForced := packetListSplitForced e; packetListSplit := packetListSplit e;
     cacheListSplitForced := cacheListSplitForced e; cacheListSplit := cacheListSplit e;
     splitFreeListAmountForced := splitFreeListAmountForced e; splitFreeListSplitAmount := v;
     scavengerEnabled := scavengerEnabled e; scavengerScanOrdering := scavengerScanOrdering e;
     adaptiveGcCountBetweenHotFieldSort := adaptiveGcCountBetweenHotFieldSort e;
     regionSize := regionSize e; heapAlignment := heapAlignment e;
     shouldAllowShiftingCompression := shouldAllowShiftingCompression e;
     shouldForceSpecifiedShiftingCompression := shouldForceSpecifiedShiftingCompression e;
     forcedShiftingCompressionAmount := forcedShiftingCompressionAmount e;
     shouldForceLowMemoryHeapCeilingShiftIfPossible := shouldForceLowMemoryHeapCeilingShiftIfPossible e;
     fvtest_verifyHeapAbove := fvtest_verifyHeapAbove e;
     fvtest_verifyHeapBelow := fvtest_verifyHeapBelow e |}.

Definition set_scavengerScanOrdering (v : ScavengerScanOrdering) (e : MM_GCExtensionsBase) : MM_GCExtensionsBase :=
  {| heap := heap e; memoryManager := memoryManager e; heapRegionManager := heapRegionManager e;
     referenceChainWalkerMarkMap := referenceChainWalkerMarkMap e;
     _globalCollector := _globalCollector e; dispatcher := dispatcher e;
     globalAllocationManager := globalAllocationManager e;
     _lightweightNonReentrantLockPool := _lightweightNonReentrantLockPool e;
     _isMetronomeGC := _isMetronomeGC e; excessiveGCEnabled := excessiveGCEnabled e;
     gcThreadCountSpecified := gcThreadCountSpecified e; gcThreadCount := gcThreadCount e;
     packetListSplitForced := packetListSplitForced e; packetListSplit := packetListSplit e;
     cacheListSplitForced := cacheListSplitForced e; cacheListSplit := cacheListSplit e;
     splitFreeListAmountForced := splitFreeListAmountForced e;
     splitFreeListSplitAmount := splitFreeListSplitAmount e;
     scavengerEnabled := scavengerEnabled e; scavengerScanOrdering := v;
     adaptiveGcCountBetweenHotFieldSort := adaptiveGcCountBetweenHotFieldSort e;
     regionSize := regionSize e; heapAlignment := heapAlignment e;
     shouldAllowShiftingCompression := shouldAllowShiftingCompression e;
     shouldForceSpecifiedShiftingCompression := shouldForceSpecifiedShiftingCompression e;
     forcedShiftingCompressionAmount := forcedShiftingCompressionAmount e;
     shouldForceLowMemoryHeapCeilingShiftIfPossible := shouldForceLowMemoryHeapCeilingShiftIfPossible e;
     fvtest_verifyHeapAbove := fvtest_verifyHeapAbove e;
     fvtest_verifyHeapBelow := fvtest_verifyHeapBelow e |}.

Definition set_adaptiveGcCountBetweenHotFieldSort (v : bool) (e : MM_GCExtensionsBase) : MM_GCExtensionsBase :=
  {| heap := heap e; memoryManager := memoryManager e; heapRegionManager := heapRegionManager e;
     referenceChainWalkerMarkMap := referenceChainWalkerMarkMap e;
     _globalCollector := _globalCollector e; dispatcher := dispatcher e;
     globalAllocationManager := globalAllocationManager e;
     _lightweightNonReentrantLockPool := _lightweightNonReentrantLockPool e;
     _isMetronomeGC := _isMetronomeGC e; excessiveGCEnabled := excessiveGCEnabled e;
     gcThreadCountSpecified := gcThreadCountSpecified e; gcThreadCount := gcThreadCount e;
     packetListSplitForced := packetListSplitForced e; packetListSplit := packetListSplit e;
     cacheListSplitForced := cacheListSplitForced e; cacheListSplit := cacheListSplit e;
     splitFreeListAmountForced := splitFreeListAmountForced e;
     splitFreeListSplitAmount := splitFreeListSplitAmount e;
     scavengerEnabled := scavengerEnabled e; scavengerScanOrdering := scavengerScanOrdering e;
     adaptiveGcCountBetweenHotFieldSort := v; regionSize := regionSize e;
     heapAlignment := heapAlignment e;
     shouldAllowShiftingCompression := shouldAllowShiftingCompression e;
     shouldForceSpecifiedShiftingCompression := shouldForceSpecifiedShiftingCompression e;
     forcedShiftingCompressionAmount := forcedShiftingCompressionAmount e;
     shouldForceLowMemoryHeapCeilingShiftIfPossible := shouldForceLowMemoryHeapCeilingShiftIfPossible e;
     fvtest_verifyHeapAbove := fvtest_verifyHeapAbove e;
     fvtest_verifyHeapBelow := fvtest_verifyHeapBelow e |}.

Definition set_regionSize (v : Z) (e : MM_GCExtensionsBase) : MM_GCExtensionsBase :=
  {| heap := heap e; memoryManager := memoryManager e; heapRegionManager := heapRegionManager e;
     referenceChainWalkerMarkMap := referenceChainWalkerMarkMap e;
     _globalCollector := _globalCollector e; dispatcher := dispatcher e;
     globalAllocationManager := globalAllocationManager e;
     _lightweightNonReentrantLockPool := _lightweightNonReentrantLockPool e;
     _isMetronomeGC := _isMetronomeGC e; excessiveGCEnabled := excessiveGCEnabled e;
     gcThreadCountSpecified := gcThreadCountSpecified e; gcThreadCount := gcThreadCount e;
     packetListSplitForced := packetListSplitForced e; packetListSplit := packetListSplit e;
     cacheListSplitForced := cacheListSplitForced e; cacheListSplit := cacheListSplit e;
     splitFreeListAmountForced := splitFreeListAmountForced e;
     splitFreeListSplitAmount := splitFreeListSplitAmount e;
     scavengerEnabled := scavengerEnabled e; scavengerScanOrdering := scavengerScanOrdering e;
     adaptiveGcCountBetweenHotFieldSort := adaptiveGcCountBetweenHotFieldSort e;
     regionSize := v; heapAlignment := heapAlignment e;
     shouldAllowShiftingCompression := shouldAllowShiftingCompression e;
     shouldForceSpecifiedShiftingCompression := shouldForceSpecifiedShiftingCompression e;
     forcedShiftingCompressionAmount := forcedShiftingCompressionAmount e;
     shouldForceLowMemoryHeapCeilingShiftIfPossible := shouldForceLowMemoryHeapCeilingShiftIfPossible e;
     fvtest_verifyHeapAbove := fvtest_verifyHeapAbove e;
     fvtest_verifyHeapBelow := fvtest_verifyHeapBelow e |}.

(** ** Collaborators

    Calls that leave this file are recorded, in program order, in the
    run-time state; what they answer is read from the records below. *)

Inductive Call : Type :=
| MemorySpace_kill (memorySpace : MM_MemorySpace)
| ReferenceChainWalkerMarkMap_kill (markMap : MM_ReferenceChainWalkerMarkMap)
| Collector_kill (collector : MM_Collector)
| ParallelDispatcher_kill (d : MM_ParallelDispatcher)
| GlobalAllocationManager_kill (gam : MM_GlobalAllocationManager)
| Heap_kill (h : MM_Heap)
| MemoryManager_kill (mm : MM_MemoryManager)
| HeapRegionManager_kill (hrm : MM_HeapRegionManager)
| pool_kill (pool : J9Pool)
| NUMAManager_recacheNUMASupport
| NUMAManager_shutdownNUMASupport
| Delegate_initialize
| Delegate_tearDown
| Delegate_environmentInitialized (env : MM_EnvironmentBase)
| Delegate_heapInitialized
| Delegate_reinitializeForRestore
| Delegate_checkPointGCThreadCountVerifyAndAdjust
| Environment_kill (env : MM_EnvironmentBase)
| Environment_reinitializeForRestore (env : MM_EnvironmentBase)
| ObjectModel_setObjectAlignment
| Forge_free.

(** The language delegate.  Its hooks answer with a boolean; the one hook
    whose purpose is to rewrite a field of the extensions, the checkpoint
    adjustment of the GC thread count, answers with the adjusted count. *)
Record MM_ConfigurationDelegate : Type := {
  delegate_initialize : MM_GCWriteBarrierType -> MM_GCAllocationType -> bool;
  delegate_environmentInitialized : MM_EnvironmentBase -> bool;
  delegate_heapInitialized : MM_Heap -> bool;
  delegate_reinitializeForRestore : bool;
  getMaxGCThreadCount : Z;
  checkPointGCThreadCountVerifyAndAdjust : MM_GCExtensionsBase -> Z
}.

(** An [MM_Configuration] object: its fields and the virtual methods that
    its subclasses supply. *)
Record MM_Configuration : Type := {
  _delegate : MM_ConfigurationDelegate;
  _alignmentType : MM_AlignmentType;
  _defaultRegionSize : Z;
  _defaultArrayletLeafSize : Z;
  _writeBarrierType : MM_GCWriteBarrierType;
  _allocationType : MM_GCAllocationType;
  verifyRegionSize : Z -> bool;
  createHeapRegionManager : option MM_HeapRegionManager;
  createHeapWithManager : Z -> MM_HeapRegionManager -> option MM_Heap;
  allocateNewEnvironment : address -> option MM_EnvironmentBase
}.

(** Conditional compilation and the constants of omrgcconsts.h. *)
Record Build : Type := {
  OMR_GC_THREAD_LOCAL_HEAP : bool;
  OMR_GC_SEGREGATED_HEAP : bool;
  OMR_GC_COMPRESSED_POINTERS : bool;
  OMR_GC_MODRON_SCAVENGER : bool;
  J9VM_OPT_CRIU_SUPPORT : bool;
  S390 : bool;
  J9ZOS390 : bool;
  LOW_MEMORY_HEAP_CEILING_SHIFT : Z;
  DEFAULT_LOW_MEMORY_HEAP_CEILING_SHIFT : Z;
  powerOfTwoFloor : Z
}.

(** The port library and the constructors of the collaborating classes. *)
Record Platform : Type := {
  omrsysinfo_get_number_CPUs_by_type : Z;
  recacheNUMASupport : bool;
  pool_new : option J9Pool;
  MemoryManager_newInstance : option MM_MemoryManager;
  ParallelDispatcher_newInstance : option MM_ParallelDispatcher;
  TLHAllocationInterface_newInstance : MM_EnvironmentBase -> option address;
  SegregatedAllocationInterface_newInstance : MM_EnvironmentBase -> option address;
  initializeHeapRegionManager : MM_Heap -> MM_HeapRegionManager -> bool;
  threadList : list MM_EnvironmentBase;
  environment_reinitializeForRestore : MM_EnvironmentBase -> bool
}.

(** ** Run-time state and the monad of the embedding *)

Record Runtime : Type := {
  extensions : MM_GCExtensionsBase;
  omrVM : OMR_VM;
  calls : list Call
}.

(** A method either returns, or stops the process at a failed assertion or
    a null dereference; both carry the state reached. *)
Inductive Outcome (A : Type) : Type :=
| Returned (a : A) (rt : Runtime)
| Aborted (rt : Runtime).

Arguments Returned {A} a rt.
Arguments Aborted {A} rt.

Definition stateOf {A : Type} (o : Outcome A) : Runtime :=
  match o with
  | Returned _ rt => rt
  | Aborted rt => rt
  end.

Definition M (A : Type) : Type := Runtime -> Outcome A.

Definition ret {A : Type} (a : A) : M A := fun rt => Returned a rt.

Definition bind {A B : Type} (m : M A) (f : A -> M B) : M B :=
  fun rt =>
    match m rt with
    | Returned a rt' => f a rt'
    | Aborted rt' => Aborted rt'
    end.

Declare Scope config_scope.
Delimit Scope config_scope with config.
Notation "x <- c1 ;; c2" := (bind c1 (fun x => c2))
  (at level 61, c1 at next level, right associativity) : config_scope.
Notation "c1 ;; c2" := (bind c1 (fun _ => c2))
  (at level 61, right associativity) : config_scope.
Local Open Scope config_scope.

Definition getExtensions : M MM_GCExtensionsBase :=
  fun rt => Returned (extensions rt) rt.

Definition modifyExtensions (f : MM_GCExtensionsBase -> MM_GCExtensionsBase) : M unit :=
  fun rt => Returned tt {| extensions := f (extensions rt); omrVM := omrVM rt; calls := calls rt |}.

Definition getOmrVM : M OMR_VM :=
  fun rt => Returned (omrVM rt) rt.

Definition modifyOmrVM (f : OMR_VM -> OMR_VM) : M unit :=
  fun rt => Returned tt {| extensions := extensions rt; omrVM := f (omrVM rt); calls := calls rt |}.

Definition call (c : Call) : M unit :=
  fun rt => Returned tt {| extensions := extensions rt; omrVM := omrVM rt; calls := calls rt ++ [c] |}.

Definition Assert_MM_unreachable {A : Type} : M A := fun rt => Aborted rt.

(** Reading through a null pointer stops the process as well. *)
Definition nullDereference {A : Type} : M A := fun rt => Aborted rt.

Definition Assert_MM_true (b : bool) : M unit :=
  if b then ret tt else Assert_MM_unreachable.

(** An integer division by zero stops the process as well. *)
Definition divisionByZero {A : Type} : M A := fun rt => Aborted rt.

(** A call of one of the roundings of [MM_Math]: the remainder by a
    granularity of 0 is a division by zero. *)
Definition rounding (round : Z -> Z -> Z) (granularity number : Z) : M Z :=
  if granularity =? 0 then divisionByZero else ret (round granularity number).

Definition whenSome {A : Type} (o : option A) (f : A -> M unit) : M unit :=
  match o with
  | Some a => f a
  | None => ret tt
  end.

Definition isSome {A : Type} (o : option A) : bool :=
  match o with
  | Some _ => true
  | None => false
  end.

Definition set_compressedPointersShift (v : Z) (vm : OMR_VM) : OMR_VM :=
  {| compressObjectReferences := compressObjectReferences vm;
     _compressedPointersShift := v;
     _arrayletLeafSize := _arrayletLeafSize vm;
     _arrayletLeafLogSize := _arrayletLeafLogSize vm |}.

Definition set_arrayletLeaf (size logSize : Z) (vm : OMR_VM) : OMR_VM :=
  {| compressObjectReferences := compressObjectReferences vm;
     _compressedPointersShift := _compressedPointersShift vm;
     _arrayletLeafSize := size;
     _arrayletLeafLogSize := logSize |}.

Definition set_valueSpecified (v : bool) (p : MM_UserSpecifiedParameterBool) :
  MM_UserSpecifiedParameterBool :=
  {| _wasSpecified := _wasSpecified p; _valueSpecified := v |}.

Definition set_objectAllocationInterface (v : option MM_ObjectAllocationInterface)
  (env : MM_EnvironmentBase) : MM_EnvironmentBase :=
  {| env_omrVMThread := env_omrVMThread env; _objectAllocationInterface := v |}.

Definition isMetronomeGC (e : MM_GCExtensionsBase) : bool := _isMetronomeGC e.
Definition getGlobalCollector (e : MM_GCExtensionsBase) : option MM_Collector := _globalCollector e.
Definition setGlobalCollector := set_globalCollector.

(** ** The methods of [MM_Configuration] *)

Section Configuration.

Variable build : Build.
Variable port : Platform.

(** Modelled from the spec: [calculatePowerOfTwoShift] is declared in
    Configuration.hpp, outside this file.  The spec has it find the smallest
    power of two, not smaller than a floor value, that can represent the
    requested size, and answer the sentinel 0 when the size cannot be
    represented in the addressable range. *)
Fixpoint findPowerOfTwoShift (floor value : Z) (fuel : nat) (shift : Z) : Z :=
  match fuel with
  | O => 0
  | S fuel' =>
      if (floor <=? 2 ^ shift) && (value <=? 2 ^ shift) then shift
      else findPowerOfTwoShift floor value fuel' (shift + 1)
  end.

Definition calculatePowerOfTwoShift (value : Z) : Z :=
  findPowerOfTwoShift (powerOfTwoFloor build) value 63 1.

Definition destroyCollectors (this : MM_Configuration) : M unit :=
  extensions <- getExtensions ;;
  let collector := getGlobalCollector extensions in
  whenSome collector (fun c =>
    call (Collector_kill c) ;;
    modifyExtensions (setGlobalCollector None)).

Definition tearDown (this : MM_Configuration) : M unit :=
  extensions <- getExtensions ;;
  whenSome (heap extensions) (fun h =>
    whenSome (getDefaultMemorySpace h) (fun modronMemorySpace =>
      call (MemorySpace_kill modronMemorySpace)) ;;
    modifyExtensions (set_heap (Some (setDefaultMemorySpace None h)))) ;;
  extensions <- getExtensions ;;
  whenSome (referenceChainWalkerMarkMap extensions) (fun m =>
    call (ReferenceChainWalkerMarkMap_kill m) ;;
    modifyExtensions (set_referenceChainWalkerMarkMap None)) ;;
  destroyCollectors this ;;
  extensions <- getExtensions ;;
  (if negb (isMetronomeGC extensions) then
     whenSome (dispatcher extensions) (fun d =>
       call (ParallelDispatcher_kill d) ;;
       modifyExtensions (set_dispatcher None))
   else ret tt) ;;
  extensions <- getExtensions ;;
  whenSome (globalAllocationManager extensions) (fun g =>
    call (GlobalAllocationManager_kill g) ;;
    modifyExtensions (set_globalAllocationManager None)) ;;
  extensions <- getExtensions ;;
  whenSome (heap extensions) (fun h =>
    call (Heap_kill h) ;;
    modifyExtensions (set_heap None)) ;;
  extensions <- getExtensions ;;
  whenSome (memoryManager extensions) (fun m =>
    call (MemoryManager_kill m) ;;
    modifyExtensions (set_memoryManager None)) ;;
  extensions <- getExtensions ;;
  whenSome (heapRegionManager extensions) (fun r =>
    call (HeapRegionManager_kill r) ;;
    modifyExtensions (set_heapRegionManager None)) ;;
  extensions <- getExtensions ;;
  whenSome (_lightweightNonReentrantLockPool extensions) (fun p =>
    call (pool_kill p) ;;
    modifyExtensions (set_lightweightNonReentrantLockPool None)) ;;
  call NUMAManager_shutdownNUMASupport ;;
  call Delegate_tearDown.

Definition kill (this : MM_Configuration) : M unit :=
  tearDown this ;;
  call Forge_free.

Definition initializeEnvironment (this : MM_Configuration) (env : MM_EnvironmentBase) :
  M (bool * MM_EnvironmentBase) :=
  env <- match _allocationType this with
         | gc_modron_allocation_type_tlh =>
             if OMR_GC_THREAD_LOCAL_HEAP build then
               ret (set_objectAllocationInterface
                      (option_map MM_TLHAllocationInterface
                         (TLHAllocationInterface_newInstance port env)) env)
             else Assert_MM_unreachable
         | gc_modron_allocation_type_segregated =>
             if OMR_GC_SEGREGATED_HEAP build then
               ret (set_objectAllocationInterface
                      (option_map MM_SegregatedAllocationInterface
                         (SegregatedAllocationInterface_newInstance port env)) env)
             else Assert_MM_unreachable
         | _ => Assert_MM_unreachable
         end ;;
  if isSome (_objectAllocationInterface env) then
    call (Delegate_environmentInitialized env) ;;
    if delegate_environmentInitialized (_delegate this) env then ret (true, env)
    else ret (false, env)
  else ret (false, env).

Definition createEnvironment (this : MM_Configuration) (omrVMThread : address) :
  M (option MM_EnvironmentBase) :=
  match allocateNewEnvironment this omrVMThread with
  | Some env =>
      r <- initializeEnvironment this env ;;
      let (ok, env) := r in
      if negb ok then
        call (Environment_kill env) ;;
        ret None
      else ret (Some env)
  | None => ret None
  end.

(** The loop that lowers the shift while the heap top still fits.  Its body
    runs at most [underShift + 1] times, which is the fuel it is given; C
    evaluates the shift by a negative [underShift] before it tests the
    sign, and the conjunction is false whatever that shift gives. *)
Fixpoint clampUnderShift (heapTop maxAddressValue : Z) (fuel : nat) (underShift : Z) : Z :=
  match fuel with
  | O => underShift
  | S fuel' =>
      if (heapTop <=? ushl maxAddressValue underShift) && (underShift >=? 0)
      then clampUnderShift heapTop maxAddressValue fuel' (underShift - 1)
      else underShift
  end.

Definition initializeRunTimeObjectAlignmentAndCRShift (this : MM_Configuration)
  (heap : MM_Heap) : M bool :=
  extensions <- getExtensions ;;
  omrVM <- getOmrVM ;;
  (if OMR_GC_COMPRESSED_POINTERS build && compressObjectReferences omrVM then
     let heapTop := getHeapTop heap in
     let maxAddressValue := ushl 1 32 in
     let shift := if shouldAllowShiftingCompression extensions
                  then LOW_MEMORY_HEAP_CEILING_SHIFT build else 0 in
     let canChangeShift := true in
     let shift := if shouldForceSpecifiedShiftingCompression extensions
                  then forcedShiftingCompressionAmount extensions else shift in
     let canChangeShift := if shouldForceSpecifiedShiftingCompression extensions
                           then false else canChangeShift in
     shift <- (if heapTop <=? ushl maxAddressValue shift then
                 if canChangeShift then
                   let underShift := to_intptr shift - 1 in
                   let underShift :=
                     clampUnderShift heapTop maxAddressValue
                       (Z.to_nat (underShift + 1)) underShift in
                   ret (to_uintptr (underShift + 1))
                 else ret shift
               else Assert_MM_unreachable) ;;
     let shift :=
       if negb (S390 build) && negb (J9ZOS390 build) then
         if canChangeShift && negb (0 =? shift)
            && (shift <? DEFAULT_LOW_MEMORY_HEAP_CEILING_SHIFT build)
         then DEFAULT_LOW_MEMORY_HEAP_CEILING_SHIFT build else shift
       else shift in
     let shift :=
       if shouldForceLowMemoryHeapCeilingShiftIfPossible extensions then
         if canChangeShift && (shift <? DEFAULT_LOW_MEMORY_HEAP_CEILING_SHIFT build)
         then DEFAULT_LOW_MEMORY_HEAP_CEILING_SHIFT build else shift
       else shift in
     modifyOmrVM (set_compressedPointersShift shift)
   else ret tt) ;;
  call ObjectModel_setObjectAlignment ;;
  ret true.

Definition createHeap (this : MM_Configuration) (heapBytesRequested : Z) :
  M (option MM_Heap) :=
  extensions <- getExtensions ;;
  haveMemoryManager <-
    match memoryManager extensions with
    | None =>
        modifyExtensions (set_memoryManager (MemoryManager_newInstance port)) ;;
        ret (isSome (MemoryManager_newInstance port))
    | Some _ => ret true
    end ;;
  if negb haveMemoryManager then ret None else
  extensions <- getExtensions ;;
  regionManager <-
    match heapRegionManager extensions with
    | None =>
        modifyExtensions (set_heapRegionManager (createHeapRegionManager this)) ;;
        ret (createHeapRegionManager this)
    | Some r => ret (Some r)
    end ;;
  match regionManager with
  | None => ret None
  | Some regionManager =>
      match createHeapWithManager this heapBytesRequested regionManager with
      | None => ret None
      | Some heap =>
          if negb (initializeHeapRegionManager port heap regionManager) then
            call (Heap_kill heap) ;;
            ret None
          else
            shiftOk <- initializeRunTimeObjectAlignmentAndCRShift this heap ;;
            if negb shiftOk then
              call (Heap_kill heap) ;;
              ret None
            else
              modifyExtensions (set_heap (Some heap)) ;;
              call Delegate_heapInitialized ;;
              if negb (delegate_heapInitialized (_delegate this) heap) then
                call (Heap_kill heap) ;;
                modifyExtensions (set_heap None) ;;
                ret None
              else
                extensions <- getExtensions ;;
                if (getHeapBase heap <? fvtest_verifyHeapAbove extensions)
                   || (negb (0 =? fvtest_verifyHeapBelow extensions)
                       && (getHeapTop heap >? fvtest_verifyHeapBelow extensions))
                then
                  call (Heap_kill heap) ;;
                  modifyExtensions (set_heap None) ;;
                  ret None
                else ret (Some heap)
      end
  end.

Definition getAlignment (extensions : MM_GCExtensionsBase) (type : MM_AlignmentType) : Z :=
  match type with
  | mm_heapAlignment => heapAlignment extensions
  | mm_regionAlignment => regionSize extensions
  end.

(** [prepareParameters] writes eight fields of its [parameters] argument;
    the record built here holds exactly those.  The arguments [omrVM] and
    [tenureFlags] are not read beyond reaching the extensions. *)
Definition prepareParameters (this : MM_Configuration)
  (minimumSpaceSize minimumNewSpaceSize initialNewSpaceSize maximumNewSpaceSize
   minimumTenureSpaceSize initialTenureSpaceSize maximumTenureSpaceSize
   memoryMax tenureFlags : Z) : M MM_InitializationParameters :=
  extensions <- getExtensions ;;
  match heap extensions with
  | None => nullDereference
  | Some heap =>
      let alignment := getAlignment extensions (_alignmentType this) in
      maximumHeapSize <-
        rounding MM_Math.roundToFloor alignment (getMaximumMemorySize heap) ;;
      minimumNewSpaceSize <-
        rounding MM_Math.roundToCeiling (umul alignment 2) minimumNewSpaceSize ;;
      minimumTenureSpaceSize <-
        rounding MM_Math.roundToCeiling alignment minimumTenureSpaceSize ;;
      maximumNewSpaceSize <-
        rounding MM_Math.roundToCeiling (umul alignment 2) maximumNewSpaceSize ;;
      maximumTenureSpaceSize <-
        rounding MM_Math.roundToCeiling alignment maximumTenureSpaceSize ;;
      roundedMinimumSpaceSize <-
        rounding MM_Math.roundToCeiling alignment minimumSpaceSize ;;
      let minimumSpaceSize :=
        OMR_MAX roundedMinimumSpaceSize (uadd minimumNewSpaceSize minimumTenureSpaceSize) in
      roundedMemoryMax <- rounding MM_Math.roundToCeiling alignment memoryMax ;;
      let memoryMax :=
        OMR_MAX roundedMemoryMax (uadd maximumTenureSpaceSize maximumNewSpaceSize) in
      let maximumHeapSize := OMR_MIN maximumHeapSize memoryMax in
      initialNewSpaceSize <-
        rounding MM_Math.roundToCeiling (umul alignment 2) initialNewSpaceSize ;;
      initialTenureSpaceSize <-
        rounding MM_Math.roundToCeiling alignment initialTenureSpaceSize ;;
      let p_minimumSpaceSize := OMR_MIN maximumHeapSize minimumSpaceSize in
      let p_minimumNewSpaceSize := OMR_MIN maximumHeapSize minimumNewSpaceSize in
      let p_initialNewSpaceSize := OMR_MIN maximumHeapSize initialNewSpaceSize in
      let p_maximumNewSpaceSize := OMR_MIN maximumHeapSize maximumNewSpaceSize in
      ret {| _minimumSpaceSize := p_minimumSpaceSize;
             _minimumNewSpaceSize := p_minimumNewSpaceSize;
             _initialNewSpaceSize := p_initialNewSpaceSize;
             _maximumNewSpaceSize := p_maximumNewSpaceSize;
             _minimumOldSpaceSize :=
               OMR_MIN (usub maximumHeapSize p_minimumNewSpaceSize) minimumTenureSpaceSize;
             _initialOldSpaceSize :=
               OMR_MIN (usub maximumHeapSize p_initialNewSpaceSize) initialTenureSpaceSize;
             _maximumOldSpaceSize := OMR_MIN maximumHeapSize maximumTenureSpaceSize;
             _maximumSpaceSize := maximumHeapSize |}
  end.

Definition initializeRegionSize (this : MM_Configuration) : M bool :=
  extensions <- getExtensions ;;
  let regionSize := regionSize extensions in
  let regionSize := if 0 =? regionSize then _defaultRegionSize this else regionSize in
  let shift := calculatePowerOfTwoShift regionSize in
  if 0 =? shift then ret false
  else
    let powerOfTwoRegionSize := ushl 1 shift in
    modifyExtensions (set_regionSize powerOfTwoRegionSize) ;;
    ret (verifyRegionSize this powerOfTwoRegionSize).

Definition initializeArrayletLeafSize (this : MM_Configuration) : M bool :=
  if negb (UDATA_MAX =? _defaultArrayletLeafSize this) then
    extensions <- getExtensions ;;
    let arrayletLeafSize :=
      if negb (0 =? _defaultArrayletLeafSize this) then _defaultArrayletLeafSize this
      else regionSize extensions in
    let shift := calculatePowerOfTwoShift arrayletLeafSize in
    if negb (0 =? shift) then
      modifyOmrVM (set_arrayletLeaf (ushl 1 shift) shift) ;;
      ret true
    else ret false
  else
    modifyOmrVM (set_arrayletLeaf (_defaultArrayletLeafSize this) 0) ;;
    ret true.

Definition defaultGCThreadCount (this : MM_Configuration) : Z :=
  let threadCount := omrsysinfo_get_number_CPUs_by_type port in
  if getMaxGCThreadCount (_delegate this) <? threadCount
  then getMaxGCThreadCount (_delegate this)
  else threadCount.

Definition initializeGCThreadCount (this : MM_Configuration) : M unit :=
  extensions <- getExtensions ;;
  (if negb (gcThreadCountSpecified extensions) then
     modifyExtensions (set_gcThreadCount (defaultGCThreadCount this))
   else ret tt) ;;
  if J9VM_OPT_CRIU_SUPPORT build then
    call Delegate_checkPointGCThreadCountVerifyAndAdjust ;;
    modifyExtensions (fun e =>
      set_gcThreadCount (checkPointGCThreadCountVerifyAndAdjust (_delegate this) e) e)
  else ret tt.

Definition initializeGCParameters (this : MM_Configuration) : M unit :=
  extensions <- getExtensions ;;
  Assert_MM_true (0 <? gcThreadCount extensions) ;;
  let splitAmount := uadd (usub (gcThreadCount extensions) 1 / 8) 1 in
  (if negb (packetListSplitForced extensions) then
     modifyExtensions (fun e => set_packetListSplit (OMR_MAX (packetListSplit e) splitAmount) e)
   else ret tt) ;;
  (if OMR_GC_MODRON_SCAVENGER build then
     (if negb (cacheListSplitForced extensions) then
        modifyExtensions (fun e => set_cacheListSplit (OMR_MAX (cacheListSplit e) splitAmount) e)
      else ret tt) ;;
     (if scavengerEnabled extensions then
        match scavengerScanOrdering extensions with
        | OMR_GC_SCAVENGER_SCANORDERING_NONE =>
            modifyExtensions (set_scavengerScanOrdering OMR_GC_SCAVENGER_SCANORDERING_HIERARCHICAL)
        | OMR_GC_SCAVENGER_SCANORDERING_DYNAMIC_BREADTH_FIRST =>
            modifyExtensions (set_adaptiveGcCountBetweenHotFieldSort true)
        | _ => ret tt
        end
      else ret tt)
   else ret tt) ;;
  if negb (splitFreeListAmountForced extensions) then
    let freeListSplitAmount :=
      uadd (usub (omrsysinfo_get_number_CPUs_by_type port) 1 / 8) 1 in
    let freeListSplitAmount :=
      if OMR_GC_MODRON_SCAVENGER build && scavengerEnabled extensions
      then splitAmount else freeListSplitAmount in
    modifyExtensions (fun e =>
      set_splitFreeListSplitAmount (OMR_MAX (splitFreeListSplitAmount e) freeListSplitAmount) e)
  else ret tt.

Definition initializeNUMAManager (this : MM_Configuration) : M bool :=
  call NUMAManager_recacheNUMASupport ;;
  ret (recacheNUMASupport port).

Definition createParallelDispatcher (this : MM_Configuration) : option MM_ParallelDispatcher :=
  ParallelDispatcher_newInstance port.

Definition initialize (this : MM_Configuration) : M bool :=
  regionSizeOk <- initializeRegionSize this ;;
  if regionSizeOk then
    leafSizeOk <- initializeArrayletLeafSize this ;;
    if leafSizeOk then
      call Delegate_initialize ;;
      if delegate_initialize (_delegate this) (_writeBarrierType this) (_allocationType this)
      then
        extensions <- getExtensions ;;
        (if negb (_wasSpecified (excessiveGCEnabled extensions)) then
           modifyExtensions (fun e =>
             set_excessiveGCEnabled (set_valueSpecified true (excessiveGCEnabled e)) e)
         else ret tt) ;;
        numaOk <- initializeNUMAManager this ;;
        if numaOk then
          initializeGCThreadCount this ;;
          initializeGCParameters this ;;
          modifyExtensions (set_lightweightNonReentrantLockPool (pool_new port)) ;;
          ret (isSome (pool_new port))
        else ret false
      else ret false
    else ret false
  else ret false.

(** The walk over the VM thread list of [reinitializeForRestore]. *)
Fixpoint reinitializeThreads (walk : list MM_EnvironmentBase) : M bool :=
  match walk with
  | [] => ret true
  | walkEnv :: rest =>
      call (Environment_reinitializeForRestore walkEnv) ;;
      if negb (environment_reinitializeForRestore port walkEnv) then ret false
      else reinitializeThreads rest
  end.

(** Compiled only when [J9VM_OPT_CRIU_SUPPORT] is defined. *)
Definition reinitializeForRestore (this : MM_Configuration) : M bool :=
  initializeGCThreadCount this ;;
  extensions <- getExtensions ;;
  match dispatcher extensions with
  | None => nullDereference
  | Some d =>
      modifyExtensions (fun e =>
        set_gcThreadCount (OMR_MAX (threadCountMaximum d) (gcThreadCount e)) e) ;;
      initializeGCParameters this ;;
      call Delegate_reinitializeForRestore ;;
      if negb (delegate_reinitializeForRestore (_delegate this)) then ret false
      else reinitializeThreads (threadList port)
  end.

End Configuration.

(** ** Specification vocabulary *)

(** [returns m rt Q]: run from [rt], the method [m] returns, with a result
    and in a state that satisfy [Q]. *)
Definition returns {A : Type} (m : M A) (rt : Runtime) (Q : A -> Runtime -> Prop) : Prop :=
  exists a rt', m rt = Returned a rt' /\ Q a rt'.

(** [keeps f m]: whether it returns or stops, [m] leaves the field [f] of
    the extensions as it found it. *)
Definition keeps {A F : Type} (f : MM_GCExtensionsBase -> F) (m : M A) : Prop :=
  forall rt, f (extensions (stateOf (m rt))) = f (extensions rt).

(** The split factor as the spec writes it, to compare with what
    [initializeGCParameters] computes on [uintptr_t]. *)
Definition spec_splitFactor (threadCount : Z) : Z := (threadCount - 1) / 8 + 1.

(** The extensions hold no resource that [tearDown] would destroy. *)
Definition tornDown (e : MM_GCExtensionsBase) : Prop :=
  heap e = None /\
  referenceChainWalkerMarkMap e = None /\
  getGlobalCollector e = None /\
  (isMetronomeGC e = true \/ dispatcher e = None) /\
  globalAllocationManager e = None /\
  memoryManager e = None /\
  heapRegionManager e = None /\
  _lightweightNonReentrantLockPool e = None.

(** ** Concrete configurations used to run the embedding *)

Module Sample.

Definition theHeap (base top : Z) : MM_Heap :=
  {| heap_address := 4096; getHeapBase := base; getHeapTop := top;
     getMaximumMemorySize := top - base;
     getDefaultMemorySpace := Some {| memorySpace_address := 8192 |} |}.

Definition configure (maxGCThreadCount : Z) (verify : Z -> bool)
  (makeHeap : Z -> MM_HeapRegionManager -> option MM_Heap) : MM_Configuration :=
  {| _delegate :=
       {| delegate_initialize := fun _ _ => true;
          delegate_environmentInitialized := fun _ => true;
          delegate_heapInitialized := fun _ => true;
          delegate_reinitializeForRestore := true;
          getMaxGCThreadCount := maxGCThreadCount;
          checkPointGCThreadCountVerifyAndAdjust := gcThreadCount |};
     _alignmentType := mm_heapAlignment;
     _defaultRegionSize := 65536;
     _defaultArrayletLeafSize := 0;
     _writeBarrierType := 0;
     _allocationType := gc_modron_allocation_type_tlh;
     verifyRegionSize := verify;
     createHeapRegionManager := Some {| heapRegionManager_address := 12288 |};
     createHeapWithManager := makeHeap;
     allocateNewEnvironment := fun thread =>
       Some {| env_omrVMThread := thread; _objectAllocationInterface := None |} |}.

Definition configuration : MM_Configuration :=
  configure 64 (fun _ => true) (fun bytes _ => Some (theHeap 65536 (65536 + bytes))).

Definition build : Build :=
  {| OMR_GC_THREAD_LOCAL_HEAP := true;
     OMR_GC_SEGREGATED_HEAP := true;
     OMR_GC_COMPRESSED_POINTERS := true;
     OMR_GC_MODRON_SCAVENGER := true;
     J9VM_OPT_CRIU_SUPPORT := false;
     S390 := false;
     J9ZOS390 := false;
     LOW_MEMORY_HEAP_CEILING_SHIFT := 4;
     DEFAULT_LOW_MEMORY_HEAP_CEILING_SHIFT := 3;
     powerOfTwoFloor := 512 |}.

(** The same build with checkpoint/restore support compiled in. *)
Definition checkpointBuild : Build :=
  {| OMR_GC_THREAD_LOCAL_HEAP := true;
     OMR_GC_SEGREGATED_HEAP := true;
     OMR_GC_COMPRESSED_POINTERS := true;
     OMR_GC_MODRON_SCAVENGER := true;
     J9VM_OPT_CRIU_SUPPORT := true;
     S390 := false;
     J9ZOS390 := false;
     LOW_MEMORY_HEAP_CEILING_SHIFT := 4;
     DEFAULT_LOW_MEMORY_HEAP_CEILING_SHIFT := 3;
     powerOfTwoFloor := 512 |}.

Definition port : Platform :=
  {| omrsysinfo_get_number_CPUs_by_type := 8;
     recacheNUMASupport := true;
     pool_new := Some {| pool_address := 16384 |};
     MemoryManager_newInstance := Some {| memoryManager_address := 20480 |};
     ParallelDispatcher_newInstance :=
       Some {| dispatcher_address := 24576; threadCountMaximum := 8 |};
     TLHAllocationInterface_newInstance := fun _ => Some 28672;
     SegregatedAllocationInterface_newInstance := fun _ => Some 32768;
     initializeHeapRegionManager := fun _ _ => true;
     threadList := [];
     environment_reinitializeForRestore := fun _ => true |}.

(** The extensions as the runtime leaves them before GC start-up: no
    resource created, nothing specified by the user; [above] and [below]
    are the bounds of the address window of the fvtest options. *)
Definition extensionsWith (above below : Z) : MM_GCExtensionsBase :=
  {| heap := None; memoryManager := None; heapRegionManager := None;
     referenceChainWalkerMarkMap := None; _globalCollector := None; dispatcher := None;
     globalAllocationManager := None; _lightweightNonReentrantLockPool := None;
     _isMetronomeGC := false;
     excessiveGCEnabled := {| _wasSpecified := false; _valueSpecified := false |};
     gcThreadCountSpecified := false; gcThreadCount := 0;
     packetListSplitForced := false; packetListSplit := 0;
     cacheListSplitForced := false; cacheListSplit := 0;
     splitFreeListAmountForced := false; splitFreeListSplitAmount := 0;
     scavengerEnabled := false;
     scavengerScanOrdering := OMR_GC_SCAVENGER_SCANORDERING_NONE;
     adaptiveGcCountBetweenHotFieldSort := false;
     regionSize := 0; heapAlignment := 8;
     shouldAllowShiftingCompression := true;
     shouldForceSpecifiedShiftingCompression := false;
     forcedShiftingCompressionAmount := 0;
     shouldForceLowMemoryHeapCeilingShiftIfPossible := false;
     fvtest_verifyHeapAbove := above; fvtest_verifyHeapBelow := below |}.

Definition freshExtensions : MM_GCExtensionsBase := extensionsWith 0 0.

Definition vm : OMR_VM :=
  {| compressObjectReferences := true; _compressedPointersShift := 0;
     _arrayletLeafSize := 0; _arrayletLeafLogSize := 0 |}.

Definition runtime (e : MM_GCExtensionsBase) : Runtime :=
  {| extensions := e; omrVM := vm; calls := [] |}.

End Sample.

(** ** Further vocabulary *)

(** The call that destroys a resource, when there is one to destroy. *)
Definition killed {A : Type} (o : option A) (c : A -> Call) : list Call :=
  match o with
  | Some a => [c a]
  | None => []
  end.

(** The resources that heap creation and [tearDown] manage, apart from the
    lock pool. *)
Definition resources (e : MM_GCExtensionsBase) :
  option MM_Heap * option MM_MemoryManager * option MM_HeapRegionManager
  * option MM_ReferenceChainWalkerMarkMap * option MM_Collector
  * option MM_ParallelDispatcher * option MM_GlobalAllocationManager :=
  (heap e, memoryManager e, heapRegionManager e, referenceChainWalkerMarkMap e,
   getGlobalCollector e, dispatcher e, globalAllocationManager e).

(** ** Further configurations *)

Module Scenario.

(** Extensions of a runtime that runs the scavenger, with [threads] GC
    threads and the scan ordering [ordering]. *)
Definition scavenging (threads : Z) (ordering : ScavengerScanOrdering) :
  MM_GCExtensionsBase :=
  {| heap := None; memoryManager := None; heapRegionManager := None;
     referenceChainWalkerMarkMap := None; _globalCollector := None; dispatcher := None;
     globalAllocationManager := None; _lightweightNonReentrantLockPool := None;
     _isMetronomeGC := false;
     excessiveGCEnabled := {| _wasSpecified := false; _valueSpecified := false |};
     gcThreadCountSpecified := true; gcThreadCount := threads;
     packetListSplitForced := false; packetListSplit := 0;
     cacheListSplitForced := false; cacheListSplit := 0;
     splitFreeListAmountForced := false; splitFreeListSplitAmount := 0;
     scavengerEnabled := true;
     scavengerScanOrdering := ordering;
     adaptiveGcCountBetweenHotFieldSort := false;
     regionSize := 0; heapAlignment := 8;
     shouldAllowShiftingCompression := true;
     shouldForceSpecifiedShiftingCompression := false;
     forcedShiftingCompressionAmount := 0;
     shouldForceLowMemoryHeapCeilingShiftIfPossible := false;
     fvtest_verifyHeapAbove := 0; fvtest_verifyHeapBelow := 0 |}.

(** A platform like [Sample.port] on which NUMA support cannot be recached. *)
Definition withoutNUMA : Platform :=
  {| omrsysinfo_get_number_CPUs_by_type := 8;
     recacheNUMASupport := false;
     pool_new := Some {| pool_address := 16384 |};
     MemoryManager_newInstance := Some {| memoryManager_address := 20480 |};
     ParallelDispatcher_newInstance :=
       Some {| dispatcher_address := 24576; threadCountMaximum := 8 |};
     TLHAllocationInterface_newInstance := fun _ => Some 28672;
     SegregatedAllocationInterface_newInstance := fun _ => Some 32768;
     initializeHeapRegionManager := fun _ _ => true;
     threadList := [];
     environment_reinitializeForRestore := fun _ => true |}.

(** An environment attached to the VM thread [thread]. *)
Definition environmentOf (thread : address) : MM_EnvironmentBase :=
  {| env_omrVMThread := thread; _objectAllocationInterface := None |}.

(** A platform at restore with three VM threads, the second of which cannot
    be reinitialized. *)
Definition restoring : Platform :=
  {| omrsysinfo_get_number_CPUs_by_type := 4;
     recacheNUMASupport := true;
     pool_new := Some {| pool_address := 16384 |};
     MemoryManager_newInstance := Some {| memoryManager_address := 20480 |};
     ParallelDispatcher_newInstance :=
       Some {| dispatcher_address := 24576; threadCountMaximum := 8 |};
     TLHAllocationInterface_newInstance := fun _ => Some 28672;
     SegregatedAllocationInterface_newInstance := fun _ => Some 32768;
     initializeHeapRegionManager := fun _ _ => true;
     threadList := [environmentOf 1; environmentOf 2; environmentOf 3];
     environment_reinitializeForRestore := fun env => negb (env_omrVMThread env =? 2) |}.

(** Extensions at restore: a dispatcher with 8 threads is established. *)
Definition established : MM_GCExtensionsBase :=
  set_dispatcher (Some {| dispatcher_address := 24576; threadCountMaximum := 8 |})
    Sample.freshExtensions.

(** A platform like [Sample.port] on which no allocation interface can be
    constructed. *)
Definition withoutInterfaces : Platform :=
  {| omrsysinfo_get_number_CPUs_by_type := 8;
     recacheNUMASupport := true;
     pool_new := Some {| pool_address := 16384 |};
     MemoryManager_newInstance := Some {| memoryManager_address := 20480 |};
     ParallelDispatcher_newInstance :=
       Some {| dispatcher_address := 24576; threadCountMaximum := 8 |};
     TLHAllocationInterface_newInstance := fun _ => None;
     SegregatedAllocationInterface_newInstance := fun _ => None;
     initializeHeapRegionManager := fun _ _ => true;
     threadList := [];
     environment_reinitializeForRestore := fun _ => true |}.

End Scenario.

(** * Properties *)

(** ** Machine arithmetic *)

Lemma wrap_range (z : Z) : 0 <= wrap z < 2 ^ 64.
Proof. unfold wrap. apply Z.mod_pos_bound. reflexivity. Qed.

Lemma wrap_small (z : Z) : 0 <= z < 2 ^ 64 -> wrap z = z.
Proof. intros H. unfold wrap. apply Z.mod_small. exact H. Qed.

Lemma wrap_le (z : Z) : 0 <= z -> wrap z <= z.
Proof. intros H. unfold wrap. apply Z.mod_le; [exact H | reflexivity]. Qed.

Lemma OMR_MIN_spec (a b : Z) : OMR_MIN a b = Z.min a b.
Proof. unfold OMR_MIN. destruct (Z.ltb_spec a b); lia. Qed.

Lemma OMR_MAX_spec (a b : Z) : OMR_MAX a b = Z.max a b.
Proof. unfold OMR_MAX. rewrite Z.gtb_ltb. destruct (Z.ltb_spec b a); lia. Qed.

Lemma roundToFloor_le (granularity number : Z) :
  0 < granularity -> 0 <= number ->
  0 <= MM_Math.roundToFloor granularity number <= number.
Proof.
  intros Hg Hn. unfold MM_Math.roundToFloor, usub.
  pose proof (Z.mod_pos_bound number granularity Hg) as Hm.
  pose proof (Z.mod_le number granularity Hn Hg) as Hle.
  pose proof (wrap_range (number - number mod granularity)) as Hr.
  pose proof (wrap_le (number - number mod granularity)) as Hl.
  lia.
Qed.

Lemma roundToCeiling_range (granularity number : Z) :
  0 <= MM_Math.roundToCeiling granularity number < 2 ^ 64.
Proof. unfold MM_Math.roundToCeiling, uadd. apply wrap_range. Qed.

(** ** Space sizing: [prepareParameters] *)

Section PrepareParameters.

Variable this : MM_Configuration.
Variables minimumSpaceSize minimumNewSpaceSize initialNewSpaceSize maximumNewSpaceSize : Z.
Variables minimumTenureSpaceSize initialTenureSpaceSize maximumTenureSpaceSize : Z.
Variables memoryMax tenureFlags : Z.

(** Without a heap the method reads through a null pointer. *)
Lemma prepareParameters_without_heap (rt : Runtime) :
  heap (extensions rt) = None ->
  prepareParameters this minimumSpaceSize minimumNewSpaceSize initialNewSpaceSize
    maximumNewSpaceSize minimumTenureSpaceSize initialTenureSpaceSize
    maximumTenureSpaceSize memoryMax tenureFlags rt = Aborted rt.
Proof.
  intros Hheap. unfold prepareParameters, bind, getExtensions.
  rewrite Hheap. reflexivity.
Qed.

(** The method only reads the run-time state. *)
Lemma prepareParameters_reads_only (rt : Runtime) :
  stateOf
    (prepareParameters this minimumSpaceSize minimumNewSpaceSize initialNewSpaceSize
       maximumNewSpaceSize minimumTenureSpaceSize initialTenureSpaceSize
       maximumTenureSpaceSize memoryMax tenureFlags rt) = rt.
Proof.
  unfold prepareParameters, rounding, bind, getExtensions.
  destruct (heap (extensions rt)); [ | reflexivity]. cbv zeta.
  destruct (getAlignment (extensions rt) (_alignmentType this) =? 0); [reflexivity | ].
  destruct (umul (getAlignment (extensions rt) (_alignmentType this)) 2 =? 0);
    reflexivity.
Qed.

(** With a granularity of 0 the first rounding stops the process. *)
Lemma prepareParameters_without_alignment (rt : Runtime) :
  getAlignment (extensions rt) (_alignmentType this) = 0 ->
  prepareParameters this minimumSpaceSize minimumNewSpaceSize initialNewSpaceSize
    maximumNewSpaceSize minimumTenureSpaceSize initialTenureSpaceSize
    maximumTenureSpaceSize memoryMax tenureFlags rt = Aborted rt.
Proof.
  intros Hzero. unfold prepareParameters, rounding, bind, getExtensions.
  destruct (heap (extensions rt)); [ | reflexivity]. cbv zeta.
  rewrite Hzero. reflexivity.
Qed.

(** An alignment in (0, 2^63) and its double are granularities other
    than 0. *)
Lemma alignment_granularities (alignment : Z) :
  0 < alignment < 2 ^ 63 ->
  (alignment =? 0) = false /\ (umul alignment 2 =? 0) = false.
Proof.
  intros Halign. split; [apply Z.eqb_neq; lia | ].
  apply Z.eqb_neq. unfold umul. rewrite wrap_small; [lia | ].
  change (2 ^ 64) with (2 ^ 63 * 2). lia.
Qed.

(** C1, as the code has it.  With a heap present, an alignment in
    (0, 2^63) and a non-negative heap capacity, the written parameters
    satisfy: minimum new + minimum old <= maximum space; minimum space <=
    maximum space <= the heap's maximum memory size; the maximum new-space
    size and the maximum old-space size are each at most the maximum space
    size; minimum new + minimum old <= minimum space whenever the sum of
    the two rounded minimums does not wrap around; and maximum new +
    maximum old <= maximum space whenever the two rounded maximums together
    fit the capacity of the heap rounded down to the alignment. *)
Theorem prepareParameters_bounds (rt : Runtime) (h : MM_Heap) :
  heap (extensions rt) = Some h ->
  let alignment := getAlignment (extensions rt) (_alignmentType this) in
  0 < alignment < 2 ^ 63 ->
  0 <= getMaximumMemorySize h ->
  exists p,
    prepareParameters this minimumSpaceSize minimumNewSpaceSize initialNewSpaceSize
      maximumNewSpaceSize minimumTenureSpaceSize initialTenureSpaceSize
      maximumTenureSpaceSize memoryMax tenureFlags rt = Returned p rt /\
    _minimumNewSpaceSize p + _minimumOldSpaceSize p <= _maximumSpaceSize p /\
    _minimumSpaceSize p <= _maximumSpaceSize p /\
    _maximumNewSpaceSize p <= _maximumSpaceSize p /\
    _maximumOldSpaceSize p <= _maximumSpaceSize p /\
    _maximumSpaceSize p <= getMaximumMemorySize h /\
    (MM_Math.roundToCeiling (umul alignment 2) minimumNewSpaceSize
     + MM_Math.roundToCeiling alignment minimumTenureSpaceSize < 2 ^ 64 ->
     _minimumNewSpaceSize p + _minimumOldSpaceSize p <= _minimumSpaceSize p) /\
    (MM_Math.roundToCeiling (umul alignment 2) maximumNewSpaceSize
     + MM_Math.roundToCeiling alignment maximumTenureSpaceSize
     <= MM_Math.roundToFloor alignment (getMaximumMemorySize h) ->
     _maximumNewSpaceSize p + _maximumOldSpaceSize p <= _maximumSpaceSize p).
Proof.
  intros Hheap alignment Halign Hcap.
  destruct (alignment_granularities alignment Halign) as [Hone Htwo].
  unfold prepareParameters, rounding, bind, getExtensions.
  rewrite Hheap. cbv zeta. fold alignment. rewrite Hone, Htwo.
  unfold ret. eexists. split; [reflexivity | ].
  cbn [_minimumSpaceSize _minimumNewSpaceSize _maximumNewSpaceSize
       _minimumOldSpaceSize _maximumOldSpaceSize _maximumSpaceSize].
  fold alignment.
  pose proof (roundToFloor_le alignment (getMaximumMemorySize h) (proj1 Halign) Hcap) as Hfloor.
  pose proof (roundToCeiling_range (umul alignment 2) minimumNewSpaceSize) as HminNew.
  pose proof (roundToCeiling_range alignment minimumTenureSpaceSize) as HminOld.
  pose proof (roundToCeiling_range (umul alignment 2) maximumNewSpaceSize) as HmaxNew.
  pose proof (roundToCeiling_range alignment maximumTenureSpaceSize) as HmaxOld.
  pose proof (roundToCeiling_range alignment minimumSpaceSize) as HminSpace.
  pose proof (roundToCeiling_range alignment memoryMax) as Hmax.
  set (floorSize := MM_Math.roundToFloor alignment (getMaximumMemorySize h)) in *.
  set (minNew := MM_Math.roundToCeiling (umul alignment 2) minimumNewSpaceSize) in *.
  set (minOld := MM_Math.roundToCeiling alignment minimumTenureSpaceSize) in *.
  set (maxNew := MM_Math.roundToCeiling (umul alignment 2) maximumNewSpaceSize) in *.
  set (maxOld := MM_Math.roundToCeiling alignment maximumTenureSpaceSize) in *.
  set (minSpace := MM_Math.roundToCeiling alignment minimumSpaceSize) in *.
  set (maxRequested := MM_Math.roundToCeiling alignment memoryMax) in *.
  assert (Hfloor64 : floorSize < 2 ^ 64).
  { unfold floorSize, MM_Math.roundToFloor, usub. apply wrap_range. }
  pose proof (wrap_range (maxOld + maxNew)) as HsumMax.
  pose proof (wrap_range (minNew + minOld)) as HsumMin.
  unfold uadd, usub. rewrite !OMR_MIN_spec, !OMR_MAX_spec.
  set (maximumHeapSize := Z.min floorSize (Z.max maxRequested (wrap (maxOld + maxNew)))).
  assert (Hheap0 : 0 <= maximumHeapSize <= floorSize) by (unfold maximumHeapSize; lia).
  rewrite (wrap_small (maximumHeapSize - Z.min maximumHeapSize minNew)) by lia.
  split; [lia | ]. split; [lia | ]. split; [lia | ]. split; [lia | ].
  split; [lia | ]. split.
  - intros Hsum. rewrite (wrap_small (minNew + minOld)) by lia. lia.
  - intros Hfits. unfold maximumHeapSize.
    rewrite (wrap_small (maxOld + maxNew)) by lia. lia.
Qed.

End PrepareParameters.

(** The inputs of the negotiation run below: a heap of 64 bytes where 1024
    were asked for, and 64 bytes of maximum size for each generation. *)
Lemma prepareParameters_bounds_witness :
  exists p,
    prepareParameters Sample.configuration 0 16 16 64 8 8 64 1024 0
      (Sample.runtime (set_heap (Some (Sample.theHeap 0 64)) Sample.freshExtensions))
    = Returned p (Sample.runtime (set_heap (Some (Sample.theHeap 0 64)) Sample.freshExtensions)) /\
    _minimumNewSpaceSize p + _minimumOldSpaceSize p <= _minimumSpaceSize p.
Proof.
  destruct (prepareParameters_bounds Sample.configuration 0 16 16 64 8 8 64 1024 0
              (Sample.runtime (set_heap (Some (Sample.theHeap 0 64)) Sample.freshExtensions))
              (Sample.theHeap 0 64))
    as [p [Hrun [_ [_ [_ [_ [_ [Hmin _]]]]]]]].
  - reflexivity.
  - simpl. lia.
  - simpl. lia.
  - exists p. split; [exact Hrun | ]. apply Hmin. vm_compute. reflexivity.
Defined.

(** C1 as the spec words it fails: the two maximum generation sizes are
    clamped one by one, and their sum exceeds the maximum space size when
    the heap is smaller than what was asked for. *)
Lemma prepareParameters_maximum_sum_counterexample :
  match prepareParameters Sample.configuration 0 16 16 64 8 8 64 1024 0
          (Sample.runtime (set_heap (Some (Sample.theHeap 0 64)) Sample.freshExtensions))
  with
  | Returned p _ =>
      _maximumNewSpaceSize p = 64 /\ _maximumOldSpaceSize p = 64 /\
      _maximumSpaceSize p = 64 /\
      ~ (_maximumNewSpaceSize p + _maximumOldSpaceSize p <= _maximumSpaceSize p)
  | Aborted _ => False
  end.
Proof. vm_compute. repeat split; try reflexivity. intros H. apply H. reflexivity. Qed.

(** The remaining hypothesis of C1 is needed: when the sum of the rounded
    minimums wraps around, the minimum space size falls below it. *)
Lemma prepareParameters_minimum_sum_wraps :
  match prepareParameters Sample.configuration 0 (2 ^ 63) 0 0 (2 ^ 63) 0 0 1024 0
          (Sample.runtime (set_heap (Some (Sample.theHeap 0 64)) Sample.freshExtensions))
  with
  | Returned p _ =>
      _minimumNewSpaceSize p = 64 /\ _minimumOldSpaceSize p = 0 /\ _minimumSpaceSize p = 0
  | Aborted _ => False
  end.
Proof. vm_compute. repeat split; reflexivity. Qed.

(** ** Running the monad *)

Ltac unfold_monad :=
  unfold bind, ret, getExtensions, modifyExtensions, getOmrVM, modifyOmrVM, call,
    whenSome, Assert_MM_true, Assert_MM_unreachable, nullDereference in *.

Ltac run_monad := unfold_monad; cbn [stateOf extensions omrVM calls] in *.

(** ** GC thread count: [defaultGCThreadCount], [initializeGCThreadCount] *)

Lemma defaultGCThreadCount_min (port : Platform) (this : MM_Configuration) :
  defaultGCThreadCount port this
  = Z.min (omrsysinfo_get_number_CPUs_by_type port) (getMaxGCThreadCount (_delegate this)).
Proof.
  unfold defaultGCThreadCount.
  destruct (Z.ltb_spec (getMaxGCThreadCount (_delegate this))
              (omrsysinfo_get_number_CPUs_by_type port)); lia.
Qed.

(** C2, as the code has it.  With C the CPU count of the port library and M
    the delegate's maximum: the derived count is min(C, M); it is >= 1
    whenever C >= 1 and M >= 1; [initializeGCThreadCount] stores it when the
    user specified no count and skips the derivation, leaving the
    extensions as they are, when the user did; a checkpoint-enabled build
    then hands the extensions to the delegate's adjustment hook.  The VM
    record and the other fields are not written. *)
Theorem initializeGCThreadCount_derives (build : Build) (port : Platform)
  (this : MM_Configuration) (rt : Runtime) :
  let C := omrsysinfo_get_number_CPUs_by_type port in
  let M := getMaxGCThreadCount (_delegate this) in
  let derived :=
    if gcThreadCountSpecified (extensions rt) then extensions rt
    else set_gcThreadCount (Z.min C M) (extensions rt) in
  defaultGCThreadCount port this = Z.min C M /\
  (1 <= C -> 1 <= M -> 1 <= defaultGCThreadCount port this) /\
  (exists rt', initializeGCThreadCount build port this rt = Returned tt rt' /\
     omrVM rt' = omrVM rt /\
     extensions rt' =
       if J9VM_OPT_CRIU_SUPPORT build
       then set_gcThreadCount
              (checkPointGCThreadCountVerifyAndAdjust (_delegate this) derived) derived
       else derived).
Proof.
  intros C M derived. pose proof (defaultGCThreadCount_min port this) as Hmin.
  fold C M in Hmin. split; [exact Hmin | ]. split; [lia | ].
  unfold initializeGCThreadCount. run_monad. subst derived. rewrite Hmin.
  destruct (gcThreadCountSpecified (extensions rt)), (J9VM_OPT_CRIU_SUPPORT build);
    cbn; eexists; (split; [reflexivity | split; reflexivity]).
Qed.

Lemma initializeGCThreadCount_derives_witness :
  1 <= defaultGCThreadCount Sample.port Sample.configuration.
Proof.
  apply (initializeGCThreadCount_derives Sample.build Sample.port Sample.configuration
           (Sample.runtime Sample.freshExtensions)); simpl; lia.
Defined.

(** C2 as the spec words it fails: nothing in the derivation keeps the count
    positive; a delegate maximum of 0 gives a count of 0. *)
Lemma initializeGCThreadCount_zero_counterexample :
  let port := Sample.port in
  let this := Sample.configure 0 (fun _ => true) (fun _ _ => None) in
  let after :=
    stateOf (initializeGCThreadCount Sample.build port this
               (Sample.runtime Sample.freshExtensions)) in
  omrsysinfo_get_number_CPUs_by_type port = 8 /\
  gcThreadCountSpecified Sample.freshExtensions = false /\
  gcThreadCount (extensions after) = 0 /\
  ~ (1 <= gcThreadCount (extensions after)).
Proof. vm_compute. repeat split; try reflexivity. intros H. apply H. reflexivity. Qed.

(** ** Split factors: [initializeGCParameters] *)

Lemma splitAmount_small (n : Z) :
  0 < n < 2 ^ 64 -> uadd (usub n 1 / 8) 1 = spec_splitFactor n.
Proof.
  intros Hn. unfold uadd, usub, spec_splitFactor.
  rewrite (wrap_small (n - 1)) by lia.
  apply wrap_small.
  assert (0 <= (n - 1) / 8) by (apply Z.div_pos; lia).
  assert ((n - 1) / 8 <= n - 1) by (apply Z.div_le_upper_bound; lia).
  lia.
Qed.

(** The spec's companion property: the factor never decreases with the
    thread count. *)
Lemma spec_splitFactor_monotone (m n : Z) :
  m <= n -> spec_splitFactor m <= spec_splitFactor n.
Proof.
  intros Hmn. unfold spec_splitFactor.
  assert ((m - 1) / 8 <= (n - 1) / 8) by (apply Z.div_le_mono; lia). lia.
Qed.

(** A thread count of 0 stops at the assertion, with nothing written. *)
Lemma initializeGCParameters_asserts (build : Build) (port : Platform)
  (this : MM_Configuration) (rt : Runtime) :
  gcThreadCount (extensions rt) <= 0 ->
  initializeGCParameters build port this rt = Aborted rt.
Proof.
  intros Hzero. unfold initializeGCParameters. run_monad.
  destruct (Z.ltb_spec 0 (gcThreadCount (extensions rt))); [lia | reflexivity].
Qed.

(** What [initializeGCParameters] leaves in the four tuned fields. *)
Lemma initializeGCParameters_fields (build : Build) (port : Platform)
  (this : MM_Configuration) (rt : Runtime) :
  0 < gcThreadCount (extensions rt) ->
  let e := extensions rt in
  let splitAmount := uadd (usub (gcThreadCount e) 1 / 8) 1 in
  exists rt',
    initializeGCParameters build port this rt = Returned tt rt' /\
    omrVM rt' = omrVM rt /\ calls rt' = calls rt /\
    gcThreadCount (extensions rt') = gcThreadCount e /\
    excessiveGCEnabled (extensions rt') = excessiveGCEnabled e /\
    packetListSplit (extensions rt') =
      (if packetListSplitForced e then packetListSplit e
       else Z.max (packetListSplit e) splitAmount) /\
    cacheListSplit (extensions rt') =
      (if OMR_GC_MODRON_SCAVENGER build && negb (cacheListSplitForced e)
       then Z.max (cacheListSplit e) splitAmount else cacheListSplit e) /\
    splitFreeListSplitAmount (extensions rt') =
      (if splitFreeListAmountForced e then splitFreeListSplitAmount e
       else Z.max (splitFreeListSplitAmount e)
              (if OMR_GC_MODRON_SCAVENGER build && scavengerEnabled e then splitAmount
               else uadd (usub (omrsysinfo_get_number_CPUs_by_type port) 1 / 8) 1)).
Proof.
  intros Hpos e splitAmount. unfold initializeGCParameters. run_monad.
  destruct (Z.ltb_spec 0 (gcThreadCount (extensions rt))) as [_ | Hneg]; [ | lia].
  fold e. fold splitAmount.
  destruct (packetListSplitForced e) eqn:Hpacket,
           (OMR_GC_MODRON_SCAVENGER build) eqn:Hscav,
           (cacheListSplitForced e) eqn:Hcache,
           (scavengerEnabled e) eqn:Henabled,
           (splitFreeListAmountForced e) eqn:Hfree;
    destruct (scavengerScanOrdering e) eqn:Horder;
    cbn; rewrite ?OMR_MAX_spec, ?Hpacket, ?Hcache, ?Hfree;
    eexists; (split; [reflexivity | ]); cbn; fold e;
    rewrite ?Hpacket, ?Hcache, ?Hfree, ?Henabled; repeat split; reflexivity.
Qed.

(** C3.  For a thread count T (positive, as the assertion demands), the
    method returns and the factor ((T - 1) / 8) + 1 is merged into the
    packet-list split, into the scan-cache split of a scavenger build, and
    into the free-list split, each only when that field is not forced by the
    user and each by keeping the greater of the field and the factor.  The
    amount merged into the free-list split is the thread-count factor, the
    one of the scan-cache split, whenever the scavenger is active, and the
    CPU-count factor otherwise; so the three fields equal the factor itself
    when they start below it. *)
Theorem initializeGCParameters_split (build : Build) (port : Platform)
  (this : MM_Configuration) (rt : Runtime) :
  0 < gcThreadCount (extensions rt) < 2 ^ 64 ->
  let e := extensions rt in
  let factor := spec_splitFactor (gcThreadCount e) in
  let cpuFactor := uadd (usub (omrsysinfo_get_number_CPUs_by_type port) 1 / 8) 1 in
  let scavenging := OMR_GC_MODRON_SCAVENGER build in
  exists rt',
    initializeGCParameters build port this rt = Returned tt rt' /\
    packetListSplit (extensions rt') =
      (if packetListSplitForced e then packetListSplit e
       else Z.max (packetListSplit e) factor) /\
    cacheListSplit (extensions rt') =
      (if scavenging && negb (cacheListSplitForced e)
       then Z.max (cacheListSplit e) factor else cacheListSplit e) /\
    splitFreeListSplitAmount (extensions rt') =
      (if splitFreeListAmountForced e then splitFreeListSplitAmount e
       else Z.max (splitFreeListSplitAmount e)
              (if scavenging && scavengerEnabled e then factor else cpuFactor)) /\
    (scavenging = true -> scavengerEnabled e = true ->
     cacheListSplitForced e = false -> splitFreeListAmountForced e = false ->
     cacheListSplit e <= factor -> splitFreeListSplitAmount e <= factor ->
     splitFreeListSplitAmount (extensions rt') = cacheListSplit (extensions rt') /\
     cacheListSplit (extensions rt') = factor).
Proof.
  intros HT e factor cpuFactor scavenging.
  destruct (initializeGCParameters_fields build port this rt (proj1 HT))
    as [rt' [Hrun [_ [_ [_ [_ [Hpacket [Hcache Hfree]]]]]]]].
  fold e in Hpacket, Hcache, Hfree. fold scavenging in Hcache, Hfree.
  rewrite (splitAmount_small (gcThreadCount e) HT) in Hpacket, Hcache, Hfree.
  fold factor in Hpacket, Hcache, Hfree. fold cpuFactor in Hfree.
  exists rt'. split; [exact Hrun | ].
  split; [exact Hpacket | ]. split; [exact Hcache | ]. split; [exact Hfree | ].
  intros Hs He Hc Hf Hlc Hlf.
  rewrite Hfree, Hcache, Hs, He, Hc, Hf. cbn. lia.
Qed.

Lemma initializeGCParameters_split_witness :
  exists rt',
    initializeGCParameters Sample.build Sample.port Sample.configuration
      (Sample.runtime (set_gcThreadCount 17 Sample.freshExtensions)) = Returned tt rt' /\
    packetListSplit (extensions rt') = 3.
Proof.
  destruct (initializeGCParameters_split Sample.build Sample.port Sample.configuration
              (Sample.runtime (set_gcThreadCount 17 Sample.freshExtensions)))
    as [rt' [Hrun [Hpacket _]]].
  - simpl. lia.
  - exists rt'. split; [exact Hrun | exact Hpacket].
Defined.

(** ** Checkpoint/restore: [reinitializeForRestore] *)

Lemma set_gcThreadCount_same (e : MM_GCExtensionsBase) :
  set_gcThreadCount (gcThreadCount e) e = e.
Proof. destruct e. reflexivity. Qed.

Lemma set_gcThreadCount_twice (a b : Z) (e : MM_GCExtensionsBase) :
  set_gcThreadCount a (set_gcThreadCount b e) = set_gcThreadCount a e.
Proof. reflexivity. Qed.

(** [initializeGCThreadCount] always returns, and writes nothing but the
    thread count. *)
Lemma initializeGCThreadCount_run (build : Build) (port : Platform)
  (this : MM_Configuration) (rt : Runtime) :
  exists n rt',
    initializeGCThreadCount build port this rt = Returned tt rt' /\
    extensions rt' = set_gcThreadCount n (extensions rt) /\
    omrVM rt' = omrVM rt.
Proof.
  unfold initializeGCThreadCount. run_monad.
  destruct (gcThreadCountSpecified (extensions rt)), (J9VM_OPT_CRIU_SUPPORT build); cbn.
  - exists (checkPointGCThreadCountVerifyAndAdjust (_delegate this) (extensions rt)).
    eexists. split; [reflexivity | ]. split; reflexivity.
  - exists (gcThreadCount (extensions rt)). eexists. split; [reflexivity | ].
    rewrite set_gcThreadCount_same. split; reflexivity.
  - exists (checkPointGCThreadCountVerifyAndAdjust (_delegate this)
              (set_gcThreadCount (defaultGCThreadCount port this) (extensions rt))).
    eexists. split; [reflexivity | ]. cbn [extensions omrVM].
    rewrite set_gcThreadCount_twice. split; reflexivity.
  - exists (defaultGCThreadCount port this).
    eexists. split; [reflexivity | ]. split; reflexivity.
Qed.

(** The walk over the threads returns and leaves the extensions alone. *)
Lemma reinitializeThreads_run (port : Platform) (walk : list MM_EnvironmentBase)
  (rt : Runtime) :
  exists b rt',
    reinitializeThreads port walk rt = Returned b rt' /\
    extensions rt' = extensions rt /\ omrVM rt' = omrVM rt.
Proof.
  revert rt. induction walk as [ | walkEnv rest IH]; intros rt.
  - exists true, rt. repeat split.
  - cbn [reinitializeThreads]. run_monad.
    destruct (environment_reinitializeForRestore port walkEnv); cbn [negb].
    + destruct (IH {| extensions := extensions rt; omrVM := omrVM rt;
                      calls := calls rt ++ [Environment_reinitializeForRestore walkEnv] |})
        as [b [rt' [Hrun [Hext Hvm]]]].
      exists b, rt'. split; [exact Hrun | ]. split; [exact Hext | exact Hvm].
    + eexists _, _. split; [reflexivity | ]. split; reflexivity.
Qed.

(** The state in which [reinitializeForRestore] ends, whether it returns or
    stops: the thread count is the greater of the dispatcher's maximum and
    the freshly derived count, and the tuned fields are those left by
    [initializeGCParameters]. *)
Lemma reinitializeForRestore_state (build : Build) (port : Platform)
  (this : MM_Configuration) (rt : Runtime) :
  let derived := extensions (stateOf (initializeGCThreadCount build port this rt)) in
  let after := extensions (stateOf (reinitializeForRestore build port this rt)) in
  excessiveGCEnabled after = excessiveGCEnabled (extensions rt) /\
  packetListSplit (extensions rt) <= packetListSplit after /\
  cacheListSplit (extensions rt) <= cacheListSplit after /\
  splitFreeListSplitAmount (extensions rt) <= splitFreeListSplitAmount after /\
  (forall d, dispatcher (extensions rt) = Some d ->
     gcThreadCount after = Z.max (threadCountMaximum d) (gcThreadCount derived) /\
     (0 < gcThreadCount after ->
      exists b rt', reinitializeForRestore build port this rt = Returned b rt')).
Proof.
  intros derived after. subst derived after.
  destruct (initializeGCThreadCount_run build port this rt) as [n [rt1 [Hrun1 [Hext1 Hvm1]]]].
  rewrite Hrun1. cbn [stateOf].
  remember (reinitializeForRestore build port this rt) as o eqn:Ho.
  unfold reinitializeForRestore in Ho. unfold bind at 1 in Ho. rewrite Hrun1 in Ho.
  unfold bind at 1 in Ho. unfold getExtensions at 1 in Ho.
  assert (Hdisp : dispatcher (extensions rt1) = dispatcher (extensions rt))
    by (rewrite Hext1; reflexivity).
  destruct (dispatcher (extensions rt1)) as [d | ] eqn:Hd.
  2:{ unfold nullDereference in Ho. subst o. cbn [stateOf]. rewrite Hext1. cbn.
      split; [reflexivity | ]. split; [lia | ]. split; [lia | ]. split; [lia | ].
      intros d Hsome. rewrite <- Hdisp in Hsome. discriminate. }
  unfold bind at 1 in Ho. unfold modifyExtensions at 1 in Ho.
  set (rt2 := {| extensions :=
                   set_gcThreadCount (OMR_MAX (threadCountMaximum d) (gcThreadCount (extensions rt1)))
                     (extensions rt1);
                 omrVM := omrVM rt1; calls := calls rt1 |}) in Ho.
  assert (Hcount2 : gcThreadCount (extensions rt2)
                    = Z.max (threadCountMaximum d) (gcThreadCount (extensions rt1)))
    by (cbn; apply OMR_MAX_spec).
  assert (Hsame2 : excessiveGCEnabled (extensions rt2) = excessiveGCEnabled (extensions rt) /\
                   packetListSplit (extensions rt2) = packetListSplit (extensions rt) /\
                   cacheListSplit (extensions rt2) = cacheListSplit (extensions rt) /\
                   splitFreeListSplitAmount (extensions rt2)
                   = splitFreeListSplitAmount (extensions rt))
    by (cbn; rewrite Hext1; cbn; repeat split).
  destruct Hsame2 as [Hex2 [Hp2 [Hc2 Hf2]]].
  destruct (Z_lt_le_dec 0 (gcThreadCount (extensions rt2))) as [Hpos | Hzero].
  - destruct (initializeGCParameters_fields build port this rt2 Hpos)
      as [rt3 [Hrun3 [_ [_ [Hcount3 [Hex3 [Hp3 [Hc3 Hf3]]]]]]]].
    unfold bind at 1 in Ho. rewrite Hrun3 in Ho.
    assert (Hfinal :
      extensions (stateOf o) = extensions rt3 ->
      (exists b rt', o = Returned b rt') ->
      excessiveGCEnabled (extensions (stateOf o)) = excessiveGCEnabled (extensions rt) /\
      packetListSplit (extensions rt) <= packetListSplit (extensions (stateOf o)) /\
      cacheListSplit (extensions rt) <= cacheListSplit (extensions (stateOf o)) /\
      splitFreeListSplitAmount (extensions rt)
      <= splitFreeListSplitAmount (extensions (stateOf o)) /\
      (forall d0, dispatcher (extensions rt) = Some d0 ->
         gcThreadCount (extensions (stateOf o))
         = Z.max (threadCountMaximum d0) (gcThreadCount (extensions rt1)) /\
         (0 < gcThreadCount (extensions (stateOf o)) -> exists b rt', o = Returned b rt'))).
    { intros Hsame Hret. rewrite Hsame, Hex3, Hp3, Hc3, Hf3, Hcount3, Hex2, Hp2, Hc2, Hf2.
      split; [reflexivity | ].
      split; [destruct (packetListSplitForced (extensions rt2)); lia | ].
      split; [destruct (OMR_GC_MODRON_SCAVENGER build
                        && negb (cacheListSplitForced (extensions rt2))); lia | ].
      split; [destruct (splitFreeListAmountForced (extensions rt2)); lia | ].
      intros d0 Hd0. rewrite <- Hdisp in Hd0. injection Hd0 as <-.
      split; [exact Hcount2 | intros _; exact Hret]. }
    unfold bind at 1 in Ho. unfold call at 1 in Ho.
    destruct (delegate_reinitializeForRestore (_delegate this)); cbn [negb] in Ho.
    + destruct (reinitializeThreads_run port (threadList port)
                  {| extensions := extensions rt3; omrVM := omrVM rt3;
                     calls := calls rt3 ++ [Delegate_reinitializeForRestore] |})
        as [b [rt4 [Hrun4 [Hext4 _]]]].
      rewrite Hrun4 in Ho. apply Hfinal; subst o; [exact Hext4 | eauto].
    + apply Hfinal; subst o; [reflexivity | unfold ret; eauto].
  - unfold bind at 1 in Ho.
    rewrite (initializeGCParameters_asserts build port this rt2 Hzero) in Ho.
    subst o. cbn [stateOf]. rewrite Hex2, Hp2, Hc2, Hf2.
    split; [reflexivity | ]. split; [lia | ]. split; [lia | ]. split; [lia | ].
    intros d0 Hd0. rewrite <- Hdisp in Hd0. injection Hd0 as <-.
    split; [exact Hcount2 | intros Hpos; lia].
Qed.

(** C4.  After [reinitializeForRestore] the GC thread count is the greater
    of the dispatcher's maximum thread count and the freshly derived count,
    hence never below the dispatcher's maximum, and the packet-list,
    scan-cache and free-list split factors are each at least what they were
    before; with a dispatcher that has a thread, the method returns. *)
Theorem reinitializeForRestore_never_decreases (build : Build) (port : Platform)
  (this : MM_Configuration) (rt : Runtime) (d : MM_ParallelDispatcher) :
  dispatcher (extensions rt) = Some d ->
  let derived := extensions (stateOf (initializeGCThreadCount build port this rt)) in
  let after := extensions (stateOf (reinitializeForRestore build port this rt)) in
  threadCountMaximum d <= gcThreadCount after /\
  gcThreadCount after = Z.max (threadCountMaximum d) (gcThreadCount derived) /\
  packetListSplit (extensions rt) <= packetListSplit after /\
  cacheListSplit (extensions rt) <= cacheListSplit after /\
  splitFreeListSplitAmount (extensions rt) <= splitFreeListSplitAmount after /\
  (0 < threadCountMaximum d ->
   exists b rt', reinitializeForRestore build port this rt = Returned b rt').
Proof.
  intros Hd derived after.
  destruct (reinitializeForRestore_state build port this rt)
    as [_ [Hp [Hc [Hf Hcount]]]].
  destruct (Hcount d Hd) as [Hmax Hret].
  fold derived in Hmax. fold after in Hp, Hc, Hf, Hmax, Hret.
  split; [lia | ]. split; [exact Hmax | ].
  split; [exact Hp | ]. split; [exact Hc | ]. split; [exact Hf | ].
  intros Hpos. apply Hret. lia.
Qed.

(** The scenario of the spec: a dispatcher established with 8 threads, 4
    CPUs at restore; the count stays 8 and the factors stay where they were. *)
Lemma reinitializeForRestore_never_decreases_witness :
  let port :=
    {| omrsysinfo_get_number_CPUs_by_type := 4;
       recacheNUMASupport := true;
       pool_new := None;
       MemoryManager_newInstance := None;
       ParallelDispatcher_newInstance := None;
       TLHAllocationInterface_newInstance := fun _ => None;
       SegregatedAllocationInterface_newInstance := fun _ => None;
       initializeHeapRegionManager := fun _ _ => true;
       threadList := [];
       environment_reinitializeForRestore := fun _ => true |} in
  let d := {| dispatcher_address := 24576; threadCountMaximum := 8 |} in
  let before :=
    set_dispatcher (Some d)
      (set_packetListSplit 2 (set_gcThreadCount 8 Sample.freshExtensions)) in
  let run := reinitializeForRestore Sample.checkpointBuild port Sample.configuration
               (Sample.runtime before) in
  gcThreadCount (extensions (stateOf (initializeGCThreadCount Sample.checkpointBuild port
                                        Sample.configuration (Sample.runtime before)))) = 4 /\
  gcThreadCount (extensions (stateOf run)) = 8 /\
  2 <= packetListSplit (extensions (stateOf run)) /\
  exists b rt', run = Returned b rt'.
Proof.
  intros port d before run.
  destruct (reinitializeForRestore_never_decreases Sample.checkpointBuild port
              Sample.configuration
              (Sample.runtime before) d eq_refl)
    as [_ [Hcount [Hpacket [_ [_ Hret]]]]].
  split; [reflexivity | ].
  split; [exact Hcount | ].
  split; [exact Hpacket | ].
  apply Hret. simpl. lia.
Defined.

(** ** Compressed references: [initializeRunTimeObjectAlignmentAndCRShift] *)

Lemma maxAddressValue_value : ushl 1 32 = 2 ^ 32.
Proof. reflexivity. Qed.

(** Below 32 the shift of 2^32 does not wrap. *)
Lemma ushl_maxAddressValue (n : Z) :
  0 <= n < 32 -> ushl (2 ^ 32) n = 2 ^ 32 * 2 ^ n.
Proof.
  intros Hn. unfold ushl. rewrite Z.shiftl_mul_pow2 by lia.
  apply wrap_small.
  assert (0 < 2 ^ n) by (apply Z.pow_pos_nonneg; lia).
  assert (2 ^ n < 2 ^ 32) by (apply Z.pow_lt_mono_r; lia).
  change (2 ^ 64) with (2 ^ 32 * 2 ^ 32). nia.
Qed.

Lemma ushl_maxAddressValue_le (n : Z) :
  0 <= n -> ushl (2 ^ 32) n <= 2 ^ 32 * 2 ^ n.
Proof.
  intros Hn. unfold ushl. rewrite Z.shiftl_mul_pow2 by lia.
  apply wrap_le. assert (0 < 2 ^ n) by (apply Z.pow_pos_nonneg; lia). nia.
Qed.

Lemma ushl_maxAddressValue_mono (m n : Z) :
  0 <= m <= n -> n < 32 -> ushl (2 ^ 32) m <= ushl (2 ^ 32) n.
Proof.
  intros Hm Hn. rewrite !ushl_maxAddressValue by lia.
  assert (2 ^ m <= 2 ^ n) by (apply Z.pow_le_mono_r; lia). nia.
Qed.

(** The loop stops on its own test: with the fuel it is given it ends at the
    first shift, going down, under which the heap top does not fit (or
    at -1), having passed only shifts under which it does. *)
Lemma clampUnderShift_spec (heapTop maxAddressValue : Z) (fuel : nat) (underShift : Z) :
  Z.of_nat fuel = underShift + 1 ->
  let u := clampUnderShift heapTop maxAddressValue fuel underShift in
  -1 <= u <= underShift /\
  (forall k, u < k <= underShift -> heapTop <= ushl maxAddressValue k) /\
  (0 <= u -> ~ heapTop <= ushl maxAddressValue u).
Proof.
  revert underShift. induction fuel as [ | fuel IH]; intros underShift Hfuel.
  - cbn. split; [lia | ]. split; [intros k Hk; lia | intros Hu; lia].
  - cbn [clampUnderShift].
    destruct (Z.leb_spec heapTop (ushl maxAddressValue underShift)) as [Hfit | Hnofit];
      cbn [andb].
    + destruct (Z.geb_spec underShift 0) as [Hnonneg | Hneg]; [ | lia].
      destruct (IH (underShift - 1) ltac:(lia)) as [Hrange [Hpassed Hstop]].
      split; [lia | ]. split; [ | exact Hstop].
      intros k Hk. destruct (Z.eq_dec k underShift) as [-> | Hne]; [exact Hfit | ].
      apply Hpassed. lia.
    + split; [lia | ]. split; [intros k Hk; lia | intros _; lia].
Qed.

(** Whether, and with which shift, the method returns. *)
Lemma initializeRunTimeObjectAlignmentAndCRShift_run (build : Build)
  (this : MM_Configuration) (heap : MM_Heap) (rt : Runtime) :
  OMR_GC_COMPRESSED_POINTERS build = true ->
  compressObjectReferences (omrVM rt) = true ->
  let e := extensions rt in
  let heapTop := getHeapTop heap in
  let floorShift := DEFAULT_LOW_MEMORY_HEAP_CEILING_SHIFT build in
  let initial :=
    if shouldForceSpecifiedShiftingCompression e then forcedShiftingCompressionAmount e
    else if shouldAllowShiftingCompression e then LOW_MEMORY_HEAP_CEILING_SHIFT build
         else 0 in
  let clamped :=
    to_uintptr (clampUnderShift heapTop (ushl 1 32) (Z.to_nat (to_intptr initial - 1 + 1))
                  (to_intptr initial - 1) + 1) in
  let raised :=
    if negb (S390 build) && negb (J9ZOS390 build) then
      if negb (0 =? clamped) && (clamped <? floorShift) then floorShift else clamped
    else clamped in
  let final :=
    if shouldForceLowMemoryHeapCeilingShiftIfPossible e then
      if raised <? floorShift then floorShift else raised
    else raised in
  initializeRunTimeObjectAlignmentAndCRShift build this heap rt =
    if heapTop <=? ushl (ushl 1 32) initial then
      Returned true
        {| extensions := e;
           omrVM := set_compressedPointersShift
                      (if shouldForceSpecifiedShiftingCompression e then initial else final)
                      (omrVM rt);
           calls := calls rt ++ [ObjectModel_setObjectAlignment] |}
    else Aborted rt.
Proof.
  intros Hbuild Hcompress e heapTop floorShift initial clamped raised final.
  unfold initializeRunTimeObjectAlignmentAndCRShift. run_monad.
  rewrite Hbuild, Hcompress. cbn [andb]. fold e heapTop.
  subst final raised clamped initial floorShift.
  destruct (shouldForceSpecifiedShiftingCompression e);
    destruct (heapTop <=? ushl (ushl 1 32) _); cbn; try reflexivity;
    destruct (shouldForceLowMemoryHeapCeilingShiftIfPossible e), (S390 build),
      (J9ZOS390 build); cbn; reflexivity.
Qed.

(** C5.  Under compressed references, with the two shift constants of the
    build below 32: when the method succeeds, the published shift satisfies
    heapTop <= 2^32 << shift, as the machine computes the shift and as a
    plain power of two; and when the shift is not forced, it lies
    below 32, the bound holds without wrap-around, and every smaller shift
    under which the heap top would still fit lies below the platform's
    default shift (so lowering the shift by one breaks the bound or goes
    below that floor). *)
Theorem initializeRunTimeObjectAlignmentAndCRShift_shift (build : Build)
  (this : MM_Configuration) (heap : MM_Heap) (rt rt' : Runtime) :
  OMR_GC_COMPRESSED_POINTERS build = true ->
  compressObjectReferences (omrVM rt) = true ->
  0 <= LOW_MEMORY_HEAP_CEILING_SHIFT build < 32 ->
  0 <= DEFAULT_LOW_MEMORY_HEAP_CEILING_SHIFT build < 32 ->
  initializeRunTimeObjectAlignmentAndCRShift build this heap rt = Returned true rt' ->
  let shift := _compressedPointersShift (omrVM rt') in
  getHeapTop heap <= ushl (ushl 1 32) shift /\
  (0 <= shift -> getHeapTop heap <= 2 ^ 32 * 2 ^ shift) /\
  (shouldForceSpecifiedShiftingCompression (extensions rt) = false ->
   0 <= shift < 32 /\
   getHeapTop heap <= 2 ^ 32 * 2 ^ shift /\
   (forall s, 0 <= s < shift -> getHeapTop heap <= 2 ^ 32 * 2 ^ s ->
      s < DEFAULT_LOW_MEMORY_HEAP_CEILING_SHIFT build) /\
   (~ getHeapTop heap <= 2 ^ 32 * 2 ^ (shift - 1)
    \/ shift - 1 < DEFAULT_LOW_MEMORY_HEAP_CEILING_SHIFT build)).
Proof.
  intros Hbuild Hcompress Hlow Hdefault Hrun.
  rewrite (initializeRunTimeObjectAlignmentAndCRShift_run build this heap rt Hbuild Hcompress)
    in Hrun.
  cbv zeta in Hrun.
  set (e := extensions rt) in *. set (heapTop := getHeapTop heap) in *.
  set (floorShift := DEFAULT_LOW_MEMORY_HEAP_CEILING_SHIFT build) in *.
  destruct (shouldForceSpecifiedShiftingCompression e) eqn:Hforced.
  - destruct (Z.leb_spec heapTop (ushl (ushl 1 32) (forcedShiftingCompressionAmount e)))
      as [Hfit | Hnofit]; [ | discriminate].
    injection Hrun as <-. intros shift.
    assert (Hshift : shift = forcedShiftingCompressionAmount e) by reflexivity.
    clearbody shift. subst shift.
    split; [exact Hfit | ].
    split; [ | intros Habs; discriminate].
    intros Hnonneg. rewrite maxAddressValue_value in Hfit.
    pose proof (ushl_maxAddressValue_le (forcedShiftingCompressionAmount e) Hnonneg). lia.
  - set (initial := if shouldAllowShiftingCompression e
                    then LOW_MEMORY_HEAP_CEILING_SHIFT build else 0) in *.
    assert (Hinitial : 0 <= initial < 32)
      by (subst initial; destruct (shouldAllowShiftingCompression e); lia).
    destruct (Z.leb_spec heapTop (ushl (ushl 1 32) initial)) as [Hfit | Hnofit];
      [ | discriminate].
    assert (Hcast : to_intptr initial = initial).
    { unfold to_intptr. destruct (Z.ltb_spec initial (2 ^ 63)) as [_ | Hbig];
        [reflexivity | ]. change (2 ^ 63) with 9223372036854775808 in Hbig. lia. }
    rewrite Hcast in Hrun.
    destruct (clampUnderShift_spec heapTop (ushl 1 32) (Z.to_nat (initial - 1 + 1))
                (initial - 1) ltac:(lia)) as [Hrange [Hpassed Hstop]].
    set (u := clampUnderShift heapTop (ushl 1 32) (Z.to_nat (initial - 1 + 1)) (initial - 1))
      in *.
    assert (Hclamped : to_uintptr (u + 1) = u + 1)
      by (apply wrap_small; change (2 ^ 64) with 18446744073709551616; lia).
    rewrite Hclamped in Hrun.
    rewrite maxAddressValue_value in *.
    assert (HfitClamped : heapTop <= 2 ^ 32 * 2 ^ (u + 1)).
    { rewrite <- ushl_maxAddressValue by lia.
      destruct (Z.eq_dec u (initial - 1)) as [Hu | Hu].
      - replace (u + 1) with initial by lia. exact Hfit.
      - apply Hpassed. lia. }
    assert (Hminimal : forall s, 0 <= s < u + 1 -> ~ heapTop <= 2 ^ 32 * 2 ^ s).
    { intros s Hs Hfits. apply Hstop; [lia | ].
      rewrite ushl_maxAddressValue by lia.
      assert (2 ^ s <= 2 ^ u) by (apply Z.pow_le_mono_r; lia). nia. }
    assert (Hraise : forall t, u + 1 <= t < 32 -> heapTop <= 2 ^ 32 * 2 ^ t).
    { intros t Ht. assert (2 ^ (u + 1) <= 2 ^ t) by (apply Z.pow_le_mono_r; lia). nia. }
    set (raised := if negb (S390 build) && negb (J9ZOS390 build)
                   then if negb (0 =? u + 1) && (u + 1 <? floorShift)
                        then floorShift else u + 1
                   else u + 1) in *.
    assert (Hraised : raised = u + 1 \/ (raised = floorShift /\ u + 1 < floorShift)).
    { subst raised. destruct (negb (S390 build) && negb (J9ZOS390 build)); [ | left; reflexivity].
      destruct (negb (0 =? u + 1)); cbn [andb]; [ | left; reflexivity].
      destruct (Z.ltb_spec (u + 1) floorShift); [right; split; [reflexivity | lia] | left; reflexivity]. }
    set (final := if shouldForceLowMemoryHeapCeilingShiftIfPossible e
                  then if raised <? floorShift then floorShift else raised
                  else raised) in *.
    injection Hrun as <-. intros shift.
    assert (Hshift : shift = final) by reflexivity.
    clearbody shift. subst shift.
    assert (Hfinal : final = u + 1 \/ (final = floorShift /\ u + 1 < floorShift)).
    { subst final.
      destruct (shouldForceLowMemoryHeapCeilingShiftIfPossible e); [ | exact Hraised].
      destruct (Z.ltb_spec raised floorShift) as [Hlt | Hge]; [ | exact Hraised].
      right. split; [reflexivity | ]. destruct Hraised as [Hr | [Hr Hr']]; lia. }
    assert (Hbound : 0 <= final < 32) by (destruct Hfinal as [Hf | [Hf Hf']]; lia).
    assert (HfitFinal : heapTop <= 2 ^ 32 * 2 ^ final)
      by (apply Hraise; destruct Hfinal as [Hf | [Hf Hf']]; lia).
    split; [rewrite ushl_maxAddressValue by lia; exact HfitFinal | ].
    split; [intros _; exact HfitFinal | ].
    intros _. split; [exact Hbound | ]. split; [exact HfitFinal | ].
    assert (Hsmaller : forall s, 0 <= s < final -> heapTop <= 2 ^ 32 * 2 ^ s -> s < floorShift).
    { intros s Hs Hfits. destruct Hfinal as [Hf | [Hf Hf']]; [ | lia].
      exfalso. apply (Hminimal s); [lia | exact Hfits]. }
    split; [exact Hsmaller | ].
    destruct (Z_lt_le_dec (final - 1) floorShift) as [Hlt | Hge]; [right; exact Hlt | ].
    left. intros Hfits. specialize (Hsmaller (final - 1) ltac:(lia) Hfits). lia.
Qed.

(** A heap ending at 2^34 needs the shift 2, which the platform raises to
    its default 3. *)
Lemma initializeRunTimeObjectAlignmentAndCRShift_shift_witness :
  exists rt',
    initializeRunTimeObjectAlignmentAndCRShift Sample.build Sample.configuration
      (Sample.theHeap 65536 (2 ^ 34)) (Sample.runtime Sample.freshExtensions)
    = Returned true rt' /\
    _compressedPointersShift (omrVM rt') = 3 /\
    2 ^ 34 <= ushl (ushl 1 32) (_compressedPointersShift (omrVM rt')).
Proof.
  eexists. split; [vm_compute; reflexivity | ]. split; [reflexivity | ].
  apply (initializeRunTimeObjectAlignmentAndCRShift_shift Sample.build Sample.configuration
           (Sample.theHeap 65536 (2 ^ 34)) (Sample.runtime Sample.freshExtensions)).
  - reflexivity.
  - reflexivity.
  - simpl. lia.
  - simpl. lia.
  - vm_compute. reflexivity.
Defined.

(** With a starting shift below 64, the method returns exactly when the
    heap top fits under the starting shift; otherwise it stops at the
    assertion. *)
Lemma initializeRunTimeObjectAlignmentAndCRShift_returns (build : Build)
  (this : MM_Configuration) (heap : MM_Heap) (rt : Runtime) :
  OMR_GC_COMPRESSED_POINTERS build = true ->
  compressObjectReferences (omrVM rt) = true ->
  let e := extensions rt in
  let initial :=
    if shouldForceSpecifiedShiftingCompression e then forcedShiftingCompressionAmount e
    else if shouldAllowShiftingCompression e then LOW_MEMORY_HEAP_CEILING_SHIFT build
         else 0 in
  0 <= initial < 64 ->
  (getHeapTop heap <= ushl (ushl 1 32) initial ->
   exists rt', initializeRunTimeObjectAlignmentAndCRShift build this heap rt
               = Returned true rt') /\
  (ushl (ushl 1 32) initial < getHeapTop heap ->
   initializeRunTimeObjectAlignmentAndCRShift build this heap rt = Aborted rt).
Proof.
  intros Hbuild Hcompress e initial _.
  rewrite (initializeRunTimeObjectAlignmentAndCRShift_run build this heap rt Hbuild Hcompress).
  cbv zeta. fold e. fold initial.
  destruct (Z.leb_spec (getHeapTop heap) (ushl (ushl 1 32) initial)) as [Hfit | Hnofit].
  - split; [intros _; eexists; reflexivity | intros Habs; lia].
  - split; [intros Habs; lia | intros _; reflexivity].
Qed.

(** Without compressed references no shift is published. *)
Lemma initializeRunTimeObjectAlignmentAndCRShift_uncompressed (build : Build)
  (this : MM_Configuration) (heap : MM_Heap) (rt : Runtime) :
  OMR_GC_COMPRESSED_POINTERS build && compressObjectReferences (omrVM rt) = false ->
  initializeRunTimeObjectAlignmentAndCRShift build this heap rt =
    Returned true {| extensions := extensions rt; omrVM := omrVM rt;
                     calls := calls rt ++ [ObjectModel_setObjectAlignment] |}.
Proof.
  intros Hoff. unfold initializeRunTimeObjectAlignmentAndCRShift. run_monad.
  rewrite Hoff. reflexivity.
Qed.

(** ** Region size: [calculatePowerOfTwoShift], [initializeRegionSize] *)

(** The search answers the first shift, from where it starts, whose power
    of two is at least the floor and the value, and 0 when its range holds
    none. *)
Lemma findPowerOfTwoShift_spec (floor value : Z) (fuel : nat) (shift : Z) :
  1 <= shift ->
  let r := findPowerOfTwoShift floor value fuel shift in
  (r = 0 /\
   forall k, shift <= k < shift + Z.of_nat fuel -> ~ (floor <= 2 ^ k /\ value <= 2 ^ k))
  \/
  (shift <= r < shift + Z.of_nat fuel /\ floor <= 2 ^ r /\ value <= 2 ^ r /\
   forall k, shift <= k < r -> ~ (floor <= 2 ^ k /\ value <= 2 ^ k)).
Proof.
  revert shift. induction fuel as [ | fuel IH]; intros shift Hshift.
  - cbn. left. split; [reflexivity | intros k Hk; lia].
  - cbn [findPowerOfTwoShift].
    destruct (Z.leb_spec floor (2 ^ shift)) as [Hfloor | Hfloor]; cbn [andb].
    + destruct (Z.leb_spec value (2 ^ shift)) as [Hvalue | Hvalue].
      * right. split; [lia | ]. split; [exact Hfloor | ]. split; [exact Hvalue | ].
        intros k Hk. lia.
      * destruct (IH (shift + 1) ltac:(lia)) as [[Hzero Hnone] | [Hrange [Hf [Hv Hmin]]]].
        -- left. split; [exact Hzero | ]. intros k Hk.
           destruct (Z.eq_dec k shift) as [-> | Hne]; [lia | apply Hnone; lia].
        -- right. split; [lia | ]. split; [exact Hf | ]. split; [exact Hv | ].
           intros k Hk. destruct (Z.eq_dec k shift) as [-> | Hne]; [lia | apply Hmin; lia].
    + destruct (IH (shift + 1) ltac:(lia)) as [[Hzero Hnone] | [Hrange [Hf [Hv Hmin]]]].
      * left. split; [exact Hzero | ]. intros k Hk.
        destruct (Z.eq_dec k shift) as [-> | Hne]; [lia | apply Hnone; lia].
      * right. split; [lia | ]. split; [exact Hf | ]. split; [exact Hv | ].
        intros k Hk. destruct (Z.eq_dec k shift) as [-> | Hne]; [lia | apply Hmin; lia].
Qed.

Lemma calculatePowerOfTwoShift_spec (build : Build) (value : Z) :
  1 < powerOfTwoFloor build <= 2 ^ 63 ->
  let shift := calculatePowerOfTwoShift build value in
  (shift = 0 /\ 2 ^ 63 < value)
  \/
  (1 <= shift <= 63 /\ powerOfTwoFloor build <= 2 ^ shift /\ value <= 2 ^ shift /\
   forall k, k < shift -> ~ (powerOfTwoFloor build <= 2 ^ k /\ value <= 2 ^ k)).
Proof.
  intros Hfloor. unfold calculatePowerOfTwoShift.
  destruct (findPowerOfTwoShift_spec (powerOfTwoFloor build) value 63 1 ltac:(lia))
    as [[Hzero Hnone] | [Hrange [Hf [Hv Hmin]]]].
  - left. split; [exact Hzero | ].
    destruct (Z_lt_le_dec (2 ^ 63) value) as [Hbig | Hsmall]; [exact Hbig | ].
    exfalso. apply (Hnone 63); [change (Z.of_nat 63) with 63; lia | ].
    split; [lia | exact Hsmall].
  - change (Z.of_nat 63) with 63 in Hrange.
    right. split; [lia | ]. split; [exact Hf | ]. split; [exact Hv | ].
    intros k Hk [Hkf Hkv].
    destruct (Z_lt_le_dec k 1) as [Hlow | Hhigh].
    + assert (2 ^ k <= 1).
      { destruct (Z_lt_le_dec k 0) as [Hneg | Hnonneg].
        - rewrite Z.pow_neg_r by lia. lia.
        - replace k with 0 by lia. simpl. lia. }
      lia.
    + apply (Hmin k); [lia | split; assumption].
Qed.

(** What [initializeRegionSize] does, whatever [calculatePowerOfTwoShift]
    answers: it returns; on the sentinel 0 it fails and writes nothing;
    otherwise it stores 1 << shift and answers what [verifyRegionSize] says
    of that size. *)
Lemma initializeRegionSize_run (build : Build) (this : MM_Configuration) (rt : Runtime) :
  let requested := regionSize (extensions rt) in
  let effective := if 0 =? requested then _defaultRegionSize this else requested in
  let shift := calculatePowerOfTwoShift build effective in
  initializeRegionSize build this rt =
    if 0 =? shift then Returned false rt
    else Returned (verifyRegionSize this (ushl 1 shift))
           {| extensions := set_regionSize (ushl 1 shift) (extensions rt);
              omrVM := omrVM rt; calls := calls rt |}.
Proof.
  cbv zeta. unfold initializeRegionSize. run_monad.
  destruct (0 =? calculatePowerOfTwoShift build _); reflexivity.
Qed.

Lemma ushl_one (shift : Z) : 0 <= shift <= 63 -> ushl 1 shift = 2 ^ shift.
Proof.
  intros Hs. unfold ushl. rewrite Z.shiftl_mul_pow2 by lia. rewrite Z.mul_1_l.
  apply wrap_small. split; [apply Z.pow_nonneg; lia | ].
  apply Z.pow_lt_mono_r; lia.
Qed.

(** C6, as the code has it.  With a floor in (1, 2^63]: the effective
    request is the build default when 0 is requested and the request
    otherwise; the method returns, and it fails exactly when the effective
    request cannot be represented (the sentinel 0) or [verifyRegionSize]
    rejects the rounded size.  When the request can be represented, the
    stored region size is a power of two, at least the floor and the
    effective request, and no smaller power of two is; on the sentinel the
    extensions are left as they were and the effective request exceeds
    2^63. *)
Theorem initializeRegionSize_finalizes (build : Build) (this : MM_Configuration)
  (rt : Runtime) :
  1 < powerOfTwoFloor build <= 2 ^ 63 ->
  let requested := regionSize (extensions rt) in
  let effective := if 0 =? requested then _defaultRegionSize this else requested in
  let shift := calculatePowerOfTwoShift build effective in
  exists result rt',
    initializeRegionSize build this rt = Returned result rt' /\
    (result = false <-> shift = 0 \/ verifyRegionSize this (2 ^ shift) = false) /\
    (shift = 0 -> rt' = rt /\ 2 ^ 63 < effective) /\
    (shift <> 0 ->
     1 <= shift <= 63 /\
     regionSize (extensions rt') = 2 ^ shift /\
     powerOfTwoFloor build <= 2 ^ shift /\
     effective <= 2 ^ shift /\
     forall k, k < shift -> ~ (powerOfTwoFloor build <= 2 ^ k /\ effective <= 2 ^ k)).
Proof.
  intros Hfloor requested effective shift.
  pose proof (initializeRegionSize_run build this rt) as Hrun. cbv zeta in Hrun.
  fold requested effective shift in Hrun.
  pose proof (calculatePowerOfTwoShift_spec build effective Hfloor) as Hspec.
  cbv zeta in Hspec. fold shift in Hspec.
  destruct Hspec as [[Hzero Hbig] | [Hrange [Hf [Hv Hmin]]]].
  - rewrite Hzero in Hrun. cbn in Hrun. exists false, rt. split; [exact Hrun | ].
    split; [split; [intros _; left; exact Hzero | reflexivity] | ].
    split; [intros _; split; [reflexivity | exact Hbig] | intros Hne; contradiction].
  - destruct (Z.eqb_spec 0 shift) as [Habs | Hne]; [lia | ].
    rewrite (ushl_one shift) in Hrun by lia.
    eexists _, _. split; [exact Hrun | ].
    split; [split; [intros Hfalse; right; exact Hfalse | intros [Habs | Hfalse]; [lia | exact Hfalse]] | ].
    split; [intros Habs; lia | ].
    intros _. split; [exact Hrange | ]. split; [reflexivity | ].
    split; [exact Hf | ]. split; [exact Hv | exact Hmin].
Qed.

(** A request of 3000 bytes over a floor of 512 is finalized to 4096. *)
Lemma initializeRegionSize_finalizes_witness :
  exists rt',
    initializeRegionSize Sample.build Sample.configuration
      (Sample.runtime (set_regionSize 3000 Sample.freshExtensions)) = Returned true rt' /\
    regionSize (extensions rt') = 4096.
Proof.
  destruct (initializeRegionSize_finalizes Sample.build Sample.configuration
              (Sample.runtime (set_regionSize 3000 Sample.freshExtensions)))
    as [result [rt' [Hrun [_ [_ Hshift]]]]].
  - simpl. lia.
  - exists rt'.
    assert (Hresult : result = true /\ regionSize (extensions rt') = 4096).
    { vm_compute in Hrun. injection Hrun as <- <-. split; reflexivity. }
    destruct Hresult as [-> Hsize]. split; [exact Hrun | exact Hsize].
Defined.

(** C6 as the spec words it fails: a representable request still fails when
    [verifyRegionSize] rejects the rounded size, and so does the request 0,
    replaced by the build default of 65536 bytes, under a configuration
    whose heap layout takes regions of at most 4096 bytes. *)
Lemma initializeRegionSize_verify_counterexample :
  let this := Sample.configure 64 (fun size => size <=? 4096) (fun _ _ => None) in
  calculatePowerOfTwoShift Sample.build 65536 = 16 /\
  initializeRegionSize Sample.build this (Sample.runtime Sample.freshExtensions)
  = Returned false (Sample.runtime (set_regionSize 65536 Sample.freshExtensions)).
Proof. vm_compute. split; reflexivity. Qed.

(** ** Environments: [initializeEnvironment], [createEnvironment] *)

(** The allocation interface that the configured variant equips, when that
    variant is compiled in and its constructor succeeds. *)
Lemma initializeEnvironment_run (build : Build) (port : Platform)
  (this : MM_Configuration) (env : MM_EnvironmentBase) (rt : Runtime)
  (result : bool) (env' : MM_EnvironmentBase) (rt' : Runtime) :
  initializeEnvironment build port this env rt = Returned (result, env') rt' ->
  extensions rt' = extensions rt /\ omrVM rt' = omrVM rt /\
  exists interface,
    env' = set_objectAllocationInterface interface env /\
    match _allocationType this with
    | gc_modron_allocation_type_tlh =>
        OMR_GC_THREAD_LOCAL_HEAP build = true /\
        interface = option_map MM_TLHAllocationInterface
                      (TLHAllocationInterface_newInstance port env)
    | gc_modron_allocation_type_segregated =>
        OMR_GC_SEGREGATED_HEAP build = true /\
        interface = option_map MM_SegregatedAllocationInterface
                      (SegregatedAllocationInterface_newInstance port env)
    | gc_modron_allocation_type_illegal => False
    end /\
    match interface with
    | Some _ =>
        result = delegate_environmentInitialized (_delegate this) env' /\
        calls rt' = calls rt ++ [Delegate_environmentInitialized env']
    | None => result = false /\ calls rt' = calls rt
    end.
Proof.
  unfold initializeEnvironment. run_monad. intros Hrun.
  destruct (_allocationType this); [discriminate | | ].
  - destruct (OMR_GC_THREAD_LOCAL_HEAP build); [ | discriminate].
    destruct (TLHAllocationInterface_newInstance port env) as [a | ]; cbn in Hrun.
    + destruct (delegate_environmentInitialized (_delegate this) _) eqn:Hhook;
        injection Hrun as <- <- <-; cbn; (split; [reflexivity | ]);
        (split; [reflexivity | ]); eexists; (split; [reflexivity | ]);
        (split; [split; reflexivity | ]); cbn; rewrite Hhook; split; reflexivity.
    + injection Hrun as <- <- <-. split; [reflexivity | ]. split; [reflexivity | ].
      exists None. split; [reflexivity | ]. split; [split; reflexivity | ].
      split; reflexivity.
  - destruct (OMR_GC_SEGREGATED_HEAP build); [ | discriminate].
    destruct (SegregatedAllocationInterface_newInstance port env) as [a | ]; cbn in Hrun.
    + destruct (delegate_environmentInitialized (_delegate this) _) eqn:Hhook;
        injection Hrun as <- <- <-; cbn; (split; [reflexivity | ]);
        (split; [reflexivity | ]); eexists; (split; [reflexivity | ]);
        (split; [split; reflexivity | ]); cbn; rewrite Hhook; split; reflexivity.
    + injection Hrun as <- <- <-. split; [reflexivity | ]. split; [reflexivity | ].
      exists None. split; [reflexivity | ]. split; [split; reflexivity | ].
      split; reflexivity.
Qed.

(** With a compiled-in variant the initialization returns. *)
Lemma initializeEnvironment_returns (build : Build) (port : Platform)
  (this : MM_Configuration) (env : MM_EnvironmentBase) (rt : Runtime) :
  match _allocationType this with
  | gc_modron_allocation_type_tlh => OMR_GC_THREAD_LOCAL_HEAP build = true
  | gc_modron_allocation_type_segregated => OMR_GC_SEGREGATED_HEAP build = true
  | gc_modron_allocation_type_illegal => False
  end ->
  exists result env' rt',
    initializeEnvironment build port this env rt = Returned (result, env') rt'.
Proof.
  unfold initializeEnvironment. run_monad. intros Hvariant.
  destruct (_allocationType this); [contradiction | | ]; rewrite Hvariant.
  - destruct (TLHAllocationInterface_newInstance port env); cbn;
      [destruct (delegate_environmentInitialized (_delegate this) _) | ];
      eexists _, _, _; reflexivity.
  - destruct (SegregatedAllocationInterface_newInstance port env); cbn;
      [destruct (delegate_environmentInitialized (_delegate this) _) | ];
      eexists _, _, _; reflexivity.
Qed.

(** C7.  Every call of [createEnvironment] that returns gives back either
    an Environment whose allocation interface is the one of the configured
    variant and on which the delegate's per-environment hook succeeded, with
    no kill of it recorded, or null; and a null return has either allocated
    no Environment at all or ends with the kill of the one it allocated.
    With a compiled-in variant the call does return. *)
Theorem createEnvironment_all_or_nothing (build : Build) (port : Platform)
  (this : MM_Configuration) (omrVMThread : address) (rt : Runtime) :
  (match _allocationType this with
   | gc_modron_allocation_type_tlh => OMR_GC_THREAD_LOCAL_HEAP build = true
   | gc_modron_allocation_type_segregated => OMR_GC_SEGREGATED_HEAP build = true
   | gc_modron_allocation_type_illegal => False
   end ->
   exists result rt', createEnvironment build port this omrVMThread rt = Returned result rt')
  /\
  forall result rt',
    createEnvironment build port this omrVMThread rt = Returned result rt' ->
    match result with
    | Some env =>
        exists allocated interface,
          allocateNewEnvironment this omrVMThread = Some allocated /\
          env = set_objectAllocationInterface (Some interface) allocated /\
          _objectAllocationInterface env = Some interface /\
          match _allocationType this with
          | gc_modron_allocation_type_tlh =>
              exists a, TLHAllocationInterface_newInstance port allocated = Some a /\
                        interface = MM_TLHAllocationInterface a
          | gc_modron_allocation_type_segregated =>
              exists a, SegregatedAllocationInterface_newInstance port allocated = Some a /\
                        interface = MM_SegregatedAllocationInterface a
          | gc_modron_allocation_type_illegal => False
          end /\
          delegate_environmentInitialized (_delegate this) env = true /\
          calls rt' = calls rt ++ [Delegate_environmentInitialized env]
    | None =>
        (allocateNewEnvironment this omrVMThread = None /\ rt' = rt)
        \/
        (exists allocated interface earlier,
           allocateNewEnvironment this omrVMThread = Some allocated /\
           calls rt' = earlier
                       ++ [Environment_kill (set_objectAllocationInterface interface allocated)])
    end.
Proof.
  split.
  - intros Hvariant. unfold createEnvironment.
    destruct (allocateNewEnvironment this omrVMThread) as [allocated | ].
    + destruct (initializeEnvironment_returns build port this allocated rt Hvariant)
        as [ok [env' [rt1 Hinit]]].
      unfold bind at 1. rewrite Hinit. destruct ok; cbn [negb]; run_monad; eauto.
    + unfold ret. eauto.
  - intros result rt' Hrun. unfold createEnvironment in Hrun.
    destruct (allocateNewEnvironment this omrVMThread) as [allocated | ] eqn:Halloc.
    2:{ unfold ret in Hrun. injection Hrun as <- <-. left. split; reflexivity. }
    unfold bind at 1 in Hrun.
    destruct (initializeEnvironment build port this allocated rt) as [[ok env'] rt1 | rt1]
      eqn:Hinit; [ | discriminate].
    destruct (initializeEnvironment_run build port this allocated rt ok env' rt1 Hinit)
      as [_ [_ [interface [Henv [Hvariant Hhook]]]]].
    destruct ok; cbn [negb] in Hrun; run_monad.
    + injection Hrun as <- <-.
      destruct interface as [i | ]; [ | destruct Hhook as [Habs _]; discriminate].
      destruct Hhook as [Hok Hcalls].
      exists allocated, i. split; [reflexivity | ]. split; [exact Henv | ].
      split; [rewrite Henv; reflexivity | ].
      split; [ | split; [symmetry; exact Hok | exact Hcalls]].
      destruct (_allocationType this); [contradiction | | ].
      * destruct Hvariant as [_ Hi].
        destruct (TLHAllocationInterface_newInstance port allocated) as [a | ];
          [ | discriminate].
        exists a. split; [reflexivity | ]. cbn in Hi. injection Hi as ->. reflexivity.
      * destruct Hvariant as [_ Hi].
        destruct (SegregatedAllocationInterface_newInstance port allocated) as [a | ];
          [ | discriminate].
        exists a. split; [reflexivity | ]. cbn in Hi. injection Hi as ->. reflexivity.
    + injection Hrun as <- <-. right.
      exists allocated, interface, (calls rt1). split; [reflexivity | ].
      cbn. rewrite Henv. reflexivity.
Qed.

(** A thread-local-heap environment is created whole. *)
Lemma createEnvironment_all_or_nothing_witness :
  exists env rt',
    createEnvironment Sample.build Sample.port Sample.configuration 7
      (Sample.runtime Sample.freshExtensions) = Returned (Some env) rt' /\
    _objectAllocationInterface env = Some (MM_TLHAllocationInterface 28672).
Proof.
  destruct (createEnvironment_all_or_nothing Sample.build Sample.port Sample.configuration 7
              (Sample.runtime Sample.freshExtensions)) as [Hreturns Hshape].
  destruct (Hreturns eq_refl) as [result [rt' Hrun]].
  pose proof (Hshape result rt' Hrun) as Hresult.
  assert (Hsome : exists env, result = Some env).
  { vm_compute in Hrun. injection Hrun as <- _. eexists. reflexivity. }
  destruct Hsome as [env ->].
  exists env, rt'. split; [exact Hrun | ].
  destruct Hresult as [allocated [interface [Halloc [_ [Hiface [Hvariant _]]]]]].
  cbn in Halloc, Hvariant. injection Halloc as <-.
  destruct Hvariant as [a [Ha ->]]. cbn in Ha. injection Ha as <-. exact Hiface.
Defined.

(** A failed delegate hook: the environment is killed and null returned. *)
Lemma createEnvironment_failure_example :
  let this :=
    {| _delegate :=
         {| delegate_initialize := fun _ _ => true;
            delegate_environmentInitialized := fun _ => false;
            delegate_heapInitialized := fun _ => true;
            delegate_reinitializeForRestore := true;
            getMaxGCThreadCount := 64;
            checkPointGCThreadCountVerifyAndAdjust := gcThreadCount |};
       _alignmentType := mm_heapAlignment;
       _defaultRegionSize := 65536;
       _defaultArrayletLeafSize := 0;
       _writeBarrierType := 0;
       _allocationType := gc_modron_allocation_type_segregated;
       verifyRegionSize := fun _ => true;
       createHeapRegionManager := None;
       createHeapWithManager := fun _ _ => None;
       allocateNewEnvironment := fun thread =>
         Some {| env_omrVMThread := thread; _objectAllocationInterface := None |} |} in
  let env :=
    {| env_omrVMThread := 7;
       _objectAllocationInterface := Some (MM_SegregatedAllocationInterface 32768) |} in
  createEnvironment Sample.build Sample.port this 7 (Sample.runtime Sample.freshExtensions)
  = Returned None
      {| extensions := Sample.freshExtensions; omrVM := Sample.vm;
         calls := [Delegate_environmentInitialized env; Environment_kill env] |}.
Proof. reflexivity. Qed.

(** ** Teardown: [destroyCollectors], [tearDown] *)

Lemma returns_bind {A B : Type} (m : M A) (f : A -> M B) (rt : Runtime)
  (Q : B -> Runtime -> Prop) :
  returns m rt (fun a rt1 => returns (f a) rt1 Q) -> returns (bind m f) rt Q.
Proof.
  intros [a [rt1 [Hm [b [rt2 [Hf HQ]]]]]]. exists b, rt2.
  split; [unfold bind; rewrite Hm; exact Hf | exact HQ].
Qed.

Lemma returns_weaken {A : Type} (m : M A) (rt : Runtime) (Q Q' : A -> Runtime -> Prop) :
  (forall a rt', Q a rt' -> Q' a rt') -> returns m rt Q -> returns m rt Q'.
Proof. intros Himp [a [rt' [Hm HQ]]]. exists a, rt'. split; [exact Hm | auto]. Qed.

(** One guarded step of the teardown: if the handle is present, kill what it
    holds and clear it.  The step returns; it establishes [R] when clearing
    does and [R] already holds with the handle absent. *)
Lemma guardedKill_returns {A : Type} (field : MM_GCExtensionsBase -> option A)
  (kill : A -> Call) (clear : MM_GCExtensionsBase -> MM_GCExtensionsBase)
  (R : Runtime -> Prop) (rt : Runtime) :
  (forall a, field (extensions rt) = Some a ->
     R {| extensions := clear (extensions rt); omrVM := omrVM rt;
          calls := calls rt ++ [kill a] |}) ->
  (field (extensions rt) = None -> R rt) ->
  returns (extensions <- getExtensions ;;
           whenSome (field extensions) (fun a => call (kill a) ;; modifyExtensions clear))
    rt (fun _ rt' => R rt').
Proof.
  intros Hsome Hnone. unfold returns. run_monad.
  destruct (field (extensions rt)) as [a | ] eqn:Hfield; cbn.
  - eexists tt, _. split; [reflexivity | apply Hsome; reflexivity].
  - exists tt, rt. split; [reflexivity | apply Hnone; reflexivity].
Qed.

Lemma destroyCollectors_returns (this : MM_Configuration) (R : Runtime -> Prop)
  (rt : Runtime) :
  (forall c, getGlobalCollector (extensions rt) = Some c ->
     R {| extensions := setGlobalCollector None (extensions rt); omrVM := omrVM rt;
          calls := calls rt ++ [Collector_kill c] |}) ->
  (getGlobalCollector (extensions rt) = None -> R rt) ->
  returns (destroyCollectors this) rt (fun _ rt' => R rt').
Proof.
  intros Hsome Hnone. unfold destroyCollectors.
  apply (guardedKill_returns getGlobalCollector Collector_kill (setGlobalCollector None));
    assumption.
Qed.

(** The first step: the default memory space is killed and detached; the
    heap handle itself stays. *)
Lemma detachMemorySpace_returns (R : Runtime -> Prop) (rt : Runtime) :
  (forall h calls',
     heap (extensions rt) = Some h ->
     R {| extensions := set_heap (Some (setDefaultMemorySpace None h)) (extensions rt);
          omrVM := omrVM rt; calls := calls' |}) ->
  (heap (extensions rt) = None -> R rt) ->
  returns (extensions <- getExtensions ;;
           whenSome (heap extensions) (fun h =>
             whenSome (getDefaultMemorySpace h) (fun modronMemorySpace =>
               call (MemorySpace_kill modronMemorySpace)) ;;
             modifyExtensions (set_heap (Some (setDefaultMemorySpace None h)))))
    rt (fun _ rt' => R rt').
Proof.
  intros Hsome Hnone. unfold returns. run_monad.
  destruct (heap (extensions rt)) as [h | ] eqn:Hheap.
  - destruct (getDefaultMemorySpace h); cbn; eexists tt, _;
      (split; [reflexivity | apply Hsome; reflexivity]).
  - exists tt, rt. split; [reflexivity | apply Hnone; reflexivity].
Qed.

Lemma returns_then {A B : Type} (m : M A) (k : A -> M B) (rt : Runtime)
  (I : Runtime -> Prop) (Q : B -> Runtime -> Prop) :
  returns m rt (fun _ rt1 => I rt1) ->
  (forall a rt1, I rt1 -> returns (k a) rt1 Q) ->
  returns (bind m k) rt Q.
Proof.
  intros Hm Hk. apply returns_bind.
  apply (returns_weaken m rt (fun _ rt1 => I rt1)); [ | exact Hm].
  intros a rt1 HI. apply Hk. exact HI.
Qed.

(** The same for a step that starts by reading the extensions. *)
Lemma returns_step {A B : Type} (g : MM_GCExtensionsBase -> M A) (k : A -> M B)
  (rt : Runtime) (I : Runtime -> Prop) (Q : B -> Runtime -> Prop) :
  returns (bind getExtensions g) rt (fun _ rt1 => I rt1) ->
  (forall a rt1, I rt1 -> returns (k a) rt1 Q) ->
  returns (bind getExtensions (fun e => bind (g e) k)) rt Q.
Proof.
  intros [a [rt1 [Hg HI]]] Hk. destruct (Hk a rt1 HI) as [b [rt2 [Hrun HQ]]].
  exists b, rt2. split; [ | exact HQ].
  unfold bind, getExtensions in *. rewrite Hg. exact Hrun.
Qed.

Lemma killDispatcher_returns (R : Runtime -> Prop) (rt : Runtime) :
  (forall d, isMetronomeGC (extensions rt) = false ->
     dispatcher (extensions rt) = Some d ->
     R {| extensions := set_dispatcher None (extensions rt); omrVM := omrVM rt;
          calls := calls rt ++ [ParallelDispatcher_kill d] |}) ->
  (isMetronomeGC (extensions rt) = true \/ dispatcher (extensions rt) = None -> R rt) ->
  returns (extensions <- getExtensions ;;
           if negb (isMetronomeGC extensions) then
             whenSome (dispatcher extensions) (fun d =>
               call (ParallelDispatcher_kill d) ;;
               modifyExtensions (set_dispatcher None))
           else ret tt)
    rt (fun _ rt' => R rt').
Proof.
  intros Hsome Hnone. unfold returns. run_monad.
  destruct (isMetronomeGC (extensions rt)) eqn:Hmetronome; cbn [negb].
  - exists tt, rt. split; [reflexivity | apply Hnone; left; reflexivity].
  - destruct (dispatcher (extensions rt)) as [d | ] eqn:Hd; cbn.
    + eexists tt, _. split; [reflexivity | apply Hsome; reflexivity].
    + exists tt, rt. split; [reflexivity | apply Hnone; right; reflexivity].
Qed.

Ltac teardown_invariant :=
  cbn [extensions omrVM calls] in *; unfold isMetronomeGC, getGlobalCollector in *;
  cbn in *; intuition (auto; congruence).

(** [tearDown] always returns, in a state that holds no resource; it does
    not write the VM record nor the excessive-GC parameter. *)
Lemma tearDown_returns (this : MM_Configuration) (rt : Runtime) :
  returns (tearDown this) rt
    (fun _ rt' => tornDown (extensions rt') /\ omrVM rt' = omrVM rt /\
                  excessiveGCEnabled (extensions rt') = excessiveGCEnabled (extensions rt)).
Proof.
  set (x := excessiveGCEnabled (extensions rt)). set (vm := omrVM rt).
  set (I0 := fun r : Runtime => omrVM r = vm /\ excessiveGCEnabled (extensions r) = x).
  assert (H0 : I0 rt) by (split; reflexivity).
  clearbody x vm. revert H0. generalize rt. clear rt. intros rt H0.
  unfold tearDown.
  apply (returns_step _ _ rt I0).
  { apply detachMemorySpace_returns; [intros h calls' Hh | intros Hh];
      unfold I0 in *; teardown_invariant. }
  clear rt H0. intros _ rt H0.
  set (I1 := fun r => I0 r /\ referenceChainWalkerMarkMap (extensions r) = None).
  apply (returns_step _ _ rt I1).
  { apply (guardedKill_returns referenceChainWalkerMarkMap ReferenceChainWalkerMarkMap_kill
             (set_referenceChainWalkerMarkMap None)); [intros a Ha | intros Ha];
      unfold I1, I0 in *; teardown_invariant. }
  clear rt H0. intros _ rt H1.
  set (I2 := fun r => I1 r /\ getGlobalCollector (extensions r) = None).
  apply (returns_then _ _ rt I2).
  { apply destroyCollectors_returns; [intros a Ha | intros Ha];
      unfold I2, I1, I0 in *; teardown_invariant. }
  clear rt H1. intros _ rt H2.
  set (I3 := fun r => I2 r /\ (isMetronomeGC (extensions r) = true
                               \/ dispatcher (extensions r) = None)).
  apply (returns_step _ _ rt I3).
  { apply killDispatcher_returns; [intros d Hm Hd | intros Hd];
      unfold I3, I2, I1, I0 in *; teardown_invariant. }
  clear rt H2. intros _ rt H3.
  set (I4 := fun r => I3 r /\ globalAllocationManager (extensions r) = None).
  apply (returns_step _ _ rt I4).
  { apply (guardedKill_returns globalAllocationManager GlobalAllocationManager_kill
             (set_globalAllocationManager None)); [intros a Ha | intros Ha];
      unfold I4, I3, I2, I1, I0 in *; teardown_invariant. }
  clear rt H3. intros _ rt H4.
  set (I5 := fun r => I4 r /\ heap (extensions r) = None).
  apply (returns_step _ _ rt I5).
  { apply (guardedKill_returns heap Heap_kill (set_heap None)); [intros a Ha | intros Ha];
      unfold I5, I4, I3, I2, I1, I0 in *; teardown_invariant. }
  clear rt H4. intros _ rt H5.
  set (I6 := fun r => I5 r /\ memoryManager (extensions r) = None).
  apply (returns_step _ _ rt I6).
  { apply (guardedKill_returns memoryManager MemoryManager_kill (set_memoryManager None));
      [intros a Ha | intros Ha];
      unfold I6, I5, I4, I3, I2, I1, I0 in *; teardown_invariant. }
  clear rt H5. intros _ rt H6.
  set (I7 := fun r => I6 r /\ heapRegionManager (extensions r) = None).
  apply (returns_step _ _ rt I7).
  { apply (guardedKill_returns heapRegionManager HeapRegionManager_kill
             (set_heapRegionManager None)); [intros a Ha | intros Ha];
      unfold I7, I6, I5, I4, I3, I2, I1, I0 in *; teardown_invariant. }
  clear rt H6. intros _ rt H7.
  set (I8 := fun r => I7 r /\ _lightweightNonReentrantLockPool (extensions r) = None).
  apply (returns_step _ _ rt I8).
  { apply (guardedKill_returns _lightweightNonReentrantLockPool pool_kill
             (set_lightweightNonReentrantLockPool None)); [intros a Ha | intros Ha];
      unfold I8, I7, I6, I5, I4, I3, I2, I1, I0 in *; teardown_invariant. }
  clear rt H7. intros _ rt H8.
  unfold returns. run_monad. eexists tt, _. split; [reflexivity | ].
  unfold tornDown, I8, I7, I6, I5, I4, I3, I2, I1, I0 in *. teardown_invariant.
Qed.

(** On extensions that hold no resource, [tearDown] destroys nothing and
    writes nothing; what is left of it are the two calls that no presence
    check guards. *)
Lemma tearDown_idle (this : MM_Configuration) (rt : Runtime) :
  tornDown (extensions rt) ->
  tearDown this rt =
    Returned tt
      {| extensions := extensions rt; omrVM := omrVM rt;
         calls := calls rt ++ [NUMAManager_shutdownNUMASupport; Delegate_tearDown] |}.
Proof.
  intros Htorn. destruct rt as [e vm cs].
  destruct e as [hp mm hrm rcw gc disp gam pool metro ? ? ? ? ? ? ? ? ? ? ? ? ? ? ? ? ? ? ? ?].
  unfold tornDown, getGlobalCollector, isMetronomeGC in Htorn. cbn in Htorn.
  destruct Htorn as [-> [-> [-> [Hdispatcher [-> [-> [-> ->]]]]]]].
  destruct Hdispatcher as [-> | ->]; [ | destruct metro];
    cbn; unfold call; cbn; rewrite <- app_assoc; reflexivity.
Qed.

(** C8, as the code has it.  [tearDown] returns from every state of the
    extensions, initialized or not, and leaves every handle it checks null
    (the dispatcher's only outside Metronome).  Called a second time it
    destroys nothing and leaves the extensions and the VM record as they
    are; the second call still makes the two calls that are not guarded by a
    presence check, the NUMA shutdown and the delegate's teardown. *)
Theorem tearDown_twice (this : MM_Configuration) (rt : Runtime) :
  exists rt1,
    tearDown this rt = Returned tt rt1 /\
    tornDown (extensions rt1) /\
    tearDown this rt1 =
      Returned tt
        {| extensions := extensions rt1; omrVM := omrVM rt1;
           calls := calls rt1 ++ [NUMAManager_shutdownNUMASupport; Delegate_tearDown] |}.
Proof.
  destruct (tearDown_returns this rt) as [[] [rt1 [Hrun [Htorn _]]]].
  exists rt1. split; [exact Hrun | ]. split; [exact Htorn | ].
  apply tearDown_idle. exact Htorn.
Qed.

(** C8 as the spec words it fails: the second of two teardowns is not
    without operation.  After a heap and its memory space were destroyed by
    the first call, the second one shuts the NUMA support down and tears the
    delegate down again. *)
Lemma tearDown_second_call_counterexample :
  let before :=
    Sample.runtime (set_heap (Some (Sample.theHeap 65536 131072)) Sample.freshExtensions) in
  let first := stateOf (tearDown Sample.configuration before) in
  let second := stateOf (tearDown Sample.configuration first) in
  calls first =
    [MemorySpace_kill {| memorySpace_address := 8192 |};
     Heap_kill (setDefaultMemorySpace None (Sample.theHeap 65536 131072));
     NUMAManager_shutdownNUMASupport; Delegate_tearDown] /\
  calls second = calls first ++ [NUMAManager_shutdownNUMASupport; Delegate_tearDown] /\
  calls second <> calls first.
Proof.
  vm_compute. split; [reflexivity | ]. split; [reflexivity | ].
  intros Hsame. discriminate Hsame.
Qed.

(** ** Heap creation: [createHeap] *)

(** The shift computation writes the VM record only, and answers true
    whenever it returns. *)
Lemma initializeRunTimeObjectAlignmentAndCRShift_frame (build : Build)
  (this : MM_Configuration) (heap : MM_Heap) (rt : Runtime) :
  extensions (stateOf (initializeRunTimeObjectAlignmentAndCRShift build this heap rt))
  = extensions rt /\
  forall b rt',
    initializeRunTimeObjectAlignmentAndCRShift build this heap rt = Returned b rt' ->
    b = true /\ calls rt' = calls rt ++ [ObjectModel_setObjectAlignment].
Proof.
  destruct (OMR_GC_COMPRESSED_POINTERS build && compressObjectReferences (omrVM rt))
    eqn:Hcompressed.
  - apply andb_prop in Hcompressed. destruct Hcompressed as [Hbuild Hcompress].
    rewrite (initializeRunTimeObjectAlignmentAndCRShift_run build this heap rt Hbuild Hcompress).
    cbv zeta.
    destruct (getHeapTop heap <=? _).
    + split; [reflexivity | ]. intros b rt' Hrun. injection Hrun as <- <-.
      split; reflexivity.
    + split; [reflexivity | ]. intros b rt' Hrun. discriminate.
  - rewrite (initializeRunTimeObjectAlignmentAndCRShift_uncompressed build this heap rt
               Hcompressed).
    split; [reflexivity | ]. intros b rt' Hrun. injection Hrun as <- <-.
    split; reflexivity.
Qed.

(** The end of a path through [createHeap]: the four parts of the
    statement, from what the path has established. *)
Ltac createHeap_leaf :=
  match goal with
  | Hrun : Returned _ _ = Returned _ _ |- _ => injection Hrun as <- <-
  end;
  cbn [extensions omrVM calls] in *;
  repeat match goal with
         | Hext : extensions _ = _ |- _ => rewrite Hext in *; clear Hext
         end;
  cbn -[initializeRunTimeObjectAlignmentAndCRShift Z.eqb Z.ltb Z.gtb Z.leb] in *;
  split; [intros Hnone; first [discriminate | auto; fail] | ];
  split; [intros Hnone Hentry;
          first [discriminate | exact Hentry | reflexivity | congruence] | ];
  split; [intros h Hsome;
          first [ discriminate
                | injection Hsome as <-; split; [reflexivity | split; lia] ] | ];
  intros regionManager h Hmanager Hregion Hmake Hwindow;
  first [ congruence
        | match goal with
          | Hmade : createHeapWithManager _ _ _ = Some ?h0 |- _ =>
              assert (Hsame : h = h0) by congruence; subst h
          end;
          first [ lia
                | split; [reflexivity | apply in_or_app; right; left; reflexivity] ] ].

(** The part of [createHeap] that follows the creation of the managers. *)
Ltac createHeap_tail Hrun :=
  match type of Hrun with
  | context [createHeapWithManager ?this ?bytes ?r] =>
      destruct (createHeapWithManager this bytes r) as [h0 | ] eqn:Hmade;
      [ | createHeap_leaf]
  end;
  match type of Hrun with
  | context [initializeHeapRegionManager ?port ?h ?r] =>
      destruct (initializeHeapRegionManager port h r) eqn:Hregions; cbn [negb] in Hrun;
      [ | createHeap_leaf]
  end;
  match type of Hrun with
  | context [initializeRunTimeObjectAlignmentAndCRShift ?build ?this ?h ?rt0] =>
      let Hshift := fresh "Hshift" in
      let Hext := fresh "Hext" in
      let Hret := fresh "Hret" in
      destruct (initializeRunTimeObjectAlignmentAndCRShift_frame build this h rt0)
        as [Hext Hret];
      destruct (initializeRunTimeObjectAlignmentAndCRShift build this h rt0)
        as [b rt1 | rt1] eqn:Hshift; [ | discriminate];
      destruct (Hret b rt1 eq_refl) as [-> _]; clear Hret;
      cbn [stateOf negb] in Hrun, Hext
  end;
  match type of Hrun with
  | context [delegate_heapInitialized ?d ?h] =>
      destruct (delegate_heapInitialized d h); cbn [negb] in Hrun; [ | createHeap_leaf]
  end;
  cbn -[initializeRunTimeObjectAlignmentAndCRShift Z.eqb Z.ltb Z.gtb Z.leb] in Hrun;
  repeat match goal with
         | Hext : extensions _ = _ |- _ => rewrite Hext in Hrun
         end;
  match type of Hrun with
  | context [?base <? ?above] =>
      destruct (Z.ltb_spec base above); cbn [orb] in Hrun; [createHeap_leaf | ]
  end;
  match type of Hrun with
  | context [0 =? ?below] =>
      destruct (Z.eqb_spec 0 below); cbn [negb andb] in Hrun; [createHeap_leaf | ]
  end;
  rewrite Z.gtb_ltb in Hrun;
  match type of Hrun with
  | context [?below <? ?top] =>
      destruct (Z.ltb_spec below top); createHeap_leaf
  end.

(** C9, as the code has it.  For every call of [createHeap] that returns:
    a null result leaves the heap handle either null or as it was at entry,
    hence null when it was null at entry; a non-null result is the published
    heap and lies inside the configured address window; and when the heap
    that was constructed has its base below the configured lower bound, or
    its top above a configured (non-null) upper bound, that heap is killed
    and null is returned. *)
Theorem createHeap_failure_publishes_nothing (build : Build) (port : Platform)
  (this : MM_Configuration) (heapBytesRequested : Z) (rt : Runtime)
  (result : option MM_Heap) (rt' : Runtime) :
  createHeap build port this heapBytesRequested rt = Returned result rt' ->
  let e := extensions rt in
  let e' := extensions rt' in
  (result = None -> heap e' = None \/ heap e' = heap e) /\
  (result = None -> heap e = None -> heap e' = None) /\
  (forall h, result = Some h ->
     heap e' = Some h /\
     fvtest_verifyHeapAbove e <= getHeapBase h /\
     (fvtest_verifyHeapBelow e = 0 \/ getHeapTop h <= fvtest_verifyHeapBelow e)) /\
  (forall regionManager h,
     memoryManager e' <> None ->
     heapRegionManager e' = Some regionManager ->
     createHeapWithManager this heapBytesRequested regionManager = Some h ->
     getHeapBase h < fvtest_verifyHeapAbove e
     \/ (fvtest_verifyHeapBelow e <> 0 /\ fvtest_verifyHeapBelow e < getHeapTop h) ->
     result = None /\ In (Heap_kill h) (calls rt')).
Proof.
  intros Hrun e e'. subst e e'. unfold createHeap in Hrun. run_monad.
  destruct (memoryManager (extensions rt)) as [mm | ] eqn:Hmm;
    [ | destruct (MemoryManager_newInstance port) as [mm | ] eqn:Hnew ];
    cbn -[initializeRunTimeObjectAlignmentAndCRShift Z.eqb Z.ltb Z.gtb Z.leb] in Hrun;
    [ | | createHeap_leaf ];
    (destruct (heapRegionManager (extensions rt)) as [r | ] eqn:Hhrm;
     [ | destruct (createHeapRegionManager this) as [r | ] eqn:Hcreated ];
     cbn -[initializeRunTimeObjectAlignmentAndCRShift Z.eqb Z.ltb Z.gtb Z.leb] in Hrun;
     [ createHeap_tail Hrun | createHeap_tail Hrun | createHeap_leaf ]).
Qed.

(** A heap built at 64K when the window starts at 1M: killed, not
    published, null returned. *)
Lemma createHeap_failure_publishes_nothing_witness :
  exists rt',
    createHeap Sample.build Sample.port Sample.configuration 65536
      (Sample.runtime (Sample.extensionsWith 1048576 0)) = Returned None rt' /\
    heap (extensions rt') = None /\
    In (Heap_kill (Sample.theHeap 65536 131072)) (calls rt').
Proof.
  destruct (createHeap Sample.build Sample.port Sample.configuration 65536
              (Sample.runtime (Sample.extensionsWith 1048576 0)))
    as [result rt' | rt'] eqn:Hrun;
    [ | exfalso; vm_compute in Hrun; discriminate Hrun].
  pose proof (createHeap_failure_publishes_nothing Sample.build Sample.port
                Sample.configuration 65536
                (Sample.runtime (Sample.extensionsWith 1048576 0)) result rt' Hrun)
    as [_ [Hnull [_ Hwindow]]].
  assert (Hresult : result = None) by (vm_compute in Hrun; congruence).
  subst result. exists rt'. split; [reflexivity | ].
  split; [apply Hnull; reflexivity | ].
  apply (Hwindow {| heapRegionManager_address := 12288 |} (Sample.theHeap 65536 131072)).
  - vm_compute in Hrun. injection Hrun as <-. discriminate.
  - vm_compute in Hrun. injection Hrun as <-. reflexivity.
  - reflexivity.
  - left. vm_compute. reflexivity.
Defined.

(** C9 as the spec words it fails: a null result does not always leave the
    heap handle null.  After a first heap was created and published, a
    second call that cannot construct its heap returns null and leaves the
    first heap in the extensions. *)
Lemma createHeap_second_call_counterexample :
  let this :=
    Sample.configure 64 (fun _ => true)
      (fun bytes _ => if bytes <=? 2 ^ 30 then Some (Sample.theHeap 65536 (65536 + bytes))
                      else None) in
  match createHeap Sample.build Sample.port this 65536 (Sample.runtime Sample.freshExtensions)
  with
  | Returned (Some first) rt1 =>
      heap (extensions rt1) = Some first /\
      match createHeap Sample.build Sample.port this (2 ^ 40) rt1 with
      | Returned None rt2 => heap (extensions rt2) = Some first /\ heap (extensions rt2) <> None
      | _ => False
      end
  | _ => False
  end.
Proof. vm_compute. split; [reflexivity | ]. split; [reflexivity | discriminate]. Qed.

(** ** Start-up: [initialize] and the excessive-GC parameter *)

Lemma keeps_ret {A F : Type} (f : MM_GCExtensionsBase -> F) (a : A) : keeps f (ret a).
Proof. intros rt. reflexivity. Qed.

Lemma keeps_bind {A B F : Type} (f : MM_GCExtensionsBase -> F) (m : M A) (k : A -> M B) :
  keeps f m -> (forall a, keeps f (k a)) -> keeps f (bind m k).
Proof.
  intros Hm Hk rt. unfold bind. specialize (Hm rt).
  destruct (m rt) as [a rt1 | rt1]; cbn [stateOf] in *.
  - rewrite (Hk a rt1). exact Hm.
  - exact Hm.
Qed.

Lemma keeps_getExtensions {F : Type} (f : MM_GCExtensionsBase -> F) : keeps f getExtensions.
Proof. intros rt. reflexivity. Qed.

Lemma keeps_getOmrVM {F : Type} (f : MM_GCExtensionsBase -> F) : keeps f getOmrVM.
Proof. intros rt. reflexivity. Qed.

Lemma keeps_modifyExtensions {F : Type} (f : MM_GCExtensionsBase -> F)
  (g : MM_GCExtensionsBase -> MM_GCExtensionsBase) :
  (forall e, f (g e) = f e) -> keeps f (modifyExtensions g).
Proof. intros Hg rt. cbn. apply Hg. Qed.

Lemma keeps_modifyOmrVM {F : Type} (f : MM_GCExtensionsBase -> F) (g : OMR_VM -> OMR_VM) :
  keeps f (modifyOmrVM g).
Proof. intros rt. reflexivity. Qed.

Lemma keeps_call {F : Type} (f : MM_GCExtensionsBase -> F) (c : Call) : keeps f (call c).
Proof. intros rt. reflexivity. Qed.

Lemma keeps_unreachable {A F : Type} (f : MM_GCExtensionsBase -> F) :
  keeps f (@Assert_MM_unreachable A).
Proof. intros rt. reflexivity. Qed.

Lemma keeps_nullDereference {A F : Type} (f : MM_GCExtensionsBase -> F) :
  keeps f (@nullDereference A).
Proof. intros rt. reflexivity. Qed.

Lemma keeps_divisionByZero {A F : Type} (f : MM_GCExtensionsBase -> F) :
  keeps f (@divisionByZero A).
Proof. intros rt. reflexivity. Qed.

Lemma keeps_Assert_MM_true {F : Type} (f : MM_GCExtensionsBase -> F) (b : bool) :
  keeps f (Assert_MM_true b).
Proof. intros rt. destruct b; reflexivity. Qed.

Lemma keeps_whenSome {A F : Type} (f : MM_GCExtensionsBase -> F) (o : option A)
  (k : A -> M unit) :
  (forall a, keeps f (k a)) -> keeps f (whenSome o k).
Proof. intros Hk. destruct o; [apply Hk | apply keeps_ret]. Qed.

Create HintDb keeps.

#[local] Hint Resolve keeps_ret keeps_getExtensions keeps_getOmrVM keeps_modifyOmrVM
  keeps_call keeps_unreachable keeps_nullDereference keeps_divisionByZero
  keeps_Assert_MM_true : keeps.

(** Follows the structure of a method: binds, branches and guarded steps. *)
Ltac keeps_step :=
  first
    [ solve [auto with keeps]
    | apply keeps_bind; [ | intros ? ]
    | apply keeps_whenSome; intros ?
    | apply keeps_modifyExtensions; intros ?; reflexivity
    | match goal with
      | |- keeps _ (if ?b then _ else _) => destruct b
      | |- keeps _ (match ?x with _ => _ end) => destruct x
      | |- keeps _ (let (_, _) := ?x in _) => destruct x
      end ].

Ltac keeps_tac := repeat keeps_step.

Section ExcessiveGC.

Variable build : Build.
Variable port : Platform.
Variable this : MM_Configuration.

Lemma destroyCollectors_keeps : keeps excessiveGCEnabled (destroyCollectors this).
Proof. unfold destroyCollectors, setGlobalCollector. keeps_tac. Qed.

#[local] Hint Resolve destroyCollectors_keeps : keeps.

Lemma tearDown_keeps : keeps excessiveGCEnabled (tearDown this).
Proof. unfold tearDown. keeps_tac. Qed.

#[local] Hint Resolve tearDown_keeps : keeps.

Lemma kill_keeps : keeps excessiveGCEnabled (kill this).
Proof. unfold kill. keeps_tac. Qed.

Lemma initializeEnvironment_keeps (env : MM_EnvironmentBase) :
  keeps excessiveGCEnabled (initializeEnvironment build port this env).
Proof. unfold initializeEnvironment. keeps_tac. Qed.

#[local] Hint Resolve initializeEnvironment_keeps : keeps.

Lemma createEnvironment_keeps (omrVMThread : address) :
  keeps excessiveGCEnabled (createEnvironment build port this omrVMThread).
Proof. unfold createEnvironment. keeps_tac. Qed.

Lemma initializeRunTimeObjectAlignmentAndCRShift_keeps (heap : MM_Heap) :
  keeps excessiveGCEnabled (initializeRunTimeObjectAlignmentAndCRShift build this heap).
Proof.
  intros rt.
  rewrite (proj1 (initializeRunTimeObjectAlignmentAndCRShift_frame build this heap rt)).
  reflexivity.
Qed.

#[local] Hint Resolve initializeRunTimeObjectAlignmentAndCRShift_keeps : keeps.

Lemma createHeap_keeps (heapBytesRequested : Z) :
  keeps excessiveGCEnabled (createHeap build port this heapBytesRequested).
Proof. unfold createHeap. keeps_tac. Qed.

Lemma prepareParameters_keeps
  (minimumSpaceSize minimumNewSpaceSize initialNewSpaceSize maximumNewSpaceSize
   minimumTenureSpaceSize initialTenureSpaceSize maximumTenureSpaceSize
   memoryMax tenureFlags : Z) :
  keeps excessiveGCEnabled
    (prepareParameters this minimumSpaceSize minimumNewSpaceSize initialNewSpaceSize
       maximumNewSpaceSize minimumTenureSpaceSize initialTenureSpaceSize
       maximumTenureSpaceSize memoryMax tenureFlags).
Proof. unfold prepareParameters, rounding. keeps_tac. Qed.

Lemma initializeRegionSize_keeps : keeps excessiveGCEnabled (initializeRegionSize build this).
Proof. unfold initializeRegionSize. keeps_tac. Qed.

Lemma initializeArrayletLeafSize_keeps :
  keeps excessiveGCEnabled (initializeArrayletLeafSize build this).
Proof. unfold initializeArrayletLeafSize. keeps_tac. Qed.

Lemma initializeGCThreadCount_keeps :
  keeps excessiveGCEnabled (initializeGCThreadCount build port this).
Proof. unfold initializeGCThreadCount. keeps_tac. Qed.

Lemma initializeGCParameters_keeps :
  keeps excessiveGCEnabled (initializeGCParameters build port this).
Proof. unfold initializeGCParameters. keeps_tac. Qed.

Lemma initializeNUMAManager_keeps : keeps excessiveGCEnabled (initializeNUMAManager port this).
Proof. unfold initializeNUMAManager. keeps_tac. Qed.

#[local] Hint Resolve initializeGCThreadCount_keeps initializeGCParameters_keeps
  initializeNUMAManager_keeps : keeps.

Lemma reinitializeThreads_keeps (walk : list MM_EnvironmentBase) :
  keeps excessiveGCEnabled (reinitializeThreads port walk).
Proof.
  induction walk as [ | walkEnv rest IH]; cbn [reinitializeThreads]; keeps_tac.
Qed.

#[local] Hint Resolve reinitializeThreads_keeps : keeps.

Lemma reinitializeForRestore_keeps :
  keeps excessiveGCEnabled (reinitializeForRestore build port this).
Proof. unfold reinitializeForRestore. keeps_tac. Qed.

Ltac keeps_rest :=
  match goal with
  | |- excessiveGCEnabled (extensions (stateOf (?m ?r))) = _ =>
      let K := fresh "K" in
      assert (K : keeps excessiveGCEnabled m) by keeps_tac;
      rewrite (K r); clear K
  end.

(** C10.  [initialize] switches the excessive-GC parameter on: when the
    region size, the arraylet leaf size and the delegate are initialized
    with success and the user did not specify the option, its value is true
    (and it still counts as not specified) in the state that [initialize]
    ends in, whatever becomes of the steps that follow (NUMA, thread count,
    parameters, lock pool); in every other case the parameter is left as
    it was.  No other method of the file writes it. *)
Theorem initialize_enables_excessiveGC (rt : Runtime) :
  let e := extensions rt in
  let proceeds :=
    match initializeRegionSize build this rt with
    | Returned true rt1 =>
        match initializeArrayletLeafSize build this rt1 with
        | Returned true _ =>
            delegate_initialize (_delegate this) (_writeBarrierType this)
              (_allocationType this)
        | _ => false
        end
    | _ => false
    end in
  excessiveGCEnabled (extensions (stateOf (initialize build port this rt))) =
    (if proceeds && negb (_wasSpecified (excessiveGCEnabled e))
     then {| _wasSpecified := false; _valueSpecified := true |}
     else excessiveGCEnabled e) /\
  (proceeds = true -> _wasSpecified (excessiveGCEnabled e) = false ->
   _valueSpecified
     (excessiveGCEnabled (extensions (stateOf (initialize build port this rt)))) = true) /\
  keeps excessiveGCEnabled (tearDown this) /\
  keeps excessiveGCEnabled (kill this) /\
  keeps excessiveGCEnabled (destroyCollectors this) /\
  (forall omrVMThread,
     keeps excessiveGCEnabled (createEnvironment build port this omrVMThread)) /\
  (forall env, keeps excessiveGCEnabled (initializeEnvironment build port this env)) /\
  (forall bytes, keeps excessiveGCEnabled (createHeap build port this bytes)) /\
  (forall heap,
     keeps excessiveGCEnabled (initializeRunTimeObjectAlignmentAndCRShift build this heap)) /\
  (forall minimumSpaceSize minimumNewSpaceSize initialNewSpaceSize maximumNewSpaceSize
          minimumTenureSpaceSize initialTenureSpaceSize maximumTenureSpaceSize
          memoryMax tenureFlags,
     keeps excessiveGCEnabled
       (prepareParameters this minimumSpaceSize minimumNewSpaceSize initialNewSpaceSize
          maximumNewSpaceSize minimumTenureSpaceSize initialTenureSpaceSize
          maximumTenureSpaceSize memoryMax tenureFlags)) /\
  keeps excessiveGCEnabled (initializeRegionSize build this) /\
  keeps excessiveGCEnabled (initializeArrayletLeafSize build this) /\
  keeps excessiveGCEnabled (initializeGCThreadCount build port this) /\
  keeps excessiveGCEnabled (initializeGCParameters build port this) /\
  keeps excessiveGCEnabled (initializeNUMAManager port this) /\
  keeps excessiveGCEnabled (reinitializeForRestore build port this).
Proof.
  intros e proceeds.
  assert (Hend :
    excessiveGCEnabled (extensions (stateOf (initialize build port this rt))) =
      (if proceeds && negb (_wasSpecified (excessiveGCEnabled e))
       then {| _wasSpecified := false; _valueSpecified := true |}
       else excessiveGCEnabled e)).
  { subst proceeds e. unfold initialize. unfold bind at 1.
    pose proof (initializeRegionSize_keeps rt) as K1.
    destruct (initializeRegionSize build this rt) as [[ | ] rt1 | rt1]; cbn [stateOf] in *;
      [ | exact K1 | exact K1].
    unfold bind at 1.
    pose proof (initializeArrayletLeafSize_keeps rt1) as K2.
    destruct (initializeArrayletLeafSize build this rt1) as [[ | ] rt2 | rt2];
      cbn [stateOf] in *;
      [ | unfold ret; cbn [stateOf]; rewrite K2; exact K1 | rewrite K2; exact K1].
    unfold bind at 1. unfold call at 1.
    destruct (delegate_initialize (_delegate this) (_writeBarrierType this)
                (_allocationType this)); cbn [andb];
      [ | unfold ret; cbn [stateOf extensions]; rewrite K2; exact K1].
    unfold bind at 1. unfold getExtensions at 1. cbn [extensions].
    rewrite K2, K1.
    destruct (_wasSpecified (excessiveGCEnabled (extensions rt))) eqn:Hunset; cbn [negb].
    + unfold bind at 1. unfold ret at 1. keeps_rest. cbn [extensions].
      rewrite K2. exact K1.
    + unfold bind at 1. unfold modifyExtensions at 1. keeps_rest.
      cbn [extensions excessiveGCEnabled set_excessiveGCEnabled].
      rewrite K2, K1. unfold set_valueSpecified. rewrite Hunset. reflexivity. }
  split; [exact Hend | ]. split.
  { intros Hproceeds Hunset. rewrite Hend, Hproceeds, Hunset. reflexivity. }
  split; [exact tearDown_keeps | ]. split; [exact kill_keeps | ].
    split; [exact destroyCollectors_keeps | ].
    split; [exact createEnvironment_keeps | ].
    split; [exact initializeEnvironment_keeps | ].
    split; [exact createHeap_keeps | ].
    split; [exact initializeRunTimeObjectAlignmentAndCRShift_keeps | ].
    split; [exact prepareParameters_keeps | ].
    split; [exact initializeRegionSize_keeps | ].
    split; [exact initializeArrayletLeafSize_keeps | ].
    split; [exact initializeGCThreadCount_keeps | ].
    split; [exact initializeGCParameters_keeps | ].
    split; [exact initializeNUMAManager_keeps | exact reinitializeForRestore_keeps].
Qed.

End ExcessiveGC.

(** A start-up on fresh extensions, where the option was not specified:
    its value is true afterwards. *)
Lemma initialize_enables_excessiveGC_witness :
  _valueSpecified
    (excessiveGCEnabled
       (extensions
          (stateOf (initialize Sample.build Sample.port Sample.configuration
                      (Sample.runtime Sample.freshExtensions))))) = true.
Proof.
  apply (initialize_enables_excessiveGC Sample.build Sample.port Sample.configuration
           (Sample.runtime Sample.freshExtensions)).
  - vm_compute. reflexivity.
  - reflexivity.
Defined.

(** A start-up on fresh extensions: the option was not specified, and its
    value is true afterwards. *)
Lemma initialize_example :
  match initialize Sample.build Sample.port Sample.configuration
          (Sample.runtime Sample.freshExtensions)
  with
  | Returned result rt' =>
      result = true /\
      excessiveGCEnabled (extensions rt') = {| _wasSpecified := false; _valueSpecified := true |} /\
      gcThreadCount (extensions rt') = 8 /\
      regionSize (extensions rt') = 65536
  | Aborted _ => False
  end.
Proof. vm_compute. repeat split; reflexivity. Qed.

(** With a NUMA manager that fails, the start-up fails, and the parameter
    has been switched on all the same. *)
Lemma initialize_numa_failure_example :
  let port :=
    {| omrsysinfo_get_number_CPUs_by_type := 8;
       recacheNUMASupport := false;
       pool_new := None;
       MemoryManager_newInstance := None;
       ParallelDispatcher_newInstance := None;
       TLHAllocationInterface_newInstance := fun _ => None;
       SegregatedAllocationInterface_newInstance := fun _ => None;
       initializeHeapRegionManager := fun _ _ => true;
       threadList := [];
       environment_reinitializeForRestore := fun _ => true |} in
  match initialize Sample.build port Sample.configuration
          (Sample.runtime Sample.freshExtensions)
  with
  | Returned result rt' =>
      result = false /\ _valueSpecified (excessiveGCEnabled (extensions rt')) = true
  | Aborted _ => False
  end.
Proof. vm_compute. split; reflexivity. Qed.

(** * Further properties of the methods *)

(** ** The trace of [tearDown] *)

Lemma set_heap_absent (e : MM_GCExtensionsBase) : heap e = None -> set_heap None e = e.
Proof. destruct e; cbn; intros ->; reflexivity. Qed.

Lemma set_referenceChainWalkerMarkMap_absent (e : MM_GCExtensionsBase) :
  referenceChainWalkerMarkMap e = None -> set_referenceChainWalkerMarkMap None e = e.
Proof. destruct e; cbn; intros ->; reflexivity. Qed.

Lemma set_globalCollector_absent (e : MM_GCExtensionsBase) :
  _globalCollector e = None -> set_globalCollector None e = e.
Proof. destruct e; cbn; intros ->; reflexivity. Qed.

Lemma set_dispatcher_same (e : MM_GCExtensionsBase) : set_dispatcher (dispatcher e) e = e.
Proof. destruct e; reflexivity. Qed.

Lemma set_globalAllocationManager_absent (e : MM_GCExtensionsBase) :
  globalAllocationManager e = None -> set_globalAllocationManager None e = e.
Proof. destruct e; cbn; intros ->; reflexivity. Qed.

Lemma set_memoryManager_absent (e : MM_GCExtensionsBase) :
  memoryManager e = None -> set_memoryManager None e = e.
Proof. destruct e; cbn; intros ->; reflexivity. Qed.

Lemma set_heapRegionManager_absent (e : MM_GCExtensionsBase) :
  heapRegionManager e = None -> set_heapRegionManager None e = e.
Proof. destruct e; cbn; intros ->; reflexivity. Qed.

Lemma set_lightweightNonReentrantLockPool_absent (e : MM_GCExtensionsBase) :
  _lightweightNonReentrantLockPool e = None ->
  set_lightweightNonReentrantLockPool None e = e.
Proof. destruct e; cbn; intros ->; reflexivity. Qed.

(** A guarded step, with the state it ends in written out: the handle is
    cleared, and the kill is recorded when the handle was present. *)
Lemma guardedKill_run {A : Type} (field : MM_GCExtensionsBase -> option A)
  (kill : A -> Call) (clear : MM_GCExtensionsBase -> MM_GCExtensionsBase)
  (rt : Runtime) :
  (field (extensions rt) = None -> clear (extensions rt) = extensions rt) ->
  (extensions <- getExtensions ;;
   whenSome (field extensions) (fun a => call (kill a) ;; modifyExtensions clear)) rt
  = Returned tt
      {| extensions := clear (extensions rt); omrVM := omrVM rt;
         calls := calls rt ++ match field (extensions rt) with
                              | Some a => [kill a]
                              | None => []
                              end |}.
Proof.
  intros Habsent. run_monad.
  destruct (field (extensions rt)) as [a | ]; cbn.
  - reflexivity.
  - rewrite Habsent by reflexivity. rewrite app_nil_r. destruct rt; reflexivity.
Qed.

Lemma bind_step {A B : Type} (g : MM_GCExtensionsBase -> M A) (k : A -> M B)
  (rt : Runtime) (a : A) (rt1 : Runtime) :
  bind getExtensions g rt = Returned a rt1 ->
  bind getExtensions (fun e => bind (g e) k) rt = k a rt1.
Proof. unfold bind, getExtensions. intros Hg. rewrite Hg. reflexivity. Qed.

Lemma bind_returned {A B : Type} (m : M A) (k : A -> M B) (rt : Runtime) (a : A)
  (rt1 : Runtime) :
  m rt = Returned a rt1 -> bind m k rt = k a rt1.
Proof. unfold bind. intros Hm. rewrite Hm. reflexivity. Qed.

Lemma detachMemorySpace_run (rt : Runtime) :
  (extensions <- getExtensions ;;
   whenSome (heap extensions) (fun h =>
     whenSome (getDefaultMemorySpace h) (fun modronMemorySpace =>
       call (MemorySpace_kill modronMemorySpace)) ;;
     modifyExtensions (set_heap (Some (setDefaultMemorySpace None h))))) rt
  = Returned tt
      {| extensions :=
           set_heap (option_map (setDefaultMemorySpace None) (heap (extensions rt)))
             (extensions rt);
         omrVM := omrVM rt;
         calls := calls rt ++ match heap (extensions rt) with
                              | Some h =>
                                  match getDefaultMemorySpace h with
                                  | Some modronMemorySpace =>
                                      [MemorySpace_kill modronMemorySpace]
                                  | None => []
                                  end
                              | None => []
                              end |}.
Proof.
  run_monad. destruct (heap (extensions rt)) as [h | ] eqn:Hheap; cbn.
  - destruct (getDefaultMemorySpace h); cbn; [reflexivity | ].
    rewrite app_nil_r. reflexivity.
  - rewrite (set_heap_absent _ Hheap), app_nil_r. destruct rt; reflexivity.
Qed.

Lemma killDispatcher_run (rt : Runtime) :
  (extensions <- getExtensions ;;
   if negb (isMetronomeGC extensions) then
     whenSome (dispatcher extensions) (fun d =>
       call (ParallelDispatcher_kill d) ;;
       modifyExtensions (set_dispatcher None))
   else ret tt) rt
  = Returned tt
      {| extensions :=
           set_dispatcher
             (if isMetronomeGC (extensions rt) then dispatcher (extensions rt) else None)
             (extensions rt);
         omrVM := omrVM rt;
         calls := calls rt ++ (if isMetronomeGC (extensions rt) then []
                               else match dispatcher (extensions rt) with
                                    | Some d => [ParallelDispatcher_kill d]
                                    | None => []
                                    end) |}.
Proof.
  run_monad. destruct (isMetronomeGC (extensions rt)); cbn [negb].
  - rewrite set_dispatcher_same, app_nil_r. destruct rt; reflexivity.
  - destruct (dispatcher (extensions rt)) as [d | ] eqn:Hd; cbn; [reflexivity | ].
    rewrite <- Hd, set_dispatcher_same, app_nil_r. destruct rt; reflexivity.
Qed.

(** The state and the calls of [tearDown], written out: every handle is
    cleared (the dispatcher's outside Metronome), every resource that was
    present is killed once, in the order of the source, and the NUMA
    shutdown and the delegate's teardown close the sequence. *)
Lemma tearDown_run (this : MM_Configuration) (rt : Runtime) :
  let e := extensions rt in
  let killed (A : Type) (o : option A) (c : A -> Call) : list Call :=
    match o with Some a => [c a] | None => [] end in
  tearDown this rt =
    Returned tt
      {| extensions :=
           set_lightweightNonReentrantLockPool None
             (set_heapRegionManager None
                (set_memoryManager None
                   (set_heap None
                      (set_globalAllocationManager None
                         (set_dispatcher
                            (if isMetronomeGC e then dispatcher e else None)
                            (set_globalCollector None
                               (set_referenceChainWalkerMarkMap None e)))))));
         omrVM := omrVM rt;
         calls :=
           calls rt
           ++ match heap e with
              | Some h => killed _ (getDefaultMemorySpace h) MemorySpace_kill
              | None => []
              end
           ++ killed _ (referenceChainWalkerMarkMap e) ReferenceChainWalkerMarkMap_kill
           ++ killed _ (getGlobalCollector e) Collector_kill
           ++ (if isMetronomeGC e then []
               else killed _ (dispatcher e) ParallelDispatcher_kill)
           ++ killed _ (globalAllocationManager e) GlobalAllocationManager_kill
           ++ killed _ (option_map (setDefaultMemorySpace None) (heap e)) Heap_kill
           ++ killed _ (memoryManager e) MemoryManager_kill
           ++ killed _ (heapRegionManager e) HeapRegionManager_kill
           ++ killed _ (_lightweightNonReentrantLockPool e) pool_kill
           ++ [NUMAManager_shutdownNUMASupport; Delegate_tearDown] |}.
Proof.
  cbv zeta. unfold tearDown.
  rewrite (bind_step _ _ rt tt _ (detachMemorySpace_run rt)); cbn [extensions omrVM calls].
  match goal with |- bind getExtensions _ ?r = _ =>
    rewrite (bind_step _ _ r tt _
               (guardedKill_run referenceChainWalkerMarkMap ReferenceChainWalkerMarkMap_kill
                  (set_referenceChainWalkerMarkMap None) r
                  (set_referenceChainWalkerMarkMap_absent _)))
  end; cbn [extensions omrVM calls].
  match goal with |- bind (destroyCollectors this) _ ?r = _ =>
    rewrite (bind_returned _ _ r tt _
               (guardedKill_run getGlobalCollector Collector_kill (setGlobalCollector None) r
                  (set_globalCollector_absent _)))
  end; cbn [extensions omrVM calls].
  match goal with |- bind getExtensions _ ?r = _ =>
    rewrite (bind_step _ _ r tt _ (killDispatcher_run r))
  end; cbn [extensions omrVM calls].
  match goal with |- bind getExtensions _ ?r = _ =>
    rewrite (bind_step _ _ r tt _
               (guardedKill_run globalAllocationManager GlobalAllocationManager_kill
                  (set_globalAllocationManager None) r
                  (set_globalAllocationManager_absent _)))
  end; cbn [extensions omrVM calls].
  match goal with |- bind getExtensions _ ?r = _ =>
    rewrite (bind_step _ _ r tt _
               (guardedKill_run heap Heap_kill (set_heap None) r (set_heap_absent _)))
  end; cbn [extensions omrVM calls].
  match goal with |- bind getExtensions _ ?r = _ =>
    rewrite (bind_step _ _ r tt _
               (guardedKill_run memoryManager MemoryManager_kill (set_memoryManager None) r
                  (set_memoryManager_absent _)))
  end; cbn [extensions omrVM calls].
  match goal with |- bind getExtensions _ ?r = _ =>
    rewrite (bind_step _ _ r tt _
               (guardedKill_run heapRegionManager HeapRegionManager_kill
                  (set_heapRegionManager None) r (set_heapRegionManager_absent _)))
  end; cbn [extensions omrVM calls].
  match goal with |- bind getExtensions _ ?r = _ =>
    rewrite (bind_step _ _ r tt _
               (guardedKill_run _lightweightNonReentrantLockPool pool_kill
                  (set_lightweightNonReentrantLockPool None) r
                  (set_lightweightNonReentrantLockPool_absent _)))
  end; cbn [extensions omrVM calls].
  unfold bind, call. cbn [extensions omrVM calls].
  f_equal. f_equal.
  cbn. rewrite <- !app_assoc. reflexivity.
Qed.

(** X1.  [tearDown] destroys every resource that the extensions hold, each
    once and in the order of the source: the default memory space, the mark
    map, the global collector, the dispatcher (outside Metronome), the
    global allocation manager, the heap (with its memory space detached),
    the memory manager, the region manager and the lock pool; the NUMA
    shutdown and the delegate's teardown come last.  It records nothing for
    a handle that is null. *)
Theorem tearDown_calls (this : MM_Configuration) (rt : Runtime) :
  let e := extensions rt in
  let killed (A : Type) (o : option A) (c : A -> Call) : list Call :=
    match o with Some a => [c a] | None => [] end in
  calls (stateOf (tearDown this rt)) =
    calls rt
    ++ match heap e with
       | Some h => killed _ (getDefaultMemorySpace h) MemorySpace_kill
       | None => []
       end
    ++ killed _ (referenceChainWalkerMarkMap e) ReferenceChainWalkerMarkMap_kill
    ++ killed _ (getGlobalCollector e) Collector_kill
    ++ (if isMetronomeGC e then [] else killed _ (dispatcher e) ParallelDispatcher_kill)
    ++ killed _ (globalAllocationManager e) GlobalAllocationManager_kill
    ++ killed _ (option_map (setDefaultMemorySpace None) (heap e)) Heap_kill
    ++ killed _ (memoryManager e) MemoryManager_kill
    ++ killed _ (heapRegionManager e) HeapRegionManager_kill
    ++ killed _ (_lightweightNonReentrantLockPool e) pool_kill
    ++ [NUMAManager_shutdownNUMASupport; Delegate_tearDown].
Proof.
  intros e killed. pose proof (tearDown_run this rt) as Hrun. cbv zeta in Hrun.
  rewrite Hrun. reflexivity.
Qed.

(** X2.  The two orderings that the comments of [tearDown] ask for: the
    default memory space is killed before the heap, which is killed with
    that memory space detached, and the mark map is killed before the
    memory manager. *)
Theorem tearDown_order (this : MM_Configuration) (rt : Runtime) :
  (forall h memorySpace,
     heap (extensions rt) = Some h -> getDefaultMemorySpace h = Some memorySpace ->
     exists before between after,
       calls (stateOf (tearDown this rt)) =
         before ++ [MemorySpace_kill memorySpace] ++ between
         ++ [Heap_kill (setDefaultMemorySpace None h)] ++ after) /\
  (forall markMap mm,
     referenceChainWalkerMarkMap (extensions rt) = Some markMap ->
     memoryManager (extensions rt) = Some mm ->
     exists before between after,
       calls (stateOf (tearDown this rt)) =
         before ++ [ReferenceChainWalkerMarkMap_kill markMap] ++ between
         ++ [MemoryManager_kill mm] ++ after).
Proof.
  pose proof (tearDown_run this rt) as Hrun. cbv zeta in Hrun. rewrite Hrun.
  cbn [stateOf calls]. split.
  - intros h memorySpace Hheap Hspace. rewrite Hheap. cbn [option_map]. rewrite Hspace.
    match goal with
    | |- exists _ _ _, ?c ++ ?x ++ ?l2 ++ ?l3 ++ ?l4 ++ ?l5 ++ ?y ++ ?rest = _ =>
        exists c, (l2 ++ l3 ++ l4 ++ l5), rest
    end.
    rewrite <- !app_assoc. reflexivity.
  - intros markMap mm Hmap Hmm. rewrite Hmap, Hmm.
    match goal with
    | |- exists _ _ _, ?c ++ ?l1 ++ ?x ++ ?l3 ++ ?l4 ++ ?l5 ++ ?l6 ++ ?y ++ ?rest = _ =>
        exists (c ++ l1), (l3 ++ l4 ++ l5 ++ l6), rest
    end.
    rewrite <- !app_assoc. reflexivity.
Qed.

Lemma tearDown_order_witness :
  exists before between after,
    calls (stateOf (tearDown Sample.configuration
                      (Sample.runtime
                         (set_heap (Some (Sample.theHeap 65536 131072))
                            Sample.freshExtensions)))) =
      before ++ [MemorySpace_kill {| memorySpace_address := 8192 |}] ++ between
      ++ [Heap_kill (setDefaultMemorySpace None (Sample.theHeap 65536 131072))] ++ after.
Proof.
  apply (proj1 (tearDown_order Sample.configuration
                  (Sample.runtime
                     (set_heap (Some (Sample.theHeap 65536 131072))
                        Sample.freshExtensions)))
           (Sample.theHeap 65536 131072) {| memorySpace_address := 8192 |});
    reflexivity.
Defined.

(** X3.  [kill] is the teardown followed by the release of the
    configuration's own storage: it ends with no resource held, and the
    release is the last call, made after the delegate's teardown. *)
Theorem kill_releases_last (this : MM_Configuration) (rt : Runtime) :
  exists rt',
    kill this rt = Returned tt rt' /\
    tornDown (extensions rt') /\
    omrVM rt' = omrVM rt /\
    calls rt' = calls (stateOf (tearDown this rt)) ++ [Forge_free] /\
    exists earlier,
      calls rt' = earlier ++ [NUMAManager_shutdownNUMASupport; Delegate_tearDown; Forge_free].
Proof.
  destruct (tearDown_returns this rt) as [[] [rt1 [Hrun [Htorn [Hvm _]]]]].
  pose proof (tearDown_run this rt) as Htrace. cbv zeta in Htrace.
  unfold kill. rewrite (bind_returned _ _ rt tt rt1 Hrun). unfold call.
  eexists. split; [reflexivity | ]. cbn [extensions omrVM calls].
  split; [exact Htorn | ]. split; [exact Hvm | ].
  rewrite Hrun. cbn [stateOf]. split; [reflexivity | ].
  rewrite Htrace in Hrun. injection Hrun as <-. cbn [calls].
  eexists. rewrite !app_assoc. rewrite <- (app_assoc _ [NUMAManager_shutdownNUMASupport; Delegate_tearDown] [Forge_free]).
  cbn [app]. reflexivity.
Qed.

(** ** More on [initializeGCParameters] *)

Lemma OMR_MAX_twice (a b : Z) : OMR_MAX (OMR_MAX a b) b = OMR_MAX a b.
Proof. rewrite !OMR_MAX_spec. lia. Qed.

Lemma splitAmount_positive (n : Z) : 1 <= uadd (usub n 1 / 8) 1 < 2 ^ 64.
Proof.
  unfold uadd, usub. pose proof (wrap_range (n - 1)) as Hn.
  assert (Hdiv : 0 <= wrap (n - 1) / 8 < 2 ^ 61).
  { split; [apply Z.div_pos; lia | ].
    apply Z.div_lt_upper_bound; [lia | ]. change (8 * 2 ^ 61) with (2 ^ 64). lia. }
  rewrite wrap_small; [lia | ].
  change (2 ^ 61) with 2305843009213693952 in Hdiv.
  change (2 ^ 64) with 18446744073709551616. lia.
Qed.

(** The extensions that [initializeGCParameters] leaves, written out. *)
Lemma initializeGCParameters_run (build : Build) (port : Platform)
  (this : MM_Configuration) (rt : Runtime) :
  0 < gcThreadCount (extensions rt) ->
  let e := extensions rt in
  let splitAmount := uadd (usub (gcThreadCount e) 1 / 8) 1 in
  let freeListSplitAmount :=
    if OMR_GC_MODRON_SCAVENGER build && scavengerEnabled e then splitAmount
    else uadd (usub (omrsysinfo_get_number_CPUs_by_type port) 1 / 8) 1 in
  let e1 :=
    if packetListSplitForced e then e
    else set_packetListSplit (OMR_MAX (packetListSplit e) splitAmount) e in
  let e2 :=
    if OMR_GC_MODRON_SCAVENGER build && negb (cacheListSplitForced e)
    then set_cacheListSplit (OMR_MAX (cacheListSplit e1) splitAmount) e1 else e1 in
  let e3 :=
    if OMR_GC_MODRON_SCAVENGER build && scavengerEnabled e then
      match scavengerScanOrdering e with
      | OMR_GC_SCAVENGER_SCANORDERING_NONE =>
          set_scavengerScanOrdering OMR_GC_SCAVENGER_SCANORDERING_HIERARCHICAL e2
      | OMR_GC_SCAVENGER_SCANORDERING_DYNAMIC_BREADTH_FIRST =>
          set_adaptiveGcCountBetweenHotFieldSort true e2
      | _ => e2
      end
    else e2 in
  let e4 :=
    if splitFreeListAmountForced e then e3
    else set_splitFreeListSplitAmount
           (OMR_MAX (splitFreeListSplitAmount e3) freeListSplitAmount) e3 in
  initializeGCParameters build port this rt =
    Returned tt {| extensions := e4; omrVM := omrVM rt; calls := calls rt |}.
Proof.
  intros Hpos. cbv zeta. apply Z.ltb_lt in Hpos.
  unfold initializeGCParameters. run_monad. rewrite Hpos.
  destruct rt as [e vm cs]. cbn [extensions omrVM calls].
  destruct (packetListSplitForced e), (OMR_GC_MODRON_SCAVENGER build),
    (cacheListSplitForced e), (scavengerEnabled e), (splitFreeListAmountForced e);
    try destruct (scavengerScanOrdering e); reflexivity.
Qed.
(** X4.  Tuning twice is tuning once: a second [initializeGCParameters] on
    the state left by the first returns that very state.  (The restore path
    runs the method again on tuned extensions.) *)
Theorem initializeGCParameters_idempotent (build : Build) (port : Platform)
  (this : MM_Configuration) (rt : Runtime) :
  0 < gcThreadCount (extensions rt) ->
  exists rt1,
    initializeGCParameters build port this rt = Returned tt rt1 /\
    initializeGCParameters build port this rt1 = Returned tt rt1.
Proof.
  intros Hpos. destruct rt as [e vm cs]. cbn [extensions] in Hpos.
  destruct e as [? ? ? ? ? ? ? ? ? ? ? T pf p cf c ff f se so ad ? ? ? ? ? ? ? ?].
  cbn in Hpos.
  destruct pf, (OMR_GC_MODRON_SCAVENGER build) eqn:Hscav, cf, se, ff; destruct so;
    (rewrite initializeGCParameters_run by exact Hpos);
    cbv zeta; rewrite ?Hscav; cbn -[uadd usub Z.div OMR_MAX initializeGCParameters];
    (eexists; split; [reflexivity | ]);
    (rewrite initializeGCParameters_run by exact Hpos);
    cbv zeta; rewrite ?Hscav; cbn -[uadd usub Z.div OMR_MAX];
    rewrite ?OMR_MAX_twice; reflexivity.
Qed.

Lemma initializeGCParameters_idempotent_witness :
  exists rt1,
    initializeGCParameters Sample.build Sample.port Sample.configuration
      (Sample.runtime (set_gcThreadCount 17 Sample.freshExtensions)) = Returned tt rt1 /\
    initializeGCParameters Sample.build Sample.port Sample.configuration rt1 = Returned tt rt1.
Proof.
  apply (initializeGCParameters_idempotent Sample.build Sample.port Sample.configuration
           (Sample.runtime (set_gcThreadCount 17 Sample.freshExtensions))).
  simpl. lia.
Defined.

(** X5.  The scan ordering of the scavenger: in a scavenger build with the
    scavenger enabled, an unset ordering becomes the hierarchical one and
    any other is kept, so the ordering is never left unset, and the
    adaptive hot-field sort is switched on exactly by the dynamic
    breadth-first ordering (and never switched off); without an enabled
    scavenger neither field is written. *)
Theorem initializeGCParameters_scanOrdering (build : Build) (port : Platform)
  (this : MM_Configuration) (rt : Runtime) :
  0 < gcThreadCount (extensions rt) ->
  let e := extensions rt in
  let e' := extensions (stateOf (initializeGCParameters build port this rt)) in
  if OMR_GC_MODRON_SCAVENGER build && scavengerEnabled e then
    scavengerScanOrdering e' <> OMR_GC_SCAVENGER_SCANORDERING_NONE /\
    scavengerScanOrdering e' =
      match scavengerScanOrdering e with
      | OMR_GC_SCAVENGER_SCANORDERING_NONE => OMR_GC_SCAVENGER_SCANORDERING_HIERARCHICAL
      | ordering => ordering
      end /\
    adaptiveGcCountBetweenHotFieldSort e' =
      match scavengerScanOrdering e with
      | OMR_GC_SCAVENGER_SCANORDERING_DYNAMIC_BREADTH_FIRST => true
      | _ => adaptiveGcCountBetweenHotFieldSort e
      end
  else
    scavengerScanOrdering e' = scavengerScanOrdering e /\
    adaptiveGcCountBetweenHotFieldSort e' = adaptiveGcCountBetweenHotFieldSort e.
Proof.
  intros Hpos e e'. subst e'.
  rewrite (initializeGCParameters_run build port this rt Hpos). cbv zeta.
  cbn [stateOf extensions]. fold e.
  destruct (packetListSplitForced e), (OMR_GC_MODRON_SCAVENGER build),
    (cacheListSplitForced e), (scavengerEnabled e), (splitFreeListAmountForced e);
    cbn [andb negb]; destruct (scavengerScanOrdering e) eqn:Horder; cbn;
    rewrite ?Horder; repeat split; try reflexivity; discriminate.
Qed.

Lemma initializeGCParameters_scanOrdering_witness :
  let rt := Sample.runtime (Scenario.scavenging 4 OMR_GC_SCAVENGER_SCANORDERING_NONE) in
  let e' :=
    extensions (stateOf (initializeGCParameters Sample.build Sample.port
                           Sample.configuration rt)) in
  scavengerScanOrdering e' <> OMR_GC_SCAVENGER_SCANORDERING_NONE /\
  scavengerScanOrdering e' = OMR_GC_SCAVENGER_SCANORDERING_HIERARCHICAL /\
  adaptiveGcCountBetweenHotFieldSort e' = false.
Proof.
  intros rt e'.
  exact (initializeGCParameters_scanOrdering Sample.build Sample.port
           Sample.configuration rt ltac:(simpl; lia)).
Defined.

(** X6.  After tuning, no split factor that the user left to the collector
    is 0: the packet-list split, the scan-cache split of a scavenger build
    and the free-list split are each at least 1 unless forced. *)
Theorem initializeGCParameters_splits_positive (build : Build) (port : Platform)
  (this : MM_Configuration) (rt : Runtime) :
  0 < gcThreadCount (extensions rt) ->
  let e := extensions rt in
  let e' := extensions (stateOf (initializeGCParameters build port this rt)) in
  (packetListSplitForced e = false -> 1 <= packetListSplit e') /\
  (OMR_GC_MODRON_SCAVENGER build = true -> cacheListSplitForced e = false ->
   1 <= cacheListSplit e') /\
  (splitFreeListAmountForced e = false -> 1 <= splitFreeListSplitAmount e').
Proof.
  intros Hpos e e'. subst e'.
  destruct (initializeGCParameters_fields build port this rt Hpos)
    as [rt' [Hrun [_ [_ [_ [_ [Hpacket [Hcache Hfree]]]]]]]].
  rewrite Hrun. cbn [stateOf]. fold e in Hpacket, Hcache, Hfree.
  pose proof (splitAmount_positive (gcThreadCount e)) as Hthreads.
  pose proof (splitAmount_positive (omrsysinfo_get_number_CPUs_by_type port)) as Hcpus.
  split; [intros Hforced; rewrite Hpacket, Hforced; lia | ].
  split; [intros Hscav Hforced; rewrite Hcache, Hscav, Hforced; cbn; lia | ].
  intros Hforced. rewrite Hfree, Hforced.
  destruct (OMR_GC_MODRON_SCAVENGER build && scavengerEnabled e); lia.
Qed.

Lemma initializeGCParameters_splits_positive_witness :
  1 <= packetListSplit
         (extensions (stateOf (initializeGCParameters Sample.build Sample.port
                                 Sample.configuration
                                 (Sample.runtime (set_gcThreadCount 4 Sample.freshExtensions))))).
Proof.
  apply (initializeGCParameters_splits_positive Sample.build Sample.port
           Sample.configuration
           (Sample.runtime (set_gcThreadCount 4 Sample.freshExtensions))).
  - simpl. lia.
  - reflexivity.
Defined.

(** X7.  More GC threads never give a smaller split: on extensions that
    differ in the thread count only, each of the three tuned split factors
    is monotone in the thread count. *)
Theorem initializeGCParameters_monotone (build : Build) (port : Platform)
  (this : MM_Configuration) (rt : Runtime) (fewer more : Z) :
  0 < fewer <= more -> more < 2 ^ 64 ->
  let run (threads : Z) :=
    extensions
      (stateOf (initializeGCParameters build port this
                  {| extensions := set_gcThreadCount threads (extensions rt);
                     omrVM := omrVM rt; calls := calls rt |})) in
  packetListSplit (run fewer) <= packetListSplit (run more) /\
  cacheListSplit (run fewer) <= cacheListSplit (run more) /\
  splitFreeListSplitAmount (run fewer) <= splitFreeListSplitAmount (run more).
Proof.
  intros Hfewer Hmore run. subst run. cbv beta.
  set (with_threads := fun threads =>
         {| extensions := set_gcThreadCount threads (extensions rt);
            omrVM := omrVM rt; calls := calls rt |}).
  assert (Hfields : forall threads, 0 < threads < 2 ^ 64 ->
    let e' := extensions (stateOf (initializeGCParameters build port this
                                     (with_threads threads))) in
    let e := extensions rt in
    packetListSplit e' =
      (if packetListSplitForced e then packetListSplit e
       else Z.max (packetListSplit e) (spec_splitFactor threads)) /\
    cacheListSplit e' =
      (if OMR_GC_MODRON_SCAVENGER build && negb (cacheListSplitForced e)
       then Z.max (cacheListSplit e) (spec_splitFactor threads) else cacheListSplit e) /\
    splitFreeListSplitAmount e' =
      (if splitFreeListAmountForced e then splitFreeListSplitAmount e
       else Z.max (splitFreeListSplitAmount e)
              (if OMR_GC_MODRON_SCAVENGER build && scavengerEnabled e
               then spec_splitFactor threads
               else uadd (usub (omrsysinfo_get_number_CPUs_by_type port) 1 / 8) 1))).
  { intros threads Hthreads.
    destruct (initializeGCParameters_fields build port this (with_threads threads))
      as [rt' [Hrun [_ [_ [_ [_ [Hpacket [Hcache Hfree]]]]]]]];
      [cbn; lia | ].
    cbv zeta. rewrite Hrun. cbn [stateOf].
    cbn in Hpacket, Hcache, Hfree.
    rewrite (splitAmount_small threads Hthreads) in Hpacket, Hcache, Hfree.
    split; [exact Hpacket | split; [exact Hcache | exact Hfree]]. }
  destruct (Hfields fewer ltac:(lia)) as [Hp1 [Hc1 Hf1]].
  destruct (Hfields more ltac:(lia)) as [Hp2 [Hc2 Hf2]].
  fold (with_threads fewer). fold (with_threads more).
  rewrite Hp1, Hp2, Hc1, Hc2, Hf1, Hf2.
  pose proof (spec_splitFactor_monotone fewer more ltac:(lia)) as Hmono.
  split; [destruct (packetListSplitForced (extensions rt)); lia | ].
  split; [destruct (OMR_GC_MODRON_SCAVENGER build && negb (cacheListSplitForced (extensions rt))); lia | ].
  destruct (splitFreeListAmountForced (extensions rt)); [lia | ].
  destruct (OMR_GC_MODRON_SCAVENGER build && scavengerEnabled (extensions rt)); lia.
Qed.

Lemma initializeGCParameters_monotone_witness :
  let run (threads : Z) :=
    extensions
      (stateOf (initializeGCParameters Sample.build Sample.port Sample.configuration
                  {| extensions := set_gcThreadCount threads Sample.freshExtensions;
                     omrVM := Sample.vm; calls := [] |})) in
  packetListSplit (run 8) <= packetListSplit (run 64).
Proof.
  apply (initializeGCParameters_monotone Sample.build Sample.port Sample.configuration
           (Sample.runtime Sample.freshExtensions) 8 64); simpl; lia.
Defined.

(** ** More on [initialize] and the steps it runs *)

Lemma findPowerOfTwoShift_range (floor value : Z) (fuel : nat) (shift : Z) :
  1 <= shift ->
  let r := findPowerOfTwoShift floor value fuel shift in
  r = 0 \/ shift <= r < shift + Z.of_nat fuel.
Proof.
  intros Hshift. destruct (findPowerOfTwoShift_spec floor value fuel shift Hshift)
    as [[Hzero _] | [Hrange _]]; [left; exact Hzero | right; exact Hrange].
Qed.

Lemma calculatePowerOfTwoShift_range (build : Build) (value : Z) :
  0 <= calculatePowerOfTwoShift build value <= 63.
Proof.
  unfold calculatePowerOfTwoShift.
  destruct (findPowerOfTwoShift_range (powerOfTwoFloor build) value 63 1 ltac:(lia))
    as [Hzero | Hrange].
  - rewrite Hzero. lia.
  - change (Z.of_nat 63) with 63 in Hrange. lia.
Qed.

Lemma initializeArrayletLeafSize_run (build : Build) (this : MM_Configuration)
  (rt : Runtime) :
  let arrayletLeafSize :=
    if negb (0 =? _defaultArrayletLeafSize this) then _defaultArrayletLeafSize this
    else regionSize (extensions rt) in
  let shift := calculatePowerOfTwoShift build arrayletLeafSize in
  initializeArrayletLeafSize build this rt =
    if negb (UDATA_MAX =? _defaultArrayletLeafSize this) then
      if negb (0 =? shift) then
        Returned true {| extensions := extensions rt;
                         omrVM := set_arrayletLeaf (ushl 1 shift) shift (omrVM rt);
                         calls := calls rt |}
      else Returned false rt
    else
      Returned true {| extensions := extensions rt;
                       omrVM := set_arrayletLeaf (_defaultArrayletLeafSize this) 0 (omrVM rt);
                       calls := calls rt |}.
Proof.
  cbv zeta. unfold initializeArrayletLeafSize.
  destruct (negb (UDATA_MAX =? _defaultArrayletLeafSize this)); run_monad; [ | reflexivity].
  destruct (negb (0 =? calculatePowerOfTwoShift build _)); reflexivity.
Qed.

(** X8.  The arraylet leaf size: with the sentinel UDATA_MAX as default the
    leaf size is left unbounded, with log size 0; otherwise the method
    returns true if and only if the size to round (the default, or the
    region size when the default is 0) has a non-zero shift, and then the
    log size is that shift, between 1 and 63, and the leaf size is 2 to the
    log size; on failure the VM record is left as it was.  The extensions
    are never written. *)
Theorem initializeArrayletLeafSize_consistent (build : Build) (this : MM_Configuration)
  (rt : Runtime) :
  exists result rt',
    initializeArrayletLeafSize build this rt = Returned result rt' /\
    extensions rt' = extensions rt /\ calls rt' = calls rt /\
    (_defaultArrayletLeafSize this = UDATA_MAX ->
     result = true /\ _arrayletLeafSize (omrVM rt') = UDATA_MAX /\
     _arrayletLeafLogSize (omrVM rt') = 0) /\
    (_defaultArrayletLeafSize this <> UDATA_MAX ->
     (result = true <->
      calculatePowerOfTwoShift build
        (if 0 =? _defaultArrayletLeafSize this then regionSize (extensions rt)
         else _defaultArrayletLeafSize this) <> 0) /\
     (result = true ->
      1 <= _arrayletLeafLogSize (omrVM rt') <= 63 /\
      _arrayletLeafSize (omrVM rt') = 2 ^ _arrayletLeafLogSize (omrVM rt') /\
      _arrayletLeafLogSize (omrVM rt') =
        calculatePowerOfTwoShift build
          (if 0 =? _defaultArrayletLeafSize this then regionSize (extensions rt)
           else _defaultArrayletLeafSize this)) /\
     (result = false -> rt' = rt)).
Proof.
  pose proof (initializeArrayletLeafSize_run build this rt) as Hrun. cbv zeta in Hrun.
  rewrite Hrun. clear Hrun.
  destruct (Z.eqb_spec UDATA_MAX (_defaultArrayletLeafSize this)) as [Hmax | Hbounded];
    cbn [negb].
  - eexists _, _. split; [reflexivity | ].
    cbn [extensions omrVM calls _arrayletLeafSize _arrayletLeafLogSize set_arrayletLeaf].
    split; [reflexivity | ]. split; [reflexivity | ].
    split; [intros _; rewrite <- Hmax; repeat split | intros Habs; congruence].
  - assert (Hsize :
      (if negb (0 =? _defaultArrayletLeafSize this) then _defaultArrayletLeafSize this
       else regionSize (extensions rt))
      = (if 0 =? _defaultArrayletLeafSize this then regionSize (extensions rt)
         else _defaultArrayletLeafSize this))
      by (destruct (0 =? _defaultArrayletLeafSize this); reflexivity).
    rewrite Hsize.
    set (shift := calculatePowerOfTwoShift build _).
    pose proof (calculatePowerOfTwoShift_range build
                  (if 0 =? _defaultArrayletLeafSize this then regionSize (extensions rt)
                   else _defaultArrayletLeafSize this)) as Hrange.
    fold shift in Hrange.
    destruct (Z.eqb_spec 0 shift) as [Hzero | Hnonzero]; cbn [negb].
    + exists false, rt. split; [reflexivity | ]. split; [reflexivity | ].
      split; [reflexivity | ]. split; [intros Habs; congruence | ].
      intros _. split; [split; [discriminate | intros Habs; congruence] | ].
      split; [discriminate | reflexivity].
    + eexists _, _. split; [reflexivity | ]. cbn [extensions omrVM calls].
      split; [reflexivity | ]. split; [reflexivity | ].
      split; [intros Habs; congruence | ]. intros _.
      split; [split; [intros _ Habs; congruence | reflexivity] | ].
      split; [ | discriminate]. intros _.
      cbn [_arrayletLeafSize _arrayletLeafLogSize set_arrayletLeaf].
      split; [lia | ]. split; [apply ushl_one; lia | reflexivity].
Qed.

Lemma initializeArrayletLeafSize_consistent_witness :
  exists rt',
    initializeArrayletLeafSize Sample.build Sample.configuration
      (Sample.runtime (set_regionSize 65536 Sample.freshExtensions)) = Returned true rt' /\
    _arrayletLeafSize (omrVM rt') = 2 ^ _arrayletLeafLogSize (omrVM rt').
Proof.
  destruct (initializeArrayletLeafSize_consistent Sample.build Sample.configuration
              (Sample.runtime (set_regionSize 65536 Sample.freshExtensions)))
    as [result [rt' [Hrun [_ [_ [_ Hbounded]]]]]].
  assert (Hresult : result = true) by (vm_compute in Hrun; congruence).
  subst result. exists rt'. split; [exact Hrun | ].
  destruct (Hbounded ltac:(vm_compute; discriminate)) as [_ [Hsuccess _]].
  apply Hsuccess. reflexivity.
Defined.

Lemma initializeArrayletLeafSize_frame (build : Build) (this : MM_Configuration)
  (rt : Runtime) :
  exists result rt',
    initializeArrayletLeafSize build this rt = Returned result rt' /\
    extensions rt' = extensions rt /\ calls rt' = calls rt.
Proof.
  pose proof (initializeArrayletLeafSize_run build this rt) as Hrun. cbv zeta in Hrun.
  rewrite Hrun.
  destruct (negb (UDATA_MAX =? _defaultArrayletLeafSize this));
    [destruct (negb (0 =? calculatePowerOfTwoShift build _)) | ];
    eexists; eexists; repeat split.
Qed.

Lemma initializeGCThreadCount_trace (build : Build) (port : Platform)
  (this : MM_Configuration) (rt : Runtime) :
  exists n,
    initializeGCThreadCount build port this rt =
      Returned tt
        {| extensions := set_gcThreadCount n (extensions rt); omrVM := omrVM rt;
           calls := calls rt ++ (if J9VM_OPT_CRIU_SUPPORT build
                                 then [Delegate_checkPointGCThreadCountVerifyAndAdjust]
                                 else []) |}.
Proof.
  unfold initializeGCThreadCount. run_monad.
  destruct (gcThreadCountSpecified (extensions rt)), (J9VM_OPT_CRIU_SUPPORT build); cbn.
  - exists (checkPointGCThreadCountVerifyAndAdjust (_delegate this) (extensions rt)).
    reflexivity.
  - exists (gcThreadCount (extensions rt)).
    rewrite set_gcThreadCount_same, app_nil_r. destruct rt; reflexivity.
  - exists (checkPointGCThreadCountVerifyAndAdjust (_delegate this)
              (set_gcThreadCount (defaultGCThreadCount port this) (extensions rt))).
    reflexivity.
  - exists (defaultGCThreadCount port this). rewrite app_nil_r. reflexivity.
Qed.

(** What can be said of [initialize] whatever its outcome: which
    collaborators it has called, what a success implies, and what a failure
    at one of the early steps leaves alone. *)
Lemma initialize_outcome (build : Build) (port : Platform) (this : MM_Configuration)
  (rt : Runtime) :
  let e := extensions rt in
  let o := initialize build port this rt in
  let sizesOk :=
    match initializeRegionSize build this rt with
    | Returned true rt1 =>
        match initializeArrayletLeafSize build this rt1 with
        | Returned true _ => true
        | _ => false
        end
    | _ => false
    end in
  let delegateOk :=
    delegate_initialize (_delegate this) (_writeBarrierType this) (_allocationType this) in
  let numaOk := recacheNUMASupport port in
  calls (stateOf o) =
    calls rt
    ++ (if sizesOk then
          Delegate_initialize
          :: (if delegateOk then
                NUMAManager_recacheNUMASupport
                :: (if numaOk && J9VM_OPT_CRIU_SUPPORT build
                    then [Delegate_checkPointGCThreadCountVerifyAndAdjust] else [])
              else [])
        else []) /\
  (forall rt', o = Returned true rt' ->
     sizesOk = true /\ delegateOk = true /\ numaOk = true /\
     _lightweightNonReentrantLockPool (extensions rt') = pool_new port /\
     isSome (pool_new port) = true /\
     0 < gcThreadCount (extensions rt')) /\
  (sizesOk && delegateOk && numaOk = false ->
   (exists rt', o = Returned false rt') /\
   _lightweightNonReentrantLockPool (extensions (stateOf o))
   = _lightweightNonReentrantLockPool e /\
   gcThreadCount (extensions (stateOf o)) = gcThreadCount e /\
   packetListSplit (extensions (stateOf o)) = packetListSplit e /\
   cacheListSplit (extensions (stateOf o)) = cacheListSplit e /\
   splitFreeListSplitAmount (extensions (stateOf o)) = splitFreeListSplitAmount e).
Proof.
  intros e o sizesOk delegateOk numaOk. subst o sizesOk.
  remember (initialize build port this rt) as o eqn:Ho.
  unfold initialize in Ho. unfold bind at 1 in Ho.
  pose proof (initializeRegionSize_run build this rt) as Hregion. cbv zeta in Hregion.
  assert (Hframe1 :
    forall b rt1, initializeRegionSize build this rt = Returned b rt1 ->
      calls rt1 = calls rt /\
      _lightweightNonReentrantLockPool (extensions rt1) = _lightweightNonReentrantLockPool e /\
      gcThreadCount (extensions rt1) = gcThreadCount e /\
      packetListSplit (extensions rt1) = packetListSplit e /\
      cacheListSplit (extensions rt1) = cacheListSplit e /\
      splitFreeListSplitAmount (extensions rt1) = splitFreeListSplitAmount e).
  { intros b rt1 Hrun. rewrite Hregion in Hrun.
    destruct (0 =? calculatePowerOfTwoShift build _); injection Hrun as <- <-;
      repeat split. }
  clear Hregion.
  destruct (initializeRegionSize build this rt) as [[ | ] rt1 | rt1] eqn:Hrun1.
  3:{ exfalso. pose proof (initializeRegionSize_run build this rt) as Habs.
      cbv zeta in Habs. rewrite Hrun1 in Habs.
      destruct (0 =? calculatePowerOfTwoShift build _); discriminate. }
  2:{ destruct (Hframe1 false rt1 eq_refl) as [Hc [Hp [Ht [Hps [Hcs Hfs]]]]].
      unfold ret in Ho. subst o. cbn [stateOf].
      split; [rewrite Hc, app_nil_r; reflexivity | ].
      split; [intros rt' Habs; discriminate | ].
      intros _. split; [eauto | ]. repeat split; assumption. }
  destruct (Hframe1 true rt1 eq_refl) as [Hc1 [Hp1 [Ht1 [Hps1 [Hcs1 Hfs1]]]]].
  unfold bind at 1 in Ho.
  destruct (initializeArrayletLeafSize_frame build this rt1)
    as [leafOk [rt2 [Hrun2 [Hext2 Hc2]]]].
  rewrite Hrun2 in *.
  destruct leafOk.
  2:{ unfold ret in Ho. subst o. cbn [stateOf]. rewrite Hext2.
      split; [rewrite Hc2, Hc1, app_nil_r; reflexivity | ].
      split; [intros rt' Habs; discriminate | ].
      intros _. split; [eauto | ]. repeat split; assumption. }
  unfold bind at 1 in Ho. unfold call at 1 in Ho.
  fold delegateOk in Ho.
  destruct delegateOk.
  2:{ unfold ret in Ho. subst o. cbn [stateOf extensions calls]. rewrite Hext2, Hc2, Hc1.
      split; [reflexivity | ].
      split; [intros rt' Habs; discriminate | ].
      intros _. split; [eauto | ]. repeat split; assumption. }
  unfold bind at 1 in Ho. unfold getExtensions at 1 in Ho. cbn [extensions] in Ho.
  unfold bind at 1 in Ho.
  set (rt3 := {| extensions := extensions rt2; omrVM := omrVM rt2;
                 calls := calls rt2 ++ [Delegate_initialize] |}) in Ho.
  assert (Hflag : exists rt4,
    (if negb (_wasSpecified (excessiveGCEnabled (extensions rt2)))
     then modifyExtensions
            (fun e0 => set_excessiveGCEnabled
                         (set_valueSpecified true (excessiveGCEnabled e0)) e0)
     else ret tt) rt3 = Returned tt rt4 /\
    calls rt4 = calls rt ++ [Delegate_initialize] /\
    _lightweightNonReentrantLockPool (extensions rt4) = _lightweightNonReentrantLockPool e /\
    gcThreadCount (extensions rt4) = gcThreadCount e /\
    packetListSplit (extensions rt4) = packetListSplit e /\
    cacheListSplit (extensions rt4) = cacheListSplit e /\
    splitFreeListSplitAmount (extensions rt4) = splitFreeListSplitAmount e).
  { destruct (negb (_wasSpecified (excessiveGCEnabled (extensions rt2))));
      eexists; (split; [reflexivity | ]); cbn; rewrite Hext2, Hc2, Hc1; repeat split;
      assumption. }
  destruct Hflag as [rt4 [Hrun4 [Hc4 [Hp4 [Ht4 [Hps4 [Hcs4 Hfs4]]]]]]].
  rewrite Hrun4 in Ho. clear Hrun4.
  unfold bind at 1 in Ho. unfold initializeNUMAManager at 1 in Ho.
  unfold bind at 1 in Ho. unfold call at 1 in Ho. unfold ret at 1 in Ho.
  fold numaOk in Ho.
  destruct numaOk.
  2:{ unfold ret in Ho. subst o. cbn [stateOf extensions calls]. rewrite Hc4.
      split; [rewrite <- app_assoc; reflexivity | ].
      split; [intros rt' Habs; discriminate | ].
      intros _. split; [eauto | ]. repeat split; assumption. }
  cbn [andb].
  set (rt5 := {| extensions := extensions rt4; omrVM := omrVM rt4;
                 calls := calls rt4 ++ [NUMAManager_recacheNUMASupport] |}) in Ho.
  destruct (initializeGCThreadCount_trace build port this rt5) as [n Hrun6].
  unfold bind at 1 in Ho. rewrite Hrun6 in Ho. clear Hrun6.
  set (rt6 := {| extensions := set_gcThreadCount n (extensions rt5); omrVM := omrVM rt5;
                 calls := calls rt5 ++ _ |}) in Ho.
  assert (Hc6 : calls rt6 =
                calls rt ++ Delegate_initialize :: NUMAManager_recacheNUMASupport ::
                  (if J9VM_OPT_CRIU_SUPPORT build
                   then [Delegate_checkPointGCThreadCountVerifyAndAdjust] else []))
    by (cbn; rewrite Hc4, <- !app_assoc; reflexivity).
  unfold bind at 1 in Ho.
  destruct (Z_lt_le_dec 0 (gcThreadCount (extensions rt6))) as [Hpos | Hzero].
  - destruct (initializeGCParameters_fields build port this rt6 Hpos)
      as [rt7 [Hrun7 [_ [Hc7 [Ht7 _]]]]].
    rewrite Hrun7 in Ho. unfold bind, modifyExtensions, ret in Ho. subst o.
    cbn [stateOf extensions calls].
    split; [rewrite Hc7; exact Hc6 | ].
    split; [ | intros Habs; discriminate].
    intros rt' Hret. injection Hret as Hpool <-. cbn.
    repeat split; try assumption; try reflexivity. rewrite Ht7. exact Hpos.
  - rewrite (initializeGCParameters_asserts build port this rt6 Hzero) in Ho. subst o.
    cbn [stateOf]. split; [exact Hc6 | ].
    split; [intros rt' Habs; discriminate | intros Habs; discriminate].
Qed.



(** X10. When the delegate refuses to initialize or NUMA support cannot be
    recached, [initialize] returns false (it does not abort), the thread
    count is never derived and the delegate's thread count check never
    called, no lock pool is constructed, and the split counts keep their
    values. The NUMA manager is asked only after the delegate has agreed. *)
Theorem initialize_refused (build : Build) (port : Platform) (this : MM_Configuration)
  (rt : Runtime) :
  delegate_initialize (_delegate this) (_writeBarrierType this) (_allocationType this)
  && recacheNUMASupport port = false ->
  exists rt',
    initialize build port this rt = Returned false rt' /\
    (exists asked, calls rt' = calls rt ++ asked /\
       ~ In Delegate_checkPointGCThreadCountVerifyAndAdjust asked /\
       (In NUMAManager_recacheNUMASupport asked ->
        delegate_initialize (_delegate this) (_writeBarrierType this)
          (_allocationType this) = true)) /\
    _lightweightNonReentrantLockPool (extensions rt')
    = _lightweightNonReentrantLockPool (extensions rt) /\
    gcThreadCount (extensions rt') = gcThreadCount (extensions rt) /\
    packetListSplit (extensions rt') = packetListSplit (extensions rt) /\
    cacheListSplit (extensions rt') = cacheListSplit (extensions rt) /\
    splitFreeListSplitAmount (extensions rt') = splitFreeListSplitAmount (extensions rt).
Proof.
  intros Hrefused.
  destruct (initialize_outcome build port this rt) as [Hcalls [_ Hfail]].
  cbv zeta in Hfail.
  match type of Hfail with ?c && _ && _ = false -> _ => set (sizesOk := c) in * end.
  assert (Hnot : sizesOk
                 && delegate_initialize (_delegate this) (_writeBarrierType this)
                      (_allocationType this)
                 && recacheNUMASupport port = false)
    by (rewrite <- andb_assoc, Hrefused; apply andb_false_r).
  destruct (Hfail Hnot) as [[rt' Hrun] Hrest].
  rewrite Hrun in *. cbn [stateOf] in *.
  exists rt'. split; [reflexivity | ]. split; [ | exact Hrest].
  eexists. split; [exact Hcalls | ].
  destruct sizesOk,
    (delegate_initialize (_delegate this) (_writeBarrierType this) (_allocationType this)),
    (recacheNUMASupport port); try discriminate Hrefused; cbn;
    split; try tauto; intros Habs; intuition discriminate.
Qed.

Lemma initialize_refused_witness :
  exists rt',
    initialize Sample.build Scenario.withoutNUMA Sample.configuration
      (Sample.runtime Sample.freshExtensions) = Returned false rt' /\
    gcThreadCount (extensions rt') = 0.
Proof.
  destruct (initialize_refused Sample.build Scenario.withoutNUMA Sample.configuration
              (Sample.runtime Sample.freshExtensions) (andb_false_r _))
    as [rt' [Hrun [_ [_ [Hthreads _]]]]].
  exists rt'. split; [exact Hrun | exact Hthreads].
Defined.

(** ** More on [createHeap] *)

(** A path through the part of [createHeap] that follows the creation of
    the managers; [leaf] closes the goal at the end of each path. *)
Ltac createHeap_path Hrun leaf :=
  match type of Hrun with
  | context [createHeapWithManager ?this ?bytes ?r] =>
      destruct (createHeapWithManager this bytes r) as [h0 | ] eqn:Hmade;
      [ | leaf]
  end;
  match type of Hrun with
  | context [initializeHeapRegionManager ?port ?h ?r] =>
      destruct (initializeHeapRegionManager port h r) eqn:Hregions; cbn [negb] in Hrun;
      [ | leaf]
  end;
  match type of Hrun with
  | context [initializeRunTimeObjectAlignmentAndCRShift ?build ?this ?h ?rt0] =>
      let Hshift := fresh "Hshift" in
      let Hext := fresh "Hext" in
      let Hret := fresh "Hret" in
      let Hcalls := fresh "Hcalls" in
      destruct (initializeRunTimeObjectAlignmentAndCRShift_frame build this h rt0)
        as [Hext Hret];
      destruct (initializeRunTimeObjectAlignmentAndCRShift build this h rt0)
        as [b rt1 | rt1] eqn:Hshift; [ | discriminate];
      destruct (Hret b rt1 eq_refl) as [-> Hcalls]; clear Hret;
      cbn [stateOf negb] in Hrun, Hext
  end;
  match type of Hrun with
  | context [delegate_heapInitialized ?d ?h] =>
      destruct (delegate_heapInitialized d h) eqn:Hdelegate; cbn [negb] in Hrun;
      [ | leaf]
  end;
  cbn -[initializeRunTimeObjectAlignmentAndCRShift Z.eqb Z.ltb Z.gtb Z.leb] in Hrun;
  match type of Hrun with
  | context [if ?inWindow then _ else _] => destruct inWindow; leaf
  end.

(** The end of a path: the outcome is read off the state reached. *)
Ltac createHeap_end :=
  match goal with
  | Hrun : Returned _ _ = Returned _ _ |- _ => injection Hrun as <- <-
  end;
  cbn [extensions omrVM calls] in *;
  repeat match goal with
         | Hext : extensions _ = _ |- _ => rewrite Hext in *; clear Hext
         end;
  repeat match goal with
         | Hcalls : calls _ = _ |- _ => rewrite Hcalls in *; clear Hcalls
         end;
  cbn -[initializeRunTimeObjectAlignmentAndCRShift Z.eqb Z.ltb Z.gtb Z.leb] in *;
  repeat match goal with
         | H : ?x = _ |- context [?x] => rewrite H
         end;
  split; [first [reflexivity | assumption] | ];
  split; [first [reflexivity | assumption] | ];
  first
    [ split; [reflexivity | split; reflexivity]
    | left; split; [reflexivity | ]; split; [reflexivity | ];
      split; [rewrite <- ?app_assoc; reflexivity | ];
      split; [first [reflexivity | assumption] | intros r0 Hr0; congruence]
    | right; split; [reflexivity | ];
      split; [first [left; reflexivity | right; reflexivity] | ];
      first
        [ exists []; split; [rewrite <- ?app_assoc; reflexivity | assumption]
        | exists [ObjectModel_setObjectAlignment];
          split; [rewrite <- ?app_assoc; reflexivity | assumption]
        | exists [ObjectModel_setObjectAlignment; Delegate_heapInitialized];
          split; [rewrite <- ?app_assoc; reflexivity | assumption] ] ].

(** Every way in which [createHeap] returns: the managers it finds or
    creates, and what happens to the heap it constructs. *)
Lemma createHeap_paths (build : Build) (port : Platform) (this : MM_Configuration)
  (heapBytesRequested : Z) (rt : Runtime) (result : option MM_Heap) (rt' : Runtime) :
  createHeap build port this heapBytesRequested rt = Returned result rt' ->
  let e := extensions rt in
  let e' := extensions rt' in
  let manager :=
    match memoryManager e with
    | Some m => Some m
    | None => MemoryManager_newInstance port
    end in
  let regionManager :=
    match manager with
    | None => heapRegionManager e
    | Some _ =>
        match heapRegionManager e with
        | Some r => Some r
        | None => createHeapRegionManager this
        end
    end in
  let constructed :=
    match manager, regionManager with
    | Some _, Some r => createHeapWithManager this heapBytesRequested r
    | _, _ => None
    end in
  memoryManager e' = manager /\
  heapRegionManager e' = regionManager /\
  match constructed with
  | None => result = None /\ calls rt' = calls rt /\ heap e' = heap e
  | Some h =>
      (result = Some h /\ heap e' = Some h /\
       calls rt' = calls rt ++ [ObjectModel_setObjectAlignment; Delegate_heapInitialized] /\
       delegate_heapInitialized (_delegate this) h = true /\
       (forall r, regionManager = Some r -> initializeHeapRegionManager port h r = true))
      \/
      (result = None /\ (heap e' = None \/ heap e' = heap e) /\
       exists before,
         calls rt' = calls rt ++ before ++ [Heap_kill h] /\
         incl before [ObjectModel_setObjectAlignment; Delegate_heapInitialized])
  end.
Proof.
  intros Hrun e e' manager regionManager constructed.
  subst e e' manager regionManager constructed.
  unfold createHeap in Hrun. run_monad.
  assert (Hincl0 : incl (@nil Call) [ObjectModel_setObjectAlignment; Delegate_heapInitialized])
    by (intros x []).
  assert (Hincl1 : incl [ObjectModel_setObjectAlignment]
                     [ObjectModel_setObjectAlignment; Delegate_heapInitialized])
    by (intros x [<- | []]; left; reflexivity).
  assert (Hincl2 : incl [ObjectModel_setObjectAlignment; Delegate_heapInitialized]
                     [ObjectModel_setObjectAlignment; Delegate_heapInitialized])
    by apply incl_refl.
  destruct (memoryManager (extensions rt)) as [mm | ] eqn:Hmm;
    [ | destruct (MemoryManager_newInstance port) as [mm | ] eqn:Hnew ];
    cbn -[initializeRunTimeObjectAlignmentAndCRShift Z.eqb Z.ltb Z.gtb Z.leb] in Hrun;
    [ | | createHeap_end ];
    (destruct (heapRegionManager (extensions rt)) as [r | ] eqn:Hhrm;
     [ | destruct (createHeapRegionManager this) as [r | ] eqn:Hcreated ];
     cbn -[initializeRunTimeObjectAlignmentAndCRShift Z.eqb Z.ltb Z.gtb Z.leb] in Hrun;
     [ createHeap_path Hrun createHeap_end | createHeap_path Hrun createHeap_end
     | createHeap_end ]).
Qed.

(** X11. No heap is leaked and none is destroyed by mistake.  When
    [createHeap] returns, a heap that it constructed is either the result,
    published and accepted by the delegate, with no heap destroyed on the
    way, or it has been destroyed, as the last thing done, and null is
    returned; and the only heap [createHeap] ever destroys is the one it
    constructed in this call. *)
Theorem createHeap_no_leak (build : Build) (port : Platform) (this : MM_Configuration)
  (heapBytesRequested : Z) (rt : Runtime) (result : option MM_Heap) (rt' : Runtime) :
  createHeap build port this heapBytesRequested rt = Returned result rt' ->
  let e' := extensions rt' in
  exists made,
    calls rt' = calls rt ++ made /\
    (forall h, result = Some h ->
       heap e' = Some h /\
       delegate_heapInitialized (_delegate this) h = true /\
       In Delegate_heapInitialized made /\
       forall h', ~ In (Heap_kill h') made) /\
    (forall regionManager h,
       memoryManager e' <> None ->
       heapRegionManager e' = Some regionManager ->
       createHeapWithManager this heapBytesRequested regionManager = Some h ->
       result = Some h
       \/ (result = None /\
           exists before, made = before ++ [Heap_kill h] /\
                          forall h', ~ In (Heap_kill h') before)) /\
    (forall h', In (Heap_kill h') made ->
       result = None /\
       exists regionManager,
         heapRegionManager e' = Some regionManager /\
         createHeapWithManager this heapBytesRequested regionManager = Some h').
Proof.
  intros Hrun e'. subst e'.
  destruct (createHeap_paths build port this heapBytesRequested rt result rt' Hrun)
    as [Hmm [Hhrm Hpaths]].
  cbv zeta in Hmm, Hhrm, Hpaths. rewrite <- Hmm in Hhrm, Hpaths.
  rewrite <- Hhrm in Hpaths. clear Hmm Hhrm Hrun.
  assert (Hnokill : forall before h',
            incl before [ObjectModel_setObjectAlignment; Delegate_heapInitialized] ->
            ~ In (Heap_kill h') before).
  { intros before h' Hincl Hin. apply Hincl in Hin. cbn in Hin.
    destruct Hin as [Habs | [Habs | []]]; discriminate. }
  destruct (memoryManager (extensions rt')) as [mm | ];
    [destruct (heapRegionManager (extensions rt')) as [r | ];
     [destruct (createHeapWithManager this heapBytesRequested r) as [h0 | ] eqn:Hmade | ] | ].
  2, 3, 4:
    destruct Hpaths as [-> [Hcalls _]]; exists [];
    (split; [rewrite app_nil_r; exact Hcalls | ]);
    (split; [intros h Habs; discriminate | ]);
    (split; [intros r0 h Hmm0 Hr0 Hh; congruence | intros h' []]).
  destruct Hpaths as [[-> [Hheap [Hcalls [Hdelegate _]]]] | [-> [_ [before [Hcalls Hincl]]]]].
  - eexists. split; [exact Hcalls | ].
    split; [ | split].
    + intros h Hh. injection Hh as <-.
      split; [exact Hheap | ]. split; [exact Hdelegate | ].
      split; [right; left; reflexivity | ].
      intros h'. apply Hnokill, incl_refl.
    + intros r0 h _ Hr0 Hh. injection Hr0 as <-. left. congruence.
    + intros h' Hin. exfalso. revert Hin. apply Hnokill, incl_refl.
  - exists (before ++ [Heap_kill h0]). split; [exact Hcalls | ].
    split; [intros h Habs; discriminate | ]. split.
    + intros r0 h _ Hr0 Hh. injection Hr0 as <-. right. split; [reflexivity | ].
      exists before. split; [congruence | ]. intros h'. apply Hnokill, Hincl.
    + intros h' Hin. split; [reflexivity | ]. exists r. split; [reflexivity | ].
      apply in_app_or in Hin. destruct Hin as [Hin | [Hin | []]].
      * exfalso. revert Hin. apply Hnokill, Hincl.
      * congruence.
Qed.

(** A heap the delegate turns down: constructed, published, destroyed, and
    null returned. *)
Lemma createHeap_no_leak_witness :
  let this :=
    {| _delegate :=
         {| delegate_initialize := fun _ _ => true;
            delegate_environmentInitialized := fun _ => true;
            delegate_heapInitialized := fun _ => false;
            delegate_reinitializeForRestore := true;
            getMaxGCThreadCount := 64;
            checkPointGCThreadCountVerifyAndAdjust := gcThreadCount |};
       _alignmentType := mm_heapAlignment;
       _defaultRegionSize := 65536;
       _defaultArrayletLeafSize := 0;
       _writeBarrierType := 0;
       _allocationType := gc_modron_allocation_type_tlh;
       verifyRegionSize := fun _ => true;
       createHeapRegionManager := Some {| heapRegionManager_address := 12288 |};
       createHeapWithManager := fun bytes _ => Some (Sample.theHeap 65536 (65536 + bytes));
       allocateNewEnvironment := fun _ => None |} in
  exists rt' made,
    createHeap Sample.build Sample.port this 65536 (Sample.runtime Sample.freshExtensions)
    = Returned None rt' /\
    calls rt' = made /\
    forall h', In (Heap_kill h') made ->
               exists regionManager,
                 heapRegionManager (extensions rt') = Some regionManager /\
                 createHeapWithManager this 65536 regionManager = Some h'.
Proof.
  intros this.
  destruct (createHeap Sample.build Sample.port this 65536
              (Sample.runtime Sample.freshExtensions))
    as [result rt' | rt'] eqn:Hrun;
    [ | exfalso; vm_compute in Hrun; discriminate Hrun].
  destruct (createHeap_no_leak Sample.build Sample.port this 65536
              (Sample.runtime Sample.freshExtensions) result rt' Hrun)
    as [made [Hcalls [_ [_ Honly]]]].
  assert (Hresult : result = None) by (vm_compute in Hrun; congruence).
  subst result. exists rt', made. split; [reflexivity | ].
  split; [exact Hcalls | ]. intros h' Hin. exact (proj2 (Honly h' Hin)).
Defined.

(** X12. [createHeap] reuses the managers it finds and keeps those it
    creates.  A memory manager or region manager already in the extensions
    is left in place; a missing one is replaced by the one just created,
    which stays in the extensions even when the call then fails; no manager
    is destroyed; and a heap that is returned was constructed over the
    region manager now in the extensions, which it has initialized. *)
Theorem createHeap_managers (build : Build) (port : Platform) (this : MM_Configuration)
  (heapBytesRequested : Z) (rt : Runtime) (result : option MM_Heap) (rt' : Runtime) :
  createHeap build port this heapBytesRequested rt = Returned result rt' ->
  let e := extensions rt in
  let e' := extensions rt' in
  (forall m, memoryManager e = Some m -> memoryManager e' = Some m) /\
  (memoryManager e = None -> memoryManager e' = MemoryManager_newInstance port) /\
  (forall r, heapRegionManager e = Some r -> heapRegionManager e' = Some r) /\
  (heapRegionManager e = None ->
   heapRegionManager e' =
     if isSome (memoryManager e') then createHeapRegionManager this else None) /\
  (forall h, result = Some h ->
     memoryManager e' <> None /\
     exists r, heapRegionManager e' = Some r /\
               createHeapWithManager this heapBytesRequested r = Some h /\
               initializeHeapRegionManager port h r = true) /\
  (exists made,
     calls rt' = calls rt ++ made /\
     (forall m, ~ In (MemoryManager_kill m) made) /\
     (forall r, ~ In (HeapRegionManager_kill r) made)).
Proof.
  intros Hrun e e'. subst e e'.
  destruct (createHeap_paths build port this heapBytesRequested rt result rt' Hrun)
    as [Hmm [Hhrm Hpaths]].
  cbv zeta in Hmm, Hhrm, Hpaths. rewrite <- Hmm in Hhrm, Hpaths.
  rewrite <- Hhrm in Hpaths. clear Hrun.
  split; [intros m Hm; rewrite Hmm, Hm; reflexivity | ].
  split; [intros Hm; rewrite Hmm, Hm; reflexivity | ].
  split; [intros r Hr; rewrite Hhrm, Hr; destruct (memoryManager (extensions rt'));
          reflexivity | ].
  split; [intros Hr; rewrite Hhrm, Hr; destruct (memoryManager (extensions rt'));
          reflexivity | ].
  clear Hmm Hhrm.
  destruct (memoryManager (extensions rt')) as [mm | ];
    [destruct (heapRegionManager (extensions rt')) as [r | ];
     [destruct (createHeapWithManager this heapBytesRequested r) as [h0 | ] eqn:Hmade | ] | ].
  2, 3, 4:
    destruct Hpaths as [-> [Hcalls _]];
    (split; [intros h Habs; discriminate | ]);
    exists []; (split; [rewrite app_nil_r; exact Hcalls | ]);
    split; intros x [].
  destruct Hpaths as [[-> [_ [Hcalls [_ Hregions]]]] | [-> [_ [before [Hcalls Hincl]]]]].
  - split.
    + intros h Hh. injection Hh as <-. split; [discriminate | ].
      exists r. split; [reflexivity | ]. split; [exact Hmade | ].
      apply Hregions. reflexivity.
    + eexists. split; [exact Hcalls | ].
      split; intros x [Habs | [Habs | []]]; discriminate.
  - split; [intros h Habs; discriminate | ].
    exists (before ++ [Heap_kill h0]). split; [exact Hcalls | ].
    split; intros x Hin; apply in_app_or in Hin;
      (destruct Hin as [Hin | [Hin | []]]; [ | discriminate]);
      apply Hincl in Hin; destruct Hin as [Habs | [Habs | []]]; discriminate.
Qed.

(** A heap that cannot be constructed: both managers are created and stay. *)
Lemma createHeap_managers_witness :
  let this := Sample.configure 64 (fun _ => true) (fun _ _ => None) in
  exists rt',
    createHeap Sample.build Sample.port this 65536 (Sample.runtime Sample.freshExtensions)
    = Returned None rt' /\
    memoryManager (extensions rt') = MemoryManager_newInstance Sample.port /\
    heapRegionManager (extensions rt') = createHeapRegionManager this.
Proof.
  intros this.
  destruct (createHeap Sample.build Sample.port this 65536
              (Sample.runtime Sample.freshExtensions))
    as [result rt' | rt'] eqn:Hrun;
    [ | exfalso; vm_compute in Hrun; discriminate Hrun].
  destruct (createHeap_managers Sample.build Sample.port this 65536
              (Sample.runtime Sample.freshExtensions) result rt' Hrun)
    as [_ [Hmm [_ [Hhrm _]]]].
  assert (Hresult : result = None) by (vm_compute in Hrun; congruence).
  subst result. exists rt'. split; [reflexivity | ].
  split; [exact (Hmm eq_refl) | ].
  rewrite (Hhrm eq_refl), (Hmm eq_refl). reflexivity.
Defined.

(** ** Heap creation followed by [tearDown] *)

(** The shift computation leaves every field of the extensions alone. *)
Lemma initializeRunTimeObjectAlignmentAndCRShift_keeps_all {F : Type}
  (f : MM_GCExtensionsBase -> F) (build : Build) (this : MM_Configuration)
  (heap : MM_Heap) :
  keeps f (initializeRunTimeObjectAlignmentAndCRShift build this heap).
Proof.
  intros rt.
  rewrite (proj1 (initializeRunTimeObjectAlignmentAndCRShift_frame build this heap rt)).
  reflexivity.
Qed.

#[local] Hint Resolve initializeRunTimeObjectAlignmentAndCRShift_keeps_all : keeps.

(** [createHeap] writes the heap and the two managers, nothing else that
    [tearDown] looks at. *)
Lemma createHeap_frame (build : Build) (port : Platform) (this : MM_Configuration)
  (heapBytesRequested : Z) :
  keeps (fun e => (referenceChainWalkerMarkMap e, getGlobalCollector e, dispatcher e,
                   isMetronomeGC e, globalAllocationManager e,
                   _lightweightNonReentrantLockPool e))
    (createHeap build port this heapBytesRequested).
Proof. unfold createHeap. keeps_tac. Qed.

(** X13. What [createHeap] creates, [tearDown] destroys, whether the heap
    creation succeeded or not.  Starting with no resource, a [tearDown] that
    follows a [createHeap] returns, leaves no resource behind, and destroys
    exactly: the default memory space of the heap returned, that heap (its
    memory space detached), the memory manager and the region manager that
    were created, in this order, before it shuts NUMA support down and
    tells the delegate. *)
Theorem createHeap_then_tearDown (build : Build) (port : Platform)
  (this : MM_Configuration) (heapBytesRequested : Z) (rt : Runtime)
  (result : option MM_Heap) (rt' : Runtime) :
  tornDown (extensions rt) ->
  createHeap build port this heapBytesRequested rt = Returned result rt' ->
  let manager := MemoryManager_newInstance port in
  let regionManager := if isSome manager then createHeapRegionManager this else None in
  exists rt'',
    tearDown this rt' = Returned tt rt'' /\
    tornDown (extensions rt'') /\
    calls rt'' =
      calls rt'
      ++ match result with
         | Some h => killed (getDefaultMemorySpace h) MemorySpace_kill
                     ++ [Heap_kill (setDefaultMemorySpace None h)]
         | None => []
         end
      ++ killed manager MemoryManager_kill
      ++ killed regionManager HeapRegionManager_kill
      ++ [NUMAManager_shutdownNUMASupport; Delegate_tearDown].
Proof.
  intros Hclean Hrun manager regionManager. subst manager regionManager.
  destruct Hclean as [Hheap [Hmap [Hcollector [Hdispatcher [Hgam [Hmm [Hhrm Hpool]]]]]]].
  pose proof (createHeap_frame build port this heapBytesRequested rt) as Hframe.
  rewrite Hrun in Hframe. cbn [stateOf] in Hframe.
  injection Hframe as Hmap' Hcollector' Hdispatcher' Hmetronome' Hgam' Hpool'.
  destruct (createHeap_paths build port this heapBytesRequested rt result rt' Hrun)
    as [Hmm' [Hhrm' Hpaths]].
  cbv zeta in Hmm', Hhrm', Hpaths. rewrite Hmm in *. rewrite Hhrm in *.
  destruct (tearDown_returns this rt') as [[] [rt'' [Hdown [Htorn _]]]].
  exists rt''. split; [exact Hdown | ]. split; [exact Htorn | ].
  rewrite tearDown_run in Hdown. cbv zeta in Hdown. injection Hdown as <-.
  cbn [calls]. f_equal.
  rewrite Hmap', Hmap, Hcollector', Hcollector, Hgam', Hgam, Hpool', Hpool, Hmm', Hhrm'.
  assert (Hnodispatcher :
            (if isMetronomeGC (extensions rt') then []
             else match dispatcher (extensions rt') with
                  | Some a => [ParallelDispatcher_kill a]
                  | None => []
                  end) = []).
  { rewrite Hmetronome', Hdispatcher'.
    destruct Hdispatcher as [-> | ->]; [reflexivity | ].
    destruct (isMetronomeGC (extensions rt)); reflexivity. }
  rewrite Hnodispatcher. clear Hnodispatcher. cbn [app].
  destruct (MemoryManager_newInstance port) as [mm | ]; cbn [isSome killed] in *.
  2:{ destruct Hpaths as [-> [_ Hheap']]. rewrite Hheap', Hheap. reflexivity. }
  destruct (createHeapRegionManager this) as [r | ]; cbn [killed] in *.
  2:{ destruct Hpaths as [-> [_ Hheap']]. rewrite Hheap', Hheap. reflexivity. }
  destruct (createHeapWithManager this heapBytesRequested r) as [h | ].
  2:{ destruct Hpaths as [-> [_ Hheap']]. rewrite Hheap', Hheap. reflexivity. }
  destruct Hpaths as [[-> [Hheap' _]] | [-> [Hheap' _]]].
  - rewrite Hheap'. cbn [option_map]. unfold killed.
    destruct (getDefaultMemorySpace h); reflexivity.
  - assert (Hnone : heap (extensions rt') = None)
      by (destruct Hheap' as [Hnone | Hsame]; congruence).
    rewrite Hnone. reflexivity.
Qed.

Lemma createHeap_then_tearDown_witness :
  exists rt' rt'',
    createHeap Sample.build Sample.port Sample.configuration 65536
      (Sample.runtime Sample.freshExtensions)
    = Returned (Some (Sample.theHeap 65536 131072)) rt' /\
    tearDown Sample.configuration rt' = Returned tt rt'' /\
    tornDown (extensions rt'') /\
    calls rt'' =
      [ObjectModel_setObjectAlignment; Delegate_heapInitialized;
       MemorySpace_kill {| memorySpace_address := 8192 |};
       Heap_kill (setDefaultMemorySpace None (Sample.theHeap 65536 131072));
       MemoryManager_kill {| memoryManager_address := 20480 |};
       HeapRegionManager_kill {| heapRegionManager_address := 12288 |};
       NUMAManager_shutdownNUMASupport; Delegate_tearDown].
Proof.
  destruct (createHeap Sample.build Sample.port Sample.configuration 65536
              (Sample.runtime Sample.freshExtensions))
    as [result rt' | rt'] eqn:Hrun;
    [ | exfalso; vm_compute in Hrun; discriminate Hrun].
  assert (Hclean : tornDown (extensions (Sample.runtime Sample.freshExtensions)))
    by (vm_compute; intuition).
  destruct (createHeap_then_tearDown Sample.build Sample.port Sample.configuration 65536
              (Sample.runtime Sample.freshExtensions) result rt' Hclean Hrun)
    as [rt'' [Hdown [Htorn Hcalls]]].
  assert (Hresult : result = Some (Sample.theHeap 65536 131072))
    by (vm_compute in Hrun; injection Hrun as <- _; reflexivity).
  assert (Hbefore : calls rt' = [ObjectModel_setObjectAlignment; Delegate_heapInitialized])
    by (vm_compute in Hrun; injection Hrun as _ <-; reflexivity).
  subst result. exists rt', rt''. split; [reflexivity | ].
  split; [exact Hdown | ]. split; [exact Htorn | ].
  rewrite Hcalls, Hbefore. reflexivity.
Defined.

(** ** What start-up and restore leave alone *)

Lemma reinitializeThreads_keeps_all {F : Type} (f : MM_GCExtensionsBase -> F)
  (port : Platform) (walk : list MM_EnvironmentBase) :
  keeps f (reinitializeThreads port walk).
Proof.
  induction walk as [ | walkEnv rest IH]; cbn [reinitializeThreads]; [apply keeps_ret | ].
  keeps_tac.
Qed.

(** X14. Start-up tuning, restore and environment creation neither create
    nor destroy a GC resource: whether they return or stop, [initialize],
    [reinitializeForRestore], [createEnvironment] and [prepareParameters]
    leave the heap, the memory manager, the region manager, the mark map,
    the global collector, the dispatcher and the global allocation manager
    of the extensions as they found them. *)
Theorem resources_untouched (build : Build) (port : Platform) (this : MM_Configuration) :
  keeps resources (initialize build port this) /\
  keeps resources (reinitializeForRestore build port this) /\
  (forall omrVMThread, keeps resources (createEnvironment build port this omrVMThread)) /\
  (forall minimumSpaceSize minimumNewSpaceSize initialNewSpaceSize maximumNewSpaceSize
          minimumTenureSpaceSize initialTenureSpaceSize maximumTenureSpaceSize
          memoryMax tenureFlags,
     keeps resources
       (prepareParameters this minimumSpaceSize minimumNewSpaceSize initialNewSpaceSize
          maximumNewSpaceSize minimumTenureSpaceSize initialTenureSpaceSize
          maximumTenureSpaceSize memoryMax tenureFlags)).
Proof.
  split; [ | split; [ | split]].
  - unfold initialize, initializeRegionSize, initializeArrayletLeafSize,
      initializeNUMAManager, initializeGCThreadCount, initializeGCParameters.
    keeps_tac.
  - unfold reinitializeForRestore, initializeGCThreadCount, initializeGCParameters.
    keeps_tac. apply reinitializeThreads_keeps_all.
  - intros omrVMThread. unfold createEnvironment, initializeEnvironment. keeps_tac.
  - intros. unfold prepareParameters, rounding. keeps_tac.
Qed.

(** ** The outcome of [reinitializeForRestore] *)

(** The walk over the thread list: it stops at the first environment that
    fails to reinitialize. *)
Lemma reinitializeThreads_trace (port : Platform) (walk : list MM_EnvironmentBase)
  (rt : Runtime) :
  exists visited skipped,
    walk = visited ++ skipped /\
    reinitializeThreads port walk rt =
      Returned (forallb (environment_reinitializeForRestore port) walk)
        {| extensions := extensions rt; omrVM := omrVM rt;
           calls := calls rt ++ map Environment_reinitializeForRestore visited |} /\
    (forall env, In env (removelast visited) ->
                 environment_reinitializeForRestore port env = true) /\
    (forallb (environment_reinitializeForRestore port) walk = true -> skipped = []) /\
    (forallb (environment_reinitializeForRestore port) walk = false ->
     exists front failing,
       visited = front ++ [failing] /\
       environment_reinitializeForRestore port failing = false).
Proof.
  revert rt. induction walk as [ | walkEnv rest IH]; intros rt.
  - exists [], []. split; [reflexivity | ].
    split; [cbn; rewrite app_nil_r; destruct rt; reflexivity | ].
    split; [intros env [] | ]. split; [reflexivity | discriminate].
  - cbn [reinitializeThreads forallb]. unfold bind at 1. unfold call at 1.
    destruct (environment_reinitializeForRestore port walkEnv) eqn:Hok; cbn [negb andb].
    + destruct (IH {| extensions := extensions rt; omrVM := omrVM rt;
                      calls := calls rt ++ [Environment_reinitializeForRestore walkEnv] |})
        as [visited [skipped [Hwalk [Hrun [Hfront [Hall Hfail]]]]]].
      exists (walkEnv :: visited), skipped.
      split; [cbn; congruence | ].
      split; [rewrite Hrun; cbn; rewrite <- app_assoc; reflexivity | ].
      split.
      * intros env Hin. destruct visited as [ | next others]; [destruct Hin | ].
        cbn [removelast] in Hin. destruct Hin as [<- | Hin]; [exact Hok | ].
        apply Hfront. exact Hin.
      * split; [exact Hall | ].
        intros Hfalse. destruct (Hfail Hfalse) as [front [failing [Hvisited Hfailing]]].
        exists (walkEnv :: front), failing. split; [cbn; congruence | exact Hfailing].
    + exists [walkEnv], rest. split; [reflexivity | ].
      split; [reflexivity | ].
      split; [intros env [] | ]. split; [discriminate | ].
      intros _. exists [], walkEnv. split; [reflexivity | exact Hok].
Qed.

(** X15. When [reinitializeForRestore] returns, its answer is the
    conjunction of the delegate's answer and of the answers of all the
    environments of the thread list.  The delegate is asked once, after the
    thread count check; the environments are visited in list order, only
    when the delegate agreed, and the walk stops at the first environment
    that fails: every environment visited before the last one succeeded,
    and on success none is skipped. *)
Theorem reinitializeForRestore_result (build : Build) (port : Platform)
  (this : MM_Configuration) (rt : Runtime) (result : bool) (rt' : Runtime) :
  reinitializeForRestore build port this rt = Returned result rt' ->
  let restored := environment_reinitializeForRestore port in
  result = delegate_reinitializeForRestore (_delegate this)
           && forallb restored (threadList port) /\
  exists visited skipped,
    threadList port = visited ++ skipped /\
    calls rt' =
      calls rt
      ++ (if J9VM_OPT_CRIU_SUPPORT build
          then [Delegate_checkPointGCThreadCountVerifyAndAdjust] else [])
      ++ Delegate_reinitializeForRestore
         :: map Environment_reinitializeForRestore visited /\
    (delegate_reinitializeForRestore (_delegate this) = false -> visited = []) /\
    (forall env, In env (removelast visited) -> restored env = true) /\
    (result = true -> skipped = []) /\
    (result = false -> delegate_reinitializeForRestore (_delegate this) = true ->
     exists front failing, visited = front ++ [failing] /\ restored failing = false).
Proof.
  intros Hrun restored. subst restored.
  unfold reinitializeForRestore in Hrun. unfold bind at 1 in Hrun.
  destruct (initializeGCThreadCount_trace build port this rt) as [n Hrun1].
  rewrite Hrun1 in Hrun. clear Hrun1.
  unfold bind at 1 in Hrun. unfold getExtensions at 1 in Hrun. cbn [extensions] in Hrun.
  destruct (dispatcher (set_gcThreadCount n (extensions rt))) as [d | ];
    [ | discriminate Hrun].
  unfold bind at 1 in Hrun. unfold modifyExtensions at 1 in Hrun.
  cbv beta iota in Hrun. cbn [extensions omrVM calls] in Hrun.
  unfold bind at 1 in Hrun.
  match type of Hrun with
  | context [initializeGCParameters build port this ?r] => set (rt2 := r) in Hrun
  end.
  destruct (Z_lt_le_dec 0 (gcThreadCount (extensions rt2))) as [Hpos | Hzero];
    [ | rewrite (initializeGCParameters_asserts build port this rt2 Hzero) in Hrun;
        discriminate Hrun].
  destruct (initializeGCParameters_fields build port this rt2 Hpos)
    as [rt3 [Hrun3 [_ [Hcalls3 _]]]].
  rewrite Hrun3 in Hrun. clear Hrun3.
  unfold bind at 1 in Hrun. unfold call at 1 in Hrun.
  destruct (delegate_reinitializeForRestore (_delegate this)); cbn [negb andb] in *.
  - destruct (reinitializeThreads_trace port (threadList port)
                {| extensions := extensions rt3; omrVM := omrVM rt3;
                   calls := calls rt3 ++ [Delegate_reinitializeForRestore] |})
      as [visited [skipped [Hwalk [Hrun4 [Hfront [Hall Hfail]]]]]].
    rewrite Hrun4 in Hrun. injection Hrun as <- <-.
    split; [reflexivity | ]. exists visited, skipped.
    split; [exact Hwalk | ].
    split; [cbn [calls]; rewrite Hcalls3; subst rt2; cbn [calls];
            rewrite <- !app_assoc; reflexivity | ].
    split; [discriminate | ]. split; [exact Hfront | ].
    split; [exact Hall | intros Hfalse _; exact (Hfail Hfalse)].
  - unfold ret in Hrun. injection Hrun as <- <-.
    split; [reflexivity | ]. exists [], (threadList port).
    split; [reflexivity | ].
    split; [cbn [calls map]; rewrite Hcalls3; subst rt2; cbn [calls];
            rewrite <- !app_assoc; reflexivity | ].
    split; [reflexivity | ]. split; [intros env [] | ].
    split; discriminate.
Qed.

(** Three threads, the second fails: the third is never visited. *)
Lemma reinitializeForRestore_result_witness :
  exists rt' visited,
    reinitializeForRestore Sample.checkpointBuild Scenario.restoring Sample.configuration
      (Sample.runtime Scenario.established) = Returned false rt' /\
    threadList Scenario.restoring = visited ++ [Scenario.environmentOf 3] /\
    calls rt' =
      Delegate_checkPointGCThreadCountVerifyAndAdjust
      :: Delegate_reinitializeForRestore
      :: map Environment_reinitializeForRestore visited.
Proof.
  destruct (reinitializeForRestore Sample.checkpointBuild Scenario.restoring
              Sample.configuration (Sample.runtime Scenario.established))
    as [result rt' | rt'] eqn:Hrun;
    [ | exfalso; vm_compute in Hrun; discriminate Hrun].
  destruct (reinitializeForRestore_result Sample.checkpointBuild Scenario.restoring
              Sample.configuration (Sample.runtime Scenario.established) result rt' Hrun)
    as [Hresult [visited [skipped [Hwalk [Hcalls [_ [Hfront [_ Hfail]]]]]]]].
  cbn in Hresult. subst result.
  destruct (Hfail eq_refl eq_refl) as [front [failing [Hvisited Hfailing]]].
  exists rt', visited. split; [reflexivity | ].
  split; [ | exact Hcalls].
  subst visited. rewrite removelast_last in Hfront.
  cbn in Hwalk.
  destruct front as [ | first [ | second more]].
  - cbn in Hwalk. injection Hwalk as <- _. discriminate Hfailing.
  - cbn in Hwalk. injection Hwalk as <- <- <-. reflexivity.
  - cbn in Hwalk. injection Hwalk as <- <- _.
    specialize (Hfront (Scenario.environmentOf 2) (or_intror (or_introl eq_refl))).
    discriminate Hfront.
Defined.

(** ** More on the compression shift *)

(** X16. The value of the compression shift, beyond the bound it
    guarantees.  Under compressed references, when the method succeeds: a
    forced shift is published as given; otherwise a heap that ends below
    4G gets the shift 0 unless the low-memory ceiling shift is forced, a
    heap that ends above 4G gets a positive shift, the shift never exceeds
    the greater of the starting shift and the platform's default, it is at
    least the default when the low-memory ceiling shift is forced, and
    outside z platforms it is either 0 or at least the default. *)
Theorem initializeRunTimeObjectAlignmentAndCRShift_value (build : Build)
  (this : MM_Configuration) (heap : MM_Heap) (rt rt' : Runtime) :
  OMR_GC_COMPRESSED_POINTERS build = true ->
  compressObjectReferences (omrVM rt) = true ->
  0 <= LOW_MEMORY_HEAP_CEILING_SHIFT build < 32 ->
  0 <= DEFAULT_LOW_MEMORY_HEAP_CEILING_SHIFT build < 32 ->
  initializeRunTimeObjectAlignmentAndCRShift build this heap rt = Returned true rt' ->
  let e := extensions rt in
  let shift := _compressedPointersShift (omrVM rt') in
  let floorShift := DEFAULT_LOW_MEMORY_HEAP_CEILING_SHIFT build in
  let initial :=
    if shouldAllowShiftingCompression e then LOW_MEMORY_HEAP_CEILING_SHIFT build else 0 in
  (shouldForceSpecifiedShiftingCompression e = true ->
   shift = forcedShiftingCompressionAmount e) /\
  (shouldForceSpecifiedShiftingCompression e = false ->
   (getHeapTop heap <= 2 ^ 32 ->
    shouldForceLowMemoryHeapCeilingShiftIfPossible e = false -> shift = 0) /\
   (2 ^ 32 < getHeapTop heap -> 0 < shift) /\
   shift <= Z.max initial floorShift /\
   (shouldForceLowMemoryHeapCeilingShiftIfPossible e = true -> floorShift <= shift) /\
   (S390 build = false -> J9ZOS390 build = false -> shift = 0 \/ floorShift <= shift)).
Proof.
  intros Hbuild Hcompress Hlow Hdefault Hrun e shift floorShift initial.
  rewrite (initializeRunTimeObjectAlignmentAndCRShift_run build this heap rt Hbuild Hcompress)
    in Hrun.
  cbv zeta in Hrun. fold e floorShift in Hrun.
  set (heapTop := getHeapTop heap) in *.
  destruct (shouldForceSpecifiedShiftingCompression e) eqn:Hforced.
  - destruct (heapTop <=? ushl (ushl 1 32) (forcedShiftingCompressionAmount e));
      [ | discriminate].
    injection Hrun as <-. subst shift. cbn.
    split; [reflexivity | intros Habs; discriminate].
  - split; [intros Habs; discriminate | intros _].
    fold initial in Hrun.
    assert (Hinitial : 0 <= initial < 32)
      by (subst initial; destruct (shouldAllowShiftingCompression e); lia).
    destruct (Z.leb_spec heapTop (ushl (ushl 1 32) initial)) as [Hfit | Hnofit];
      [ | discriminate].
    assert (Hcast : to_intptr initial = initial).
    { unfold to_intptr. destruct (Z.ltb_spec initial (2 ^ 63)) as [_ | Hbig];
        [reflexivity | ]. change (2 ^ 63) with 9223372036854775808 in Hbig. lia. }
    rewrite Hcast in Hrun.
    destruct (clampUnderShift_spec heapTop (ushl 1 32) (Z.to_nat (initial - 1 + 1))
                (initial - 1) ltac:(lia)) as [Hrange [Hpassed Hstop]].
    set (u := clampUnderShift heapTop (ushl 1 32) (Z.to_nat (initial - 1 + 1)) (initial - 1))
      in *.
    assert (Hclamped : to_uintptr (u + 1) = u + 1)
      by (apply wrap_small; change (2 ^ 64) with 18446744073709551616; lia).
    rewrite Hclamped in Hrun.
    rewrite maxAddressValue_value in *.
    assert (Hsmall : heapTop <= 2 ^ 32 -> u = -1).
    { intros Hle. destruct (Z_lt_le_dec u 0) as [Hneg | Hnonneg]; [lia | ].
      exfalso. apply (Hstop Hnonneg). rewrite ushl_maxAddressValue by lia.
      assert (0 < 2 ^ u) by (apply Z.pow_pos_nonneg; lia). nia. }
    assert (Hlarge : 2 ^ 32 < heapTop -> 0 <= u).
    { intros Hgt. destruct (Z_lt_le_dec u 0) as [Hneg | Hnonneg]; [ | exact Hnonneg].
      exfalso. destruct (Z.eq_dec initial 0) as [Hzero | Hnonzero].
      - rewrite Hzero in Hfit. rewrite ushl_maxAddressValue in Hfit by lia.
        change (2 ^ 0) with 1 in Hfit. lia.
      - assert (Hzero : heapTop <= ushl (2 ^ 32) 0) by (apply Hpassed; lia).
        rewrite ushl_maxAddressValue in Hzero by lia. change (2 ^ 0) with 1 in Hzero. lia. }
    clearbody u. fold floorShift in Hdefault.
    destruct (shouldForceLowMemoryHeapCeilingShiftIfPossible e);
      destruct (S390 build), (J9ZOS390 build); cbn [negb andb] in Hrun;
      destruct (Z.eqb_spec 0 (u + 1)); cbn [negb andb] in Hrun;
      destruct (Z.ltb_spec (u + 1) floorShift);
      repeat match type of Hrun with
             | context [?a <? ?b] => destruct (Z.ltb_spec a b)
             end;
      injection Hrun as <-; subst shift; cbn;
      (split; [intros Hle Hflag; try discriminate Hflag; specialize (Hsmall Hle); lia | ]);
      (split; [intros Hgt; specialize (Hlarge Hgt); lia | ]);
      (split; [lia | ]);
      (split; [intros Hflag; try discriminate Hflag; lia | ]);
      intros Hs Hz; try discriminate Hs; try discriminate Hz; lia.
Qed.

(** A heap that ends at 1G under the sample build: no shift is needed. *)
Lemma initializeRunTimeObjectAlignmentAndCRShift_value_witness :
  exists rt',
    initializeRunTimeObjectAlignmentAndCRShift Sample.build Sample.configuration
      (Sample.theHeap 65536 (2 ^ 30)) (Sample.runtime Sample.freshExtensions)
    = Returned true rt' /\
    _compressedPointersShift (omrVM rt') = 0.
Proof.
  destruct (initializeRunTimeObjectAlignmentAndCRShift Sample.build Sample.configuration
              (Sample.theHeap 65536 (2 ^ 30)) (Sample.runtime Sample.freshExtensions))
    as [[ | ] rt' | rt'] eqn:Hrun; try (vm_compute in Hrun; discriminate Hrun).
  exists rt'. split; [reflexivity | ].
  destruct (initializeRunTimeObjectAlignmentAndCRShift_value Sample.build
              Sample.configuration (Sample.theHeap 65536 (2 ^ 30))
              (Sample.runtime Sample.freshExtensions) rt'
              eq_refl eq_refl ltac:(simpl; lia) ltac:(simpl; lia) Hrun)
    as [_ Hunforced].
  destruct (Hunforced eq_refl) as [Hsmall _].
  apply Hsmall; [simpl; lia | reflexivity].
Defined.

(** ** More on [prepareParameters] and [createEnvironment] *)

(** X17. The initial sizes negotiated by [prepareParameters] fit the heap
    as well.  With a heap present, an alignment in (0, 2^63) and a
    non-negative heap capacity, the initial new-space and old-space sizes
    add up to at most the maximum space size, none of the eight sizes
    written is negative, and none exceeds the capacity of the heap. *)
Theorem prepareParameters_initial_sizes (this : MM_Configuration)
  (minimumSpaceSize minimumNewSpaceSize initialNewSpaceSize maximumNewSpaceSize
   minimumTenureSpaceSize initialTenureSpaceSize maximumTenureSpaceSize
   memoryMax tenureFlags : Z) (rt : Runtime) (h : MM_Heap) :
  heap (extensions rt) = Some h ->
  0 < getAlignment (extensions rt) (_alignmentType this) < 2 ^ 63 ->
  0 <= getMaximumMemorySize h ->
  exists p,
    prepareParameters this minimumSpaceSize minimumNewSpaceSize initialNewSpaceSize
      maximumNewSpaceSize minimumTenureSpaceSize initialTenureSpaceSize
      maximumTenureSpaceSize memoryMax tenureFlags rt = Returned p rt /\
    _initialNewSpaceSize p + _initialOldSpaceSize p <= _maximumSpaceSize p /\
    Forall (fun size => 0 <= size <= getMaximumMemorySize h)
      [_minimumSpaceSize p; _minimumNewSpaceSize p; _initialNewSpaceSize p;
       _maximumNewSpaceSize p; _minimumOldSpaceSize p; _initialOldSpaceSize p;
       _maximumOldSpaceSize p; _maximumSpaceSize p].
Proof.
  intros Hheap Halign Hcap.
  destruct (alignment_granularities _ Halign) as [Hone Htwo].
  unfold prepareParameters, rounding, bind, getExtensions.
  rewrite Hheap. cbv zeta. rewrite Hone, Htwo.
  unfold ret. eexists. split; [reflexivity | ].
  cbn [_minimumSpaceSize _minimumNewSpaceSize _initialNewSpaceSize _maximumNewSpaceSize
       _minimumOldSpaceSize _initialOldSpaceSize _maximumOldSpaceSize _maximumSpaceSize].
  set (alignment := getAlignment (extensions rt) (_alignmentType this)) in *.
  pose proof (roundToFloor_le alignment (getMaximumMemorySize h) (proj1 Halign) Hcap) as Hfloor.
  pose proof (roundToCeiling_range (umul alignment 2) minimumNewSpaceSize) as HminNew.
  pose proof (roundToCeiling_range alignment minimumTenureSpaceSize) as HminOld.
  pose proof (roundToCeiling_range (umul alignment 2) initialNewSpaceSize) as HinitNew.
  pose proof (roundToCeiling_range alignment initialTenureSpaceSize) as HinitOld.
  pose proof (roundToCeiling_range (umul alignment 2) maximumNewSpaceSize) as HmaxNew.
  pose proof (roundToCeiling_range alignment maximumTenureSpaceSize) as HmaxOld.
  pose proof (roundToCeiling_range alignment minimumSpaceSize) as HminSpace.
  pose proof (roundToCeiling_range alignment memoryMax) as Hmax.
  set (floorSize := MM_Math.roundToFloor alignment (getMaximumMemorySize h)) in *.
  set (minNew := MM_Math.roundToCeiling (umul alignment 2) minimumNewSpaceSize) in *.
  set (minOld := MM_Math.roundToCeiling alignment minimumTenureSpaceSize) in *.
  set (initNew := MM_Math.roundToCeiling (umul alignment 2) initialNewSpaceSize) in *.
  set (initOld := MM_Math.roundToCeiling alignment initialTenureSpaceSize) in *.
  set (maxNew := MM_Math.roundToCeiling (umul alignment 2) maximumNewSpaceSize) in *.
  set (maxOld := MM_Math.roundToCeiling alignment maximumTenureSpaceSize) in *.
  set (minSpace := MM_Math.roundToCeiling alignment minimumSpaceSize) in *.
  set (maxRequested := MM_Math.roundToCeiling alignment memoryMax) in *.
  pose proof (wrap_range (maxOld + maxNew)) as HsumMax.
  pose proof (wrap_range (minNew + minOld)) as HsumMin.
  unfold uadd, usub. rewrite !OMR_MIN_spec, !OMR_MAX_spec.
  set (maximumHeapSize := Z.min floorSize (Z.max maxRequested (wrap (maxOld + maxNew)))).
  assert (Hheap0 : 0 <= maximumHeapSize <= floorSize) by (unfold maximumHeapSize; lia).
  rewrite (wrap_small (maximumHeapSize - Z.min maximumHeapSize minNew)) by lia.
  rewrite (wrap_small (maximumHeapSize - Z.min maximumHeapSize initNew)) by lia.
  split; [lia | ].
  repeat (apply Forall_cons; [lia | ]). apply Forall_nil.
Qed.

Lemma prepareParameters_initial_sizes_witness :
  exists p,
    prepareParameters Sample.configuration 0 16 48 64 8 48 64 1024 0
      (Sample.runtime (set_heap (Some (Sample.theHeap 0 64)) Sample.freshExtensions))
    = Returned p (Sample.runtime (set_heap (Some (Sample.theHeap 0 64)) Sample.freshExtensions)) /\
    _initialNewSpaceSize p + _initialOldSpaceSize p <= _maximumSpaceSize p.
Proof.
  destruct (prepareParameters_initial_sizes Sample.configuration 0 16 48 64 8 48 64 1024 0
              (Sample.runtime (set_heap (Some (Sample.theHeap 0 64)) Sample.freshExtensions))
              (Sample.theHeap 0 64))
    as [p [Hrun [Hsum _]]].
  - reflexivity.
  - simpl. lia.
  - simpl. lia.
  - exists p. split; [exact Hrun | exact Hsum].
Defined.

(** X18. What [createEnvironment] does, call by call.  When it returns,
    the extensions and the VM record are as before, and: nothing was called
    when no environment could be allocated; when the allocation interface
    of the configured variant could not be constructed, the delegate was
    not consulted and the environment was destroyed; otherwise the delegate
    was consulted once, on the equipped environment, and the environment
    was destroyed exactly when the delegate refused it. *)
Theorem createEnvironment_trace (build : Build) (port : Platform)
  (this : MM_Configuration) (omrVMThread : address) (rt : Runtime)
  (result : option MM_EnvironmentBase) (rt' : Runtime) :
  createEnvironment build port this omrVMThread rt = Returned result rt' ->
  extensions rt' = extensions rt /\
  omrVM rt' = omrVM rt /\
  match allocateNewEnvironment this omrVMThread with
  | None => result = None /\ calls rt' = calls rt
  | Some allocated =>
      let interface :=
        match _allocationType this with
        | gc_modron_allocation_type_tlh =>
            option_map MM_TLHAllocationInterface
              (TLHAllocationInterface_newInstance port allocated)
        | gc_modron_allocation_type_segregated =>
            option_map MM_SegregatedAllocationInterface
              (SegregatedAllocationInterface_newInstance port allocated)
        | gc_modron_allocation_type_illegal => None
        end in
      let env := set_objectAllocationInterface interface allocated in
      match interface with
      | None => result = None /\ calls rt' = calls rt ++ [Environment_kill env]
      | Some _ =>
          if delegate_environmentInitialized (_delegate this) env
          then result = Some env /\
               calls rt' = calls rt ++ [Delegate_environmentInitialized env]
          else result = None /\
               calls rt' = calls rt ++ [Delegate_environmentInitialized env;
                                        Environment_kill env]
      end
  end.
Proof.
  intros Hrun. unfold createEnvironment in Hrun.
  destruct (allocateNewEnvironment this omrVMThread) as [allocated | ].
  2:{ unfold ret in Hrun. injection Hrun as <- <-. repeat split. }
  unfold bind at 1 in Hrun.
  destruct (initializeEnvironment build port this allocated rt) as [[ok env'] rt1 | rt1]
    eqn:Hinit; [ | discriminate].
  destruct (initializeEnvironment_run build port this allocated rt ok env' rt1 Hinit)
    as [Hext [Hvm [interface [Henv [Hvariant Hhook]]]]].
  cbv zeta.
  assert (Hinterface :
            match _allocationType this with
            | gc_modron_allocation_type_tlh =>
                option_map MM_TLHAllocationInterface
                  (TLHAllocationInterface_newInstance port allocated)
            | gc_modron_allocation_type_segregated =>
                option_map MM_SegregatedAllocationInterface
                  (SegregatedAllocationInterface_newInstance port allocated)
            | gc_modron_allocation_type_illegal => None
            end = interface)
    by (destruct (_allocationType this); [contradiction | | ];
        destruct Hvariant as [_ ->]; reflexivity).
  rewrite Hinterface. subst env'. clear Hinterface Hvariant Hinit.
  destruct interface as [i | ].
  - destruct Hhook as [-> Hcalls].
    destruct (delegate_environmentInitialized (_delegate this) _); cbn [negb] in Hrun.
    + unfold ret in Hrun. injection Hrun as <- <-. repeat split; assumption.
    + unfold bind, call, ret in Hrun. injection Hrun as <- <-. cbn [extensions omrVM calls].
      rewrite Hcalls, <- app_assoc. repeat split; assumption.
  - destruct Hhook as [-> Hcalls]. cbn [negb] in Hrun.
    unfold bind, call, ret in Hrun. injection Hrun as <- <-. cbn [extensions omrVM calls].
    rewrite Hcalls. repeat split; assumption.
Qed.

(** On a platform whose allocation interfaces cannot be constructed the
    environment is destroyed unseen by the delegate. *)
Lemma createEnvironment_trace_witness :
  exists rt',
    createEnvironment Sample.build Scenario.withoutInterfaces Sample.configuration 7
      (Sample.runtime Sample.freshExtensions) = Returned None rt' /\
    calls rt' = [Environment_kill (Scenario.environmentOf 7)].
Proof.
  destruct (createEnvironment Sample.build Scenario.withoutInterfaces Sample.configuration 7
              (Sample.runtime Sample.freshExtensions))
    as [result rt' | rt'] eqn:Hrun;
    [ | exfalso; vm_compute in Hrun; discriminate Hrun].
  destruct (createEnvironment_trace Sample.build Scenario.withoutInterfaces
              Sample.configuration 7 (Sample.runtime Sample.freshExtensions) result rt' Hrun)
    as [_ [_ [Hresult Hcalls]]].
  subst result. exists rt'. split; [reflexivity | exact Hcalls].
Defined.

(** ** Start-up followed by [kill] *)

(** [initialize] writes neither the resources nor the Metronome flag. *)
Lemma initialize_frame (build : Build) (port : Platform) (this : MM_Configuration) :
  keeps (fun e => (resources e, isMetronomeGC e)) (initialize build port this).
Proof.
  unfold initialize, initializeRegionSize, initializeArrayletLeafSize,
    initializeNUMAManager, initializeGCThreadCount, initializeGCParameters.
  keeps_tac.
Qed.

(** X19. A configuration that was initialized and is then killed gives
    back the lock pool.  Starting with no resource, when [initialize]
    succeeds, the [kill] that follows returns, leaves no resource behind, and
    does exactly this: it destroys the lock pool that [initialize]
    constructed, shuts NUMA support down, tells the delegate, and frees the
    configuration. *)
Theorem initialize_then_kill (build : Build) (port : Platform) (this : MM_Configuration)
  (rt rt' : Runtime) :
  tornDown (extensions rt) ->
  initialize build port this rt = Returned true rt' ->
  exists pool rt'',
    pool_new port = Some pool /\
    kill this rt' = Returned tt rt'' /\
    tornDown (extensions rt'') /\
    calls rt'' =
      calls rt' ++ [pool_kill pool; NUMAManager_shutdownNUMASupport; Delegate_tearDown;
                    Forge_free].
Proof.
  intros Hclean Hrun.
  destruct Hclean as [Hheap [Hmap [Hcollector [Hdispatcher [Hgam [Hmm [Hhrm _]]]]]]].
  pose proof (initialize_frame build port this rt) as Hframe.
  rewrite Hrun in Hframe. cbn [stateOf] in Hframe. unfold resources in Hframe.
  injection Hframe as Hheap' Hmm' Hhrm' Hmap' Hcollector' Hdispatcher' Hgam' Hmetronome'.
  destruct (initialize_outcome build port this rt) as [_ [Hok _]].
  destruct (Hok rt' Hrun) as [_ [_ [_ [Hpool [Hsome _]]]]].
  destruct (pool_new port) as [pool | ]; [ | discriminate Hsome].
  destruct (tearDown_returns this rt') as [[] [rt1 [Hdown [Htorn _]]]].
  exists pool. unfold kill, bind. rewrite Hdown. unfold call. eexists.
  split; [reflexivity | ]. split; [reflexivity | ]. cbn [extensions calls].
  split; [exact Htorn | ].
  rewrite tearDown_run in Hdown. cbv zeta in Hdown. injection Hdown as <-.
  cbn [calls].
  rewrite Hheap', Hheap, Hmap', Hmap, Hcollector', Hcollector, Hgam', Hgam,
    Hmm', Hmm, Hhrm', Hhrm, Hpool.
  assert (Hnodispatcher :
            (if isMetronomeGC (extensions rt') then []
             else match dispatcher (extensions rt') with
                  | Some a => [ParallelDispatcher_kill a]
                  | None => []
                  end) = []).
  { rewrite Hmetronome', Hdispatcher'.
    destruct Hdispatcher as [-> | ->]; [reflexivity | ].
    destruct (isMetronomeGC (extensions rt)); reflexivity. }
  rewrite Hnodispatcher. cbn [option_map app]. rewrite <- app_assoc. reflexivity.
Qed.

Lemma initialize_then_kill_witness :
  exists rt' rt'',
    initialize Sample.build Sample.port Sample.configuration
      (Sample.runtime Sample.freshExtensions) = Returned true rt' /\
    kill Sample.configuration rt' = Returned tt rt'' /\
    tornDown (extensions rt'') /\
    calls rt'' =
      [Delegate_initialize; NUMAManager_recacheNUMASupport;
       pool_kill {| pool_address := 16384 |}; NUMAManager_shutdownNUMASupport;
       Delegate_tearDown; Forge_free].
Proof.
  destruct (initialize Sample.build Sample.port Sample.configuration
              (Sample.runtime Sample.freshExtensions))
    as [[ | ] rt' | rt'] eqn:Hrun; try (vm_compute in Hrun; discriminate Hrun).
  assert (Hclean : tornDown (extensions (Sample.runtime Sample.freshExtensions)))
    by (vm_compute; intuition).
  destruct (initialize_then_kill Sample.build Sample.port Sample.configuration
              (Sample.runtime Sample.freshExtensions) rt' Hclean Hrun)
    as [pool [rt'' [Hpool [Hkill [Htorn Hcalls]]]]].
  assert (Hbefore : calls rt' = [Delegate_initialize; NUMAManager_recacheNUMASupport])
    by (vm_compute in Hrun; injection Hrun as <-; reflexivity).
  injection Hpool as <-.
  exists rt', rt''. split; [reflexivity | ]. split; [exact Hkill | ].
  split; [exact Htorn | ]. rewrite Hcalls, Hbefore. reflexivity.
Defined.
